(** * tiktok_live_fetch: page-state classification, recovery policy and
      interaction watermark, embedded from [src/tiktok_monitor].

    The development follows the Python sources module by module:
    - [Models]    : [models.py]   ([PageSnapshot], [MonitorSession]);
    - [Parser]    : [parser.py]   (the in-page inspection script of
                    [PageParser.parse_page_status]);
    - [Captcha]   : [captcha_handler.py] ([CaptchaHandler.wait_for_solution]);
    - [Hooks]     : [hooks.py]    ([JavaScriptHook.get_live_interactions]);
    - [Collector] : [collector.py] ([LiveCollector.collect_once],
                    [_handle_captcha], [process_live_interactions]);
    - [Samples]   : the wording of the specification as predicates, and the
                    sample pages, snapshots and observations of the
                    examples;
    - [SessionReport], [LiveRoom] : the rest of [models.py];
    - [Display], [MonitorLoop], [Finalize] : the rest of [collector.py]
                    ([_display_interaction], [monitor], [finalize]);
    - [BrowserManager] : [browser.py]; [Config] : [config.py];
    - [CaptchaRoutes]  : the routes and the state of [captcha_handler.py];
    - [PageParser]     : [parse_initial_data] and [create_snapshot] of
                    [parser.py];
    - [Formatter]      : [formatter.py];
    - [PageStore]      : the page's array of captured interactions, as
                    the browser calls of the collector leave it.
    The properties come after the definitions, module by module.

    Python [int] is [Z]; a Python [str] is the list of its Unicode code
    points; a JavaScript string is the list of its UTF-16 code units; a
    wall-clock reading (a Python float) is a rational.  Everything the
    program learns from the browser, the clock or the control surface is an
    explicit observation handed to the functions below. *)

From Stdlib Require Import ZArith QArith Lia Bool.
From stdpp Require Import base option list strings gmap.

Set Warnings "-register-all".
Local Open Scope Z_scope.

(** A Python [str]: its code points. *)
Abbreviation pystr := (list Z) (only parsing).

(** A JavaScript string: its UTF-16 code units. *)
Abbreviation jsstr := (list Z) (only parsing).

(** The code units of an ASCII literal of the source. *)
Definition units (s : string) : list Z :=
  (fun c => Z.of_N (Ascii.N_of_ascii c)) <$> String.list_ascii_of_string s.

(* ===================================================================== *)
(** ** models.py *)
(* ===================================================================== *)

Module Models.

(** What [json.loads]-like data the page hands back for [initial_data]. *)
Inductive Json : Type :=
| JNull
| JBool (b : bool)
| JNum (q : Q)
| JStr (s : pystr)
| JArr (xs : list Json)
| JObj (kvs : list (pystr * Json)).

(** Values stored in the dictionary built by [PageSnapshot.to_dict]. *)
Inductive PyValue : Type :=
| PyNone
| PyBool (b : bool)
| PyInt (z : Z)
| PyStr (s : pystr).

Definition py_optional_int (o : option Z) : PyValue :=
  match o with
  | Some z => PyInt z
  | None => PyNone
  end.

(** [@dataclass class PageSnapshot] *)
Record PageSnapshot : Type := mkPageSnapshot {
  timestamp : pystr;
  url : pystr;
  title : pystr;
  has_video : bool;
  has_error_message : bool;
  has_live_content : bool;
  element_count : Z;
  video_count : Z;
  html_size : Z;
  is_live_ended : bool;
  has_captcha : bool;
  has_page_error : bool;
  viewer_count : option Z;
  initial_data : option Json;
  body_text_preview : pystr
}.

(** [s[:n]] for [0 <= n]. *)
Definition py_slice_to (n : nat) (s : pystr) : pystr := take n s.

(** [initial_data is not None] *)
Definition is_not_None {A} (o : option A) : bool :=
  match o with
  | Some _ => true
  | None => false
  end.

(** [PageSnapshot.to_dict]: the dictionary literal, key by key. *)
Definition to_dict (self : PageSnapshot) : gmap string PyValue :=
  <["body_text_preview" := PyStr (py_slice_to 200 (body_text_preview self))]>
  (<["has_initial_data" := PyBool (is_not_None (initial_data self))]>
  (<["viewer_count" := py_optional_int (viewer_count self)]>
  (<["html_size" := PyInt (html_size self)]>
  (<["video_count" := PyInt (video_count self)]>
  (<["element_count" := PyInt (element_count self)]>
  (<["has_captcha" := PyBool (has_captcha self)]>
  (<["is_live_ended" := PyBool (is_live_ended self)]>
  (<["has_live_content" := PyBool (has_live_content self)]>
  (<["has_page_error" := PyBool (has_page_error self)]>
  (<["has_error_message" := PyBool (has_error_message self)]>
  (<["has_video" := PyBool (has_video self)]>
  (<["title" := PyStr (title self)]>
  (<["url" := PyStr (url self)]>
  (<["timestamp" := PyStr (timestamp self)]> ∅)))))))))))))).

(** The keys of the literal, in the order the source writes them. *)
Definition to_dict_keys : list string :=
  ["timestamp"; "url"; "title"; "has_video"; "has_error_message";
   "has_page_error"; "has_live_content"; "is_live_ended"; "has_captcha";
   "element_count"; "video_count"; "html_size"; "viewer_count";
   "has_initial_data"; "body_text_preview"]%string.

(** [PageSnapshot.is_healthy] (a property): four tests in sequence. *)
Definition is_healthy (self : PageSnapshot) : bool :=
  if has_captcha self then false
  else if has_page_error self then false
  else if is_live_ended self then true
  else negb (has_error_message self) && has_video self.

(** [@dataclass class MonitorSession] *)
Record MonitorSession : Type := mkMonitorSession {
  username : pystr;
  live_url : pystr;
  start_time : pystr;
  end_time : option pystr;
  snapshots : list PageSnapshot;
  total_snapshots : Z;
  healthy_snapshots : Z;
  error_snapshots : Z
}.

(** [MonitorSession(username=..., live_url=..., start_time=...)]: the
    remaining fields take their dataclass defaults. *)
Definition new_session (u l t : pystr) : MonitorSession :=
  {| username := u; live_url := l; start_time := t; end_time := None;
     snapshots := []; total_snapshots := 0; healthy_snapshots := 0;
     error_snapshots := 0 |}.

(** [MonitorSession.add_snapshot] *)
Definition add_snapshot (self : MonitorSession) (snapshot : PageSnapshot)
  : MonitorSession :=
  let self1 :=
    {| username := username self; live_url := live_url self;
       start_time := start_time self; end_time := end_time self;
       snapshots := snapshots self ++ [snapshot];
       total_snapshots := total_snapshots self + 1;
       healthy_snapshots := healthy_snapshots self;
       error_snapshots := error_snapshots self |} in
  if is_healthy snapshot then
    {| username := username self1; live_url := live_url self1;
       start_time := start_time self1; end_time := end_time self1;
       snapshots := snapshots self1;
       total_snapshots := total_snapshots self1;
       healthy_snapshots := healthy_snapshots self1 + 1;
       error_snapshots := error_snapshots self1 |}
  else
    {| username := username self1; live_url := live_url self1;
       start_time := start_time self1; end_time := end_time self1;
       snapshots := snapshots self1;
       total_snapshots := total_snapshots self1;
       healthy_snapshots := healthy_snapshots self1;
       error_snapshots := error_snapshots self1 + 1 |}.

(** A finite sequence of [add_snapshot] calls, first call first. *)
Definition add_snapshots (self : MonitorSession) (l : list PageSnapshot)
  : MonitorSession :=
  foldl add_snapshot self l.

End Models.

(* ===================================================================== *)
(** ** parser.py: the script run by [PageParser.parse_page_status] *)
(* ===================================================================== *)

Module Parser.

(** Completion of a JavaScript expression: a value, or a thrown error (kept
    as the text [error.toString()] would give). *)
Inductive completion (A : Type) : Type :=
| Normal (a : A)
| Throw (e : jsstr).
Arguments Normal {A} a.
Arguments Throw {A} e.

(** Sequencing: a throw skips what follows.  [x ← c; k] is stdpp's
    notation for it. *)
#[global] Instance completion_bind : MBind completion :=
  fun A B (k : A -> completion B) (c : completion A) =>
    match c with
    | Normal a => k a
    | Throw e => Throw e
    end.

(** [try { return body } catch (e) { return dflt }] *)
Definition try_catch {A} (body : completion A) (dflt : A) : A :=
  match body with
  | Normal a => a
  | Throw _ => dflt
  end.

(** [a || b] on booleans coming from DOM queries: [b] is only evaluated
    when [a] is false. *)
Definition or_else (a b : completion bool) : completion bool :=
  x ← a; if x : bool then Normal true else b.

(** The selectors the script uses. *)
Inductive Selector : Type :=
| SelAll                                   (* '*' *)
| SelTag (tag : string)                    (* 'video' *)
| SelAttr (attr val : string)              (* '[class*=...]', '[id*=...]' *)
| SelTagAttr (tag attr val : string).      (* 'iframe[src*=...]' *)

Record Element : Type := mkElement {
  el_innerText : completion jsstr
}.

(** The page as the script sees it. *)
Record Page : Type := mkPage {
  location_href : completion jsstr;      (* window.location.href *)
  document_title : completion jsstr;     (* document.title *)
  body_innerText : completion jsstr;     (* document.body.innerText *)
  querySelectorAll : Selector -> completion (list Element)
}.

(** [!!document.querySelector(sel)] *)
Definition querySelector_found (p : Page) (sel : Selector)
  : completion bool :=
  els ← querySelectorAll p sel;
  Normal (match els with [] => false | _ :: _ => true end).

(** [document.querySelectorAll(sel).length] *)
Definition querySelectorAll_length (p : Page) (sel : Selector)
  : completion Z :=
  els ← querySelectorAll p sel; Normal (Z.of_nat (length els)).

(** [x || '']: the empty string is the only falsy string. *)
Definition or_empty (c : completion jsstr) : completion jsstr := c.

(** [String.prototype.includes] *)
Fixpoint starts_with (needle hay : list Z) : bool :=
  match needle, hay with
  | [], _ => true
  | _ :: _, [] => false
  | a :: needle', b :: hay' => (a =? b) && starts_with needle' hay'
  end.

Fixpoint includes (hay needle : list Z) : bool :=
  starts_with needle hay ||
  match hay with
  | [] => false
  | _ :: hay' => includes hay' needle
  end.

(** Text markers of the source that are not ASCII, by code unit. *)
Definition m_try_other_browser_zh : list Z :=
  [0x5c1d; 0x8bd5; 0x5176; 0x5b83; 0x6d4f; 0x89c8; 0x5668].
Definition m_we_hit_a_problem_zh : list Z :=
  [0x6211; 0x4eec; 0x9047; 0x5230; 0x4e86; 0x4e00; 0x4e9b; 0x95ee; 0x9898].
Definition m_sorry_zh : list Z :=
  [0x5f88; 0x62b1; 0x6b49; 0x9020; 0x6210; 0x4e0d; 0x4fbf].
Definition m_retry_later_zh : list Z :=
  [0x8bf7; 0x7a0d; 0x540e; 0x91cd; 0x8bd5].
Definition m_live_ended_zh : list Z :=
  [0x76f4; 0x64ad; 0x5df2; 0x7ed3; 0x675f].
Definition m_verify_zh : list Z := [0x9a8c; 0x8bc1].
Definition m_slide_verify_zh : list Z := [0x6ed1; 0x52a8; 0x9a8c; 0x8bc1].

(** The character class [[\x00-\x1F\x7F-\x9F]] of the preview clean-up. *)
Definition is_control (c : Z) : bool :=
  ((0x00 <=? c) && (c <=? 0x1F)) || ((0x7F <=? c) && (c <=? 0x9F)).

Definition space : Z := 0x20.

(** [preview.replace(/[\x00-\x1F\x7F-\x9F]/g, ' ')] *)
Definition replace_controls (t : list Z) : list Z :=
  (fun c => if is_control c then space else c) <$> t.

(** [bodyText.substring(0, 500)] followed by the clean-up. *)
Definition bodyTextPreview_of (bodyText : list Z) : list Z :=
  replace_controls (take 500 bodyText).

(** [s.match(/\d+/)]: the first maximal run of ASCII digits. *)
Definition is_digit (c : Z) : bool := (0x30 <=? c) && (c <=? 0x39).

Fixpoint digit_run (t : list Z) : list Z :=
  match t with
  | c :: t' => if is_digit c then c :: digit_run t' else []
  | [] => []
  end.

Fixpoint match_digits (t : list Z) : option (list Z) :=
  match t with
  | [] => None
  | c :: t' => if is_digit c then Some (digit_run t) else match_digits t'
  end.

(** The record the script returns ([error] only in the fallback). *)
Record Status : Type := mkStatus {
  st_url : jsstr;
  st_title : jsstr;
  hasVideo : bool;
  videoCount : Z;
  hasErrorMessage : bool;
  hasPageError : bool;
  isLiveEnded : bool;
  hasLiveContent : bool;
  hasCaptcha : bool;
  elementCount : Z;
  viewerCount : option Z;
  bodyTextPreview : jsstr;
  st_error : option jsstr
}.

Section Script.

(** Built-ins of the JavaScript engine, taken as they are. *)
Variable toLowerCase : jsstr -> jsstr.   (* String.prototype.toLowerCase *)
Variable parseInt : jsstr -> Z.          (* parseInt on a digit run *)

Variable p : Page.

(** [getBodyText()] *)
Definition getBodyText : jsstr := try_catch (body_innerText p) [].

Definition bodyText : jsstr := getBodyText.

(** The expression of each field of the object literal, in the order of
    the source.  A [_body] is what stands inside a field's own
    [try { ... }]. *)
Definition e_url : completion jsstr := location_href p.

Definition e_title : completion jsstr := or_empty (document_title p).

Definition e_hasVideo : completion bool :=
  querySelector_found p (SelTag "video").

Definition e_videoCount : completion Z :=
  querySelectorAll_length p (SelTag "video").

Definition e_hasErrorMessage : completion bool :=
  Normal (includes bodyText m_try_other_browser_zh ||
          includes bodyText (units "try another browser")).

Definition hasPageError_body : completion bool :=
  Normal (includes bodyText m_we_hit_a_problem_zh ||
          includes bodyText m_sorry_zh ||
          includes bodyText m_retry_later_zh ||
          includes bodyText (units "Something went wrong") ||
          includes bodyText (units "We encountered an issue") ||
          includes bodyText (units "Please try again")).

Definition e_hasPageError : completion bool :=
  Normal (try_catch hasPageError_body false).

Definition e_isLiveEnded : completion bool :=
  Normal (includes bodyText m_live_ended_zh ||
          includes bodyText (units "Live ended")).

Definition e_hasLiveContent : completion bool :=
  or_else (querySelector_found p (SelAttr "class" "live"))
          (querySelector_found p (SelAttr "class" "Live")).

Definition hasCaptcha_body : completion bool :=
  let bodyTextLower := toLowerCase bodyText in
  let hasTextKeyword :=
    includes bodyTextLower m_verify_zh ||
    includes bodyTextLower (units "captcha") ||
    includes bodyTextLower (units "verify") ||
    includes bodyTextLower m_slide_verify_zh ||
    includes bodyTextLower (units "slider") in
  hasCaptchaElement ←
    or_else (querySelector_found p (SelAttr "class" "captcha"))
   (or_else (querySelector_found p (SelAttr "class" "verify"))
   (or_else (querySelector_found p (SelAttr "id" "captcha"))
   (or_else (querySelector_found p (SelAttr "id" "verify"))
   (or_else (querySelector_found p (SelTagAttr "iframe" "src" "captcha"))
            (querySelector_found p (SelTagAttr "iframe" "src" "verify"))))));
  Normal (hasTextKeyword || hasCaptchaElement).

Definition e_hasCaptcha : completion bool :=
  Normal (try_catch hasCaptcha_body false).

Definition e_elementCount : completion Z :=
  querySelectorAll_length p SelAll.

Fixpoint viewer_scan (elements : list Element) : completion (option Z) :=
  match elements with
  | [] => Normal None
  | el :: rest =>
      t ← el_innerText el;
      match match_digits t with
      | Some m => Normal (Some (parseInt m))
      | None => viewer_scan rest
      end
  end.

Definition viewerCount_body : completion (option Z) :=
  elements ← querySelectorAll p (SelAttr "class" "viewer");
  viewer_scan elements.

Definition e_viewerCount : completion (option Z) :=
  Normal (try_catch viewerCount_body None).

Definition bodyTextPreview_body : completion jsstr :=
  Normal (bodyTextPreview_of bodyText).

Definition e_bodyTextPreview : completion jsstr :=
  Normal (try_catch bodyTextPreview_body []).

(** The object literal inside the outer [try]. *)
Definition main_record : completion Status :=
  url ← e_url;
  title ← e_title;
  hv ← e_hasVideo;
  vc ← e_videoCount;
  hem ← e_hasErrorMessage;
  hpe ← e_hasPageError;
  ile ← e_isLiveEnded;
  hlc ← e_hasLiveContent;
  hc ← e_hasCaptcha;
  ec ← e_elementCount;
  vwc ← e_viewerCount;
  btp ← e_bodyTextPreview;
  Normal (mkStatus url title hv vc hem hpe ile hlc hc ec vwc btp None).

(** The object literal of the outer [catch (error)]. *)
Definition fallback_record (error : jsstr) : completion Status :=
  url ← or_empty (location_href p);
  title ← or_empty (document_title p);
  Normal (mkStatus url title false 0 false false false false false 0
                   None [] (Some error)).

(** The whole script. *)
Definition script : completion Status :=
  match main_record with
  | Normal st => Normal st
  | Throw error => fallback_record error
  end.

End Script.

(** Python side. *)
Inductive py_exception : Type :=
| WebDriverException        (* the browser cannot be reached *)
| JavascriptException       (* the script itself threw *)
| ParserError
| CollectionError.

Inductive py (A : Type) : Type :=
| Returns (a : A)
| Raises (e : py_exception).
Arguments Returns {A} a.
Arguments Raises {A} e.

(** What [driver.execute_script] has in front of it. *)
Inductive Browser : Type :=
| Reachable (p : Page)
| Unreachable.

Definition execute_script toLowerCase parseInt (b : Browser) : py Status :=
  match b with
  | Unreachable => Raises WebDriverException
  | Reachable p =>
      match script toLowerCase parseInt p with
      | Normal st => Returns st
      | Throw _ => Raises JavascriptException
      end
  end.

(** [PageParser.parse_page_status]: any exception becomes [ParserError]. *)
Definition parse_page_status toLowerCase parseInt (b : Browser) : py Status :=
  match execute_script toLowerCase parseInt b with
  | Returns status => Returns status
  | Raises _ => Raises ParserError
  end.

End Parser.

(* ===================================================================== *)
(** ** captcha_handler.py *)
(* ===================================================================== *)

Module Captcha.

(** One turn of the [while] loop of [wait_for_solution], as the handler
    observes it: the value of [time.time() - start_time] at the loop test
    (seconds) and what [self.captcha_solved] holds when the body reads it
    (the flag is written by the request handler of the control surface). *)
Record Poll : Type := mkPoll {
  elapsed : Q;
  captcha_solved : bool
}.

Definition Qlt_bool (x y : Q) : bool := negb (Qle_bool y x).

(** [CaptchaHandler.wait_for_solution(timeout)].  [None]: the observations
    end while the loop is still turning. *)
Fixpoint wait_for_solution (timeout : Z) (polls : list Poll) : option bool :=
  match polls with
  | [] => None
  | p :: rest =>
      if Qlt_bool (elapsed p) (inject_Z timeout) then
        if captcha_solved p then Some true
        else (* time.sleep(1) *) wait_for_solution timeout rest
      else Some false
  end.

End Captcha.

(* ===================================================================== *)
(** ** hooks.py *)
(* ===================================================================== *)

Module Hooks.

(** An entry of [window.__tiktok_live_interactions]. *)
Record Interaction : Type := mkInteraction {
  i_timestamp : pystr;
  i_type : pystr;
  i_username : pystr;
  i_content : pystr
}.

(** [JavaScriptHook.get_live_interactions]: [read] is the outcome of
    [driver.execute_script("return window.__tiktok_live_interactions || [];")];
    an exception is logged and turned into the empty list. *)
Definition get_live_interactions (read : Parser.py (list Interaction))
  : list Interaction :=
  match read with
  | Parser.Returns interactions => interactions
  | Parser.Raises _ => []
  end.

End Hooks.

(* ===================================================================== *)
(** ** collector.py *)
(* ===================================================================== *)

Module Collector.

Import Models Parser Captcha Hooks.

(** The calls into the browser, the clock, the handler and the console
    that the cycle makes, in the order they are made. *)
Inductive Action : Type :=
| Refresh                          (* self.browser.driver.refresh() *)
| Sleep (seconds : Z)              (* time.sleep(seconds) *)
| InstallAllHooks                  (* self.hooks.install_all_hooks() *)
| InjectDataExtractor              (* self.hooks.inject_data_extractor() *)
| CaptchaReset                     (* self.captcha_handler.reset() *)
| CaptureCaptchaImage              (* capture_captcha_image() *)
| StartApiServer (port : Z)        (* start_api_server(port=5000) *)
| WaitForSolution (timeout : Z)    (* wait_for_solution(timeout) *)
| PrintSummary (s : PageSnapshot). (* print(summary) *)

(** The attributes of [LiveCollector] that the cycle reads or writes. *)
Record LiveCollector : Type := mkLiveCollector {
  hooks : bool;                      (* self.hooks is set *)
  captcha_handler : bool;            (* self.captcha_handler is set *)
  session : option MonitorSession;
  live_has_ended : bool;
  processed_interaction_count : Z;
  page_error_retry_count : Z;
  max_page_error_retries : Z;
  actions : list Action              (* oldest first *)
}.

(** [LiveCollector.__init__] followed by [initialize] and [prepare]:
    counters at zero, at most three page-error retries, a fresh session. *)
Definition ready_collector (u l t : pystr) : LiveCollector :=
  {| hooks := true; captcha_handler := false;
     session := Some (new_session u l t); live_has_ended := false;
     processed_interaction_count := 0; page_error_retry_count := 0;
     max_page_error_retries := 3; actions := [] |}.

Definition set_session (v : option MonitorSession) (c : LiveCollector) :=
  {| hooks := hooks c; captcha_handler := captcha_handler c; session := v;
     live_has_ended := live_has_ended c;
     processed_interaction_count := processed_interaction_count c;
     page_error_retry_count := page_error_retry_count c;
     max_page_error_retries := max_page_error_retries c;
     actions := actions c |}.

Definition set_live_has_ended (v : bool) (c : LiveCollector) :=
  {| hooks := hooks c; captcha_handler := captcha_handler c;
     session := session c; live_has_ended := v;
     processed_interaction_count := processed_interaction_count c;
     page_error_retry_count := page_error_retry_count c;
     max_page_error_retries := max_page_error_retries c;
     actions := actions c |}.

Definition set_processed_interaction_count (v : Z) (c : LiveCollector) :=
  {| hooks := hooks c; captcha_handler := captcha_handler c;
     session := session c; live_has_ended := live_has_ended c;
     processed_interaction_count := v;
     page_error_retry_count := page_error_retry_count c;
     max_page_error_retries := max_page_error_retries c;
     actions := actions c |}.

Definition set_page_error_retry_count (v : Z) (c : LiveCollector) :=
  {| hooks := hooks c; captcha_handler := captcha_handler c;
     session := session c; live_has_ended := live_has_ended c;
     processed_interaction_count := processed_interaction_count c;
     page_error_retry_count := v;
     max_page_error_retries := max_page_error_retries c;
     actions := actions c |}.

Definition set_captcha_handler (v : bool) (c : LiveCollector) :=
  {| hooks := hooks c; captcha_handler := v;
     session := session c; live_has_ended := live_has_ended c;
     processed_interaction_count := processed_interaction_count c;
     page_error_retry_count := page_error_retry_count c;
     max_page_error_retries := max_page_error_retries c;
     actions := actions c |}.

Definition does (a : list Action) (c : LiveCollector) :=
  {| hooks := hooks c; captcha_handler := captcha_handler c;
     session := session c; live_has_ended := live_has_ended c;
     processed_interaction_count := processed_interaction_count c;
     page_error_retry_count := page_error_retry_count c;
     max_page_error_retries := max_page_error_retries c;
     actions := actions c ++ a |}.

(** What [_handle_captcha] meets. *)
Record CaptchaEnv : Type := mkCaptchaEnv {
  construct_ok : bool;     (* CaptchaHandler(...) returns (asked for only
                              when no handler exists yet) *)
  capture_ok : bool;       (* capture_captcha_image() returned True *)
  server_alive : bool;     (* api_server_thread exists and is alive *)
  start_server_ok : bool;  (* start_api_server returns (asked for only
                              when the server is not alive) *)
  polls : list Poll        (* the turns of the wait loop *)
}.

(** Default of the [timeout] argument of [_handle_captcha] (and of
    [wait_for_solution]). *)
Definition default_timeout : Z := 300.

(** [LiveCollector._handle_captcha(timeout)].  Every exception inside is
    caught and gives [False].  [None]: the wait loop has not finished
    within the observations. *)
Definition _handle_captcha (timeout : Z) (env : CaptchaEnv)
    (self : LiveCollector) : option (bool * LiveCollector) :=
  if negb (captcha_handler self) && negb (construct_ok env) then
    Some (false, self)
  else
    let self := set_captcha_handler true self in
    let self := does [CaptchaReset; CaptureCaptchaImage] self in
    if negb (capture_ok env) then Some (false, self)
    else if negb (server_alive env) && negb (start_server_ok env) then
      Some (false, does [StartApiServer 5000] self)
    else
      let self :=
        if negb (server_alive env) then does [StartApiServer 5000] self
        else self in
      let self := does [WaitForSolution timeout] self in
      match wait_for_solution timeout (polls env) with
      | None => None
      | Some true => Some (true, does [Sleep 3] self)
      | Some false => Some (false, self)
      end.

(** What one activation of [collect_once] meets. *)
Record Cycle : Type := mkCycle {
  snapshot_result : py PageSnapshot;  (* self.parser.create_snapshot() *)
  refresh_ok : bool;                  (* driver.refresh() returns *)
  captcha_env : CaptchaEnv
}.

(** How one activation of [collect_once] ends: with [return b], with
    [raise CollectionError], or with [return self.collect_once()]. *)
Inductive Outcome : Type :=
| Done (r : py bool) (self : LiveCollector)
| Again (self : LiveCollector).

Definition state_of (o : Outcome) : LiveCollector :=
  match o with
  | Done _ self => self
  | Again self => self
  end.

(** The body of [LiveCollector.collect_once], with the two recursive calls
    left as [Again]. *)
Definition collect_once_body (c : Cycle) (self : LiveCollector)
  : option Outcome :=
  match snapshot_result c with
  | Raises _ => Some (Done (Raises CollectionError) self)
  | Returns snapshot =>
      if has_page_error snapshot then
        if page_error_retry_count self <? max_page_error_retries self then
          let self :=
            set_page_error_retry_count (page_error_retry_count self + 1) self in
          if negb (refresh_ok c) then
            Some (Done (Raises CollectionError) (does [Refresh] self))
          else
            let self := does [Refresh; Sleep 5] self in
            let self :=
              if hooks self
              then does [InstallAllHooks; InjectDataExtractor] self
              else self in
            Some (Again self)
        else Some (Done (Returns false) self)
      else
        let self :=
          if negb (has_page_error snapshot)
          then set_page_error_retry_count 0 self
          else self in
        if has_captcha snapshot then
          match _handle_captcha default_timeout (captcha_env c) self with
          | None => None
          | Some (true, self) => Some (Again self)
          | Some (false, self) => Some (Done (Returns false) self)
          end
        else
          match session self with
          | None => Some (Done (Raises CollectionError) self)
          | Some sess =>
              let self := set_session (Some (add_snapshot sess snapshot)) self in
              let self := does [PrintSummary snapshot] self in
              if is_live_ended snapshot then
                Some (Done (Returns false) (set_live_has_ended true self))
              else Some (Done (Returns (is_healthy snapshot)) self)
          end
  end.

(** [LiveCollector.collect_once]: each activation takes the next
    observation.  [None]: the observations end before the call returns. *)
Fixpoint collect_once (cycles : list Cycle) (self : LiveCollector)
  : option (py bool * LiveCollector) :=
  match cycles with
  | [] => None
  | c :: rest =>
      match collect_once_body c self with
      | None => None
      | Some (Done r self) => Some (r, self)
      | Some (Again self) => collect_once rest self
      end
  end.

(** [all_interactions[n:]] for any Python [int] [n]. *)
Definition py_slice_from {A} (n : Z) (l : list A) : list A :=
  if n <? 0 then drop (Z.to_nat (Z.max 0 (Z.of_nat (length l) + n))) l
  else drop (Z.to_nat n) l.

(** [LiveCollector.process_live_interactions].  The first component lists
    the arguments of the [_display_interaction] calls, in order. *)
Definition process_live_interactions (read : py (list Interaction))
    (self : LiveCollector) : list Interaction * LiveCollector :=
  if negb (hooks self) then ([], self)
  else
    let all_interactions := get_live_interactions read in
    let new_interactions :=
      py_slice_from (processed_interaction_count self) all_interactions in
    (new_interactions,
     set_processed_interaction_count
       (Z.of_nat (length all_interactions)) self).

(** Successive polls, one read each; what was displayed is concatenated. *)
Fixpoint process_polls (reads : list (py (list Interaction)))
    (self : LiveCollector) : list Interaction * LiveCollector :=
  match reads with
  | [] => ([], self)
  | read :: rest =>
      let '(shown, self1) := process_live_interactions read self in
      let '(shown', self2) := process_polls rest self1 in
      (shown ++ shown', self2)
  end.

End Collector.


(* ===================================================================== *)
(** ** The specification's wording, and sample inputs *)
(* ===================================================================== *)

Module Samples.

Import Models Parser Captcha Hooks Collector.

(** The classification as the specification words it: challenge first,
    then transient error, then ended, then video health. *)
Definition is_healthy_spec
    (captcha page_error live_ended error_message video : bool) : bool :=
  match captcha, page_error, live_ended with
  | true, _, _ => false
  | false, true, _ => false
  | false, false, true => true
  | false, false, false => negb error_message && video
  end.

(** How many snapshots of a list are healthy, and how many are not. *)
Definition count_healthy (l : list PageSnapshot) : Z :=
  Z.of_nat (length (filter (fun x => is_healthy x = true) l)).

Definition count_unhealthy (l : list PageSnapshot) : Z :=
  Z.of_nat (length (filter (fun x => is_healthy x = false) l)).

(** A healthy page. *)
Definition snapshot_healthy : PageSnapshot :=
  {| timestamp := []; url := []; title := [];
     has_video := true; has_error_message := false;
     has_live_content := true; element_count := 120; video_count := 1;
     html_size := 4096; is_live_ended := false; has_captcha := false;
     has_page_error := false; viewer_count := None; initial_data := None;
     body_text_preview := [] |}.

(** A page that shows a video, the ended marker and a captcha at once. *)
Definition snapshot_captcha : PageSnapshot :=
  {| timestamp := []; url := []; title := [];
     has_video := true; has_error_message := false;
     has_live_content := true; element_count := 120; video_count := 1;
     html_size := 4096; is_live_ended := true; has_captcha := true;
     has_page_error := false; viewer_count := Some 7; initial_data := None;
     body_text_preview := [] |}.

(** The transient error page. *)
Definition snapshot_page_error : PageSnapshot :=
  {| timestamp := []; url := []; title := [];
     has_video := false; has_error_message := false;
     has_live_content := false; element_count := 40; video_count := 0;
     html_size := 1024; is_live_ended := false; has_captcha := false;
     has_page_error := true; viewer_count := None; initial_data := None;
     body_text_preview := units "Something went wrong" |}.

(** Stand-ins for the two engine built-ins, used on sample pages only:
    lower-casing of ASCII letters (what [toLowerCase] does on ASCII text)
    and the decimal value of a digit run (what [parseInt] gives while the
    value fits a double exactly). *)
Definition ascii_lower (t : list Z) : list Z :=
  (fun c => if (0x41 <=? c) && (c <=? 0x5A) then c + 32 else c) <$> t.

Definition decimal (t : list Z) : Z :=
  foldl (fun acc c => 10 * acc + (c - 0x30)) 0 t.

(** What the specification promises of one inspection: every signal is
    evaluated on its own, and a signal whose evaluation throws holds its
    default. *)
Definition isolated {A} (e : completion A) (dflt : A) : A := try_catch e dflt.

(** A live page that has ended: the body says so, a captcha frame is in the
    document, and the query for the video element throws. *)
Definition page_video_fault : Page :=
  {| location_href := Normal (units "https://www.tiktok.com/@user/live");
     document_title := Normal (units "LIVE");
     body_innerText := Normal (units "Live ended");
     querySelectorAll := fun sel =>
       match sel with
       | SelTag _ => Throw (units "Error: video")
       | SelTagAttr _ _ _ => Normal [mkElement (Normal [])]
       | _ => Normal []
       end |}.

(** The record the script returns on [page_video_fault]. *)
Definition status_video_fault : Status :=
  {| st_url := units "https://www.tiktok.com/@user/live";
     st_title := units "LIVE";
     hasVideo := false; videoCount := 0; hasErrorMessage := false;
     hasPageError := false; isLiveEnded := false; hasLiveContent := false;
     hasCaptcha := false; elementCount := 0; viewerCount := None;
     bodyTextPreview := []; st_error := Some (units "Error: video") |}.

(** A page on which only the viewer-count elements are broken. *)
Definition page_viewer_fault : Page :=
  {| location_href := Normal (units "https://www.tiktok.com/@user/live");
     document_title := Normal (units "LIVE");
     body_innerText := Normal (units "Live ended");
     querySelectorAll := fun sel =>
       match sel with
       | SelAttr _ v =>
           if String.eqb v "viewer"
           then Normal [mkElement (Throw (units "TypeError"))]
           else Normal []
       | SelTag _ => Normal [mkElement (Normal []); mkElement (Normal [])]
       | SelAll => Normal (replicate 9 (mkElement (Normal [])))
       | SelTagAttr _ _ _ => Normal []
       end |}.

(** The record the script returns on [page_viewer_fault]. *)
Definition status_viewer_fault : Status :=
  {| st_url := units "https://www.tiktok.com/@user/live";
     st_title := units "LIVE";
     hasVideo := true; videoCount := 2; hasErrorMessage := false;
     hasPageError := false; isLiveEnded := true; hasLiveContent := false;
     hasCaptcha := false; elementCount := 9; viewerCount := None;
     bodyTextPreview := units "Live ended"; st_error := None |}.

(** A page whose title cannot be read. *)
Definition page_title_fault : Page :=
  {| location_href := Normal (units "https://www.tiktok.com/@user/live");
     document_title := Throw (units "Error: title");
     body_innerText := Normal [];
     querySelectorAll := fun _ => Normal [] |}.

(** A body of 600 characters with a BEL at positions 1 and 599. *)
Definition body_600 : list Z :=
  [0x41; 0x07] ++ replicate 597 0x42 ++ [0x07].

(** A page with that body text and nothing that throws. *)
Definition page_body_600 : Page :=
  {| location_href := Normal (units "https://www.tiktok.com/@user/live");
     document_title := Normal (units "LIVE");
     body_innerText := Normal body_600;
     querySelectorAll := fun _ => Normal [] |}.

(** What neither the page-error branch nor the challenge branch touches:
    the session with its counters, the ended flag, the interaction
    watermark, the retry limit and the hooks. *)
Definition untouched (self self' : LiveCollector) : Prop :=
  session self' = session self
  /\ live_has_ended self' = live_has_ended self
  /\ processed_interaction_count self' = processed_interaction_count self
  /\ max_page_error_retries self' = max_page_error_retries self
  /\ hooks self' = hooks self.

(** The calls one page-error retry makes, given whether hooks are set. *)
Definition retry_actions (hooks_set : bool) : list Action :=
  Refresh :: Sleep 5 ::
  (if hooks_set then [InstallAllHooks; InjectDataExtractor] else []).

(** The calls [_handle_captcha] makes up to and including the wait. *)
Definition captcha_actions (server_was_alive : bool) (timeout : Z)
  : list Action :=
  [CaptchaReset; CaptureCaptchaImage] ++
  (if server_was_alive then [] else [StartApiServer 5000]) ++
  [WaitForSolution timeout].

(** An activation that sees the transient error page. *)
Definition page_error_cycle (c : Cycle) : Prop :=
  exists s : PageSnapshot,
    snapshot_result c = Returns s /\ has_page_error s = true.

(** An activation in which [driver.refresh()] returns. *)
Definition refreshable (c : Cycle) : Prop := refresh_ok c = true.

(** An activation that sees a captcha and no page error. *)
Definition captcha_snapshot (c : Cycle) : Prop :=
  exists s : PageSnapshot,
    snapshot_result c = Returns s /\ has_page_error s = false /\
    has_captcha s = true.

(** The handler gets as far as the wait: it exists or can be built, the
    page is captured, and the control surface runs or can be started. *)
Definition window_opens (self : LiveCollector) (c : Cycle) : Prop :=
  (captcha_handler self = true \/ construct_ok (captcha_env c) = true)
  /\ capture_ok (captcha_env c) = true
  /\ (server_alive (captcha_env c) = true \/
      start_server_ok (captcha_env c) = true).

(** The clock of the wait loop never runs backwards. *)
Definition clock_monotone (polls : list Poll) : Prop :=
  forall (i j : nat) (p q : Poll),
    (i <= j)%nat -> polls !! i = Some p -> polls !! j = Some q ->
    (elapsed p <= elapsed q)%Q.

(** Each turn of the wait loop sleeps for at least a second, so the [i]-th
    loop test comes at least [i] seconds after the start. *)
Definition ticking (polls : list Poll) : Prop :=
  forall (i : nat) (p : Poll),
    polls !! i = Some p -> (inject_Z (Z.of_nat i) <= elapsed p)%Q.

(** The flag is read in time: some turn of the loop whose test comes
    before [timeout] seconds have elapsed reads the flag as set. *)
Definition flag_read_within (timeout : Z) (polls : list Poll) : Prop :=
  exists (i : nat) (p : Poll),
    polls !! i = Some p /\ captcha_solved p = true /\
    (elapsed p < inject_Z timeout)%Q.

(** The window elapses without resolution: at some loop test [timeout]
    seconds or more have elapsed, and no earlier turn read the flag as
    set. *)
Definition elapsed_unresolved (timeout : Z) (polls : list Poll) : Prop :=
  exists (i : nat) (p : Poll),
    polls !! i = Some p /\ (inject_Z timeout <= elapsed p)%Q /\
    forall (j : nat) (q : Poll),
      (j < i)%nat -> polls !! j = Some q -> captcha_solved q = false.

(** A turn of the wait loop in time, in seconds after the start of the
    wait: when its loop test reads the clock, and when its body reads the
    flag. *)
Record WaitTurn : Type := mkWaitTurn {
  tested_at : Q;
  read_at : Q
}.

(** The flag as read [t] seconds in, when the control surface sets it
    [arrival] seconds in ([None]: never).  Nothing clears the flag during
    the wait. *)
Definition flag_at (arrival : option Q) (t : Q) : bool :=
  match arrival with
  | Some a => Qle_bool a t
  | None => false
  end.

(** What the wait loop observes in these turns with that signal. *)
Definition polls_of (arrival : option Q) (turns : list WaitTurn)
  : list Poll :=
  (fun w => mkPoll (tested_at w) (flag_at arrival (read_at w))) <$> turns.

(** The specification's condition: the resolution signal arrives within
    the window. *)
Definition arrives_within (timeout : Z) (arrival : option Q) : Prop :=
  exists a : Q, arrival = Some a /\ (a < inject_Z timeout)%Q.

(** The code's condition: the signal is seen in time, that is, some turn
    tests the clock before [timeout] seconds and reads the flag when the
    signal has arrived. *)
Definition seen_within (timeout : Z) (arrival : option Q)
    (turns : list WaitTurn) : Prop :=
  exists (a : Q) (i : nat) (w : WaitTurn),
    arrival = Some a /\ turns !! i = Some w /\
    (tested_at w < inject_Z timeout)%Q /\ (a <= read_at w)%Q.

(** The signal is missed: a loop test comes [timeout] seconds in or later,
    and every turn before it read the flag before the signal arrived, if it
    arrived at all. *)
Definition missed (timeout : Z) (arrival : option Q)
    (turns : list WaitTurn) : Prop :=
  exists (i : nat) (w : WaitTurn),
    turns !! i = Some w /\ (inject_Z timeout <= tested_at w)%Q /\
    forall (j : nat) (v : WaitTurn),
      (j < i)%nat -> turns !! j = Some v ->
      flag_at arrival (read_at v) = false.

(** The captured sequence only grows by appending: each read of it extends
    the one before. *)
Fixpoint growing {A} (reads : list (list A)) : Prop :=
  match reads with
  | [] => True
  | l :: rest =>
      match rest with
      | [] => True
      | l' :: _ => l `prefix_of` l'
      end /\ growing rest
  end.

(** A captcha environment in which everything but the user works. *)
Definition captcha_env_of (polls : list Poll) : CaptchaEnv :=
  {| construct_ok := true; capture_ok := true; server_alive := false;
     start_server_ok := true; polls := polls |}.

(** One activation that sees snapshot [s]; the refresh works. *)
Definition cycle_of (s : PageSnapshot) (polls : list Poll) : Cycle :=
  {| snapshot_result := Returns s; refresh_ok := true;
     captcha_env := captcha_env_of polls |}.

(** The flag is read as set at the third turn, two seconds in. *)
Definition polls_solved : list Poll :=
  [mkPoll 0 false; mkPoll 1 false; mkPoll (201 # 100) true].

(** The turns that give [polls_solved], the click coming a second and a
    half in. *)
Definition turns_solved : list WaitTurn :=
  [mkWaitTurn 0 0; mkWaitTurn 1 1; mkWaitTurn (201 # 100) (201 # 100)].

(** 301 turns, each a little over a second long: turn [k] tests and reads
    the flag [k * 1.0025] seconds in, so turn 299 comes at 299.7475 s and
    turn 300 at 300.75 s. *)
Definition turns_late : list WaitTurn :=
  (fun k => mkWaitTurn (Z.of_nat k * 401 # 400) (Z.of_nat k * 401 # 400))
    <$> seq 0 301.

(** Nobody answers: a turn per second, up to second 300. *)
Definition polls_timeout : list Poll :=
  (fun i => mkPoll (inject_Z (Z.of_nat i)) false) <$> seq 0 301.

(** A collector right after [prepare]. *)
Definition collector0 : LiveCollector := ready_collector [] [] [].

(** Successive calls of [collect_once], each with its own observations;
    the answers are listed in call order. *)
Fixpoint collect_calls (calls : list (list Cycle)) (self : LiveCollector)
  : option (list (py bool) * LiveCollector) :=
  match calls with
  | [] => Some ([], self)
  | cycles :: more =>
      match collect_once cycles self with
      | None => None
      | Some (r, self1) =>
          match collect_calls more self1 with
          | None => None
          | Some (rs, self2) => Some (r :: rs, self2)
          end
      end
  end.

(** The answers, the recorded snapshots, the three session counters and
    the retry counter at the end of a run. *)
Definition summary (run : option (list (py bool) * LiveCollector))
  : option (list (py bool) * option (list PageSnapshot)
            * option (Z * Z * Z) * Z) :=
  match run with
  | None => None
  | Some (rs, self) =>
      Some (rs, snapshots <$> session self,
            (fun sess => (total_snapshots sess, healthy_snapshots sess,
                          error_snapshots sess)) <$> session self,
            page_error_retry_count self)
  end.

(** Three captured interactions. *)
Definition chat1 : Interaction :=
  mkInteraction (units "2024-01-01T10:00:00.000Z") (units "chat")
                (units "ann") (units "hello").
Definition gift2 : Interaction :=
  mkInteraction (units "2024-01-01T10:00:01.000Z") (units "gift")
                [] (units "rose x1").
Definition chat3 : Interaction :=
  mkInteraction (units "2024-01-01T10:00:02.000Z") (units "chat")
                (units "bob") (units "hi").
Definition captured3 : list Interaction := [chat1; gift2; chat3].

End Samples.

(* ===================================================================== *)
(** ** models.py, the rest: [MonitorSession.finish], [MonitorSession.to_dict]
       and [LiveRoomInfo] *)
(* ===================================================================== *)

Module SessionReport.

Import Models.

(** [MonitorSession.finish]; [now] is [datetime.now().isoformat()]. *)
Definition finish (now : pystr) (self : MonitorSession) : MonitorSession :=
  {| username := username self; live_url := live_url self;
     start_time := start_time self; end_time := Some now;
     snapshots := snapshots self;
     total_snapshots := total_snapshots self;
     healthy_snapshots := healthy_snapshots self;
     error_snapshots := error_snapshots self |}.

(** Values of the dictionary built by [MonitorSession.to_dict]. *)
Inductive SessionValue : Type :=
| Plain (v : PyValue)
| Dicts (l : list (gmap string PyValue)).

Definition py_optional_str (o : option pystr) : PyValue :=
  match o with
  | Some s => PyStr s
  | None => PyNone
  end.

(** [MonitorSession.to_dict] *)
Definition session_to_dict (self : MonitorSession)
  : gmap string SessionValue :=
  <["snapshots" := Dicts (to_dict <$> snapshots self)]>
  (<["error_snapshots" := Plain (PyInt (error_snapshots self))]>
  (<["healthy_snapshots" := Plain (PyInt (healthy_snapshots self))]>
  (<["total_snapshots" := Plain (PyInt (total_snapshots self))]>
  (<["end_time" := Plain (py_optional_str (end_time self))]>
  (<["start_time" := Plain (PyStr (start_time self))]>
  (<["live_url" := Plain (PyStr (live_url self))]>
  (<["username" := Plain (PyStr (username self))]> ∅))))))).

End SessionReport.

Module LiveRoom.

Import Models.

(** A value handed back by the browser, seen from Python: [JNull] is
    [None], [JObj] a [dict] (its keys are distinct). *)
Fixpoint assoc (key : pystr) (kvs : list (pystr * Json)) : option Json :=
  match kvs with
  | [] => None
  | (k, v) :: rest => if decide (k = key) then Some v else assoc key rest
  end.

(** [d.get(key, default)].  [None]: [d] is no [dict], the call raises
    [AttributeError]. *)
Definition dict_get (d : Json) (key : pystr) (default : Json)
  : option Json :=
  match d with
  | JObj kvs =>
      Some (match assoc key kvs with
            | Some v => v
            | None => default
            end)
  | _ => None
  end.

(** [@dataclass class LiveRoomInfo]: every field defaults to [None]. *)
Record LiveRoomInfo : Type := mkLiveRoomInfo {
  room_id : Json;
  title : Json;
  status : Json;
  user_count : Json;
  stream_url : Json;
  owner_nickname : Json;
  owner_id : Json
}.

(** [cls()] *)
Definition blank : LiveRoomInfo :=
  mkLiveRoomInfo JNull JNull JNull JNull JNull JNull JNull.

(** [LiveRoomInfo.from_initial_data]: the assignments in order; the first
    call that raises ends the [try] and the object is returned with the
    fields assigned so far. *)
Definition from_initial_data (data : Json) : LiveRoomInfo :=
  match dict_get data (units "__DEFAULT_SCOPE__") (JObj []) with
  | None => blank
  | Some default_scope =>
  match dict_get default_scope (units "webapp.live-detail") (JObj []) with
  | None => blank
  | Some live_detail =>
  match dict_get live_detail (units "liveRoomInfo") (JObj []) with
  | None => blank
  | Some live_room_info =>
  match dict_get live_room_info (units "id") JNull with
  | None => blank
  | Some v_id =>                                   (* info.room_id = ... *)
  match dict_get live_room_info (units "title") JNull with
  | None => mkLiveRoomInfo v_id JNull JNull JNull JNull JNull JNull
  | Some v_title =>                                (* info.title = ... *)
  match dict_get live_room_info (units "status") JNull with
  | None => mkLiveRoomInfo v_id v_title JNull JNull JNull JNull JNull
  | Some v_status =>                               (* info.status = ... *)
  match dict_get live_room_info (units "userCount") JNull with
  | None => mkLiveRoomInfo v_id v_title v_status JNull JNull JNull JNull
  | Some v_count =>                                (* info.user_count = ... *)
  match dict_get live_room_info (units "streamUrl") JNull with
  | None => mkLiveRoomInfo v_id v_title v_status v_count JNull JNull JNull
  | Some v_stream =>                               (* info.stream_url = ... *)
  let room := mkLiveRoomInfo v_id v_title v_status v_count v_stream
                JNull JNull in
  match dict_get default_scope (units "webapp.user-detail") (JObj []) with
  | None => room
  | Some user_detail =>
  match dict_get user_detail (units "userInfo") (JObj []) with
  | None => room
  | Some user_info =>
  match dict_get user_info (units "user") (JObj []) with
  | None => room
  | Some user_data =>
  match dict_get user_data (units "nickname") JNull with
  | None => room
  | Some v_nick =>                                 (* info.owner_nickname = ... *)
  match dict_get user_data (units "id") JNull with
  | None => mkLiveRoomInfo v_id v_title v_status v_count v_stream v_nick JNull
  | Some v_owner =>                                (* info.owner_id = ... *)
  mkLiveRoomInfo v_id v_title v_status v_count v_stream v_nick v_owner
  end end end end end end end end end end end end end.

(** [LiveRoomInfo.to_dict] *)
Definition room_to_dict (self : LiveRoomInfo) : gmap string Json :=
  <["owner_id" := owner_id self]>
  (<["owner_nickname" := owner_nickname self]>
  (<["stream_url" := stream_url self]>
  (<["user_count" := user_count self]>
  (<["status" := status self]>
  (<["title" := title self]>
  (<["room_id" := room_id self]> ∅)))))).

(** [PageParser.parse_live_room_info] *)
Definition parse_live_room_info (initial_data : Json) : LiveRoomInfo :=
  from_initial_data initial_data.

End LiveRoom.

(* ===================================================================== *)
(** ** collector.py, the rest: [_display_interaction] and [monitor] *)
(* ===================================================================== *)

Module Display.

Import Hooks.

(** [s[i:j]] for [0 <= i <= j]. *)
Definition py_slice {A} (i j : nat) (s : list A) : list A :=
  take (j - i) (drop i s).

(** [timestamp[11:19] if len(timestamp) >= 19 else timestamp] *)
Definition time_str (timestamp : pystr) : pystr :=
  if (19 <=? length timestamp)%nat then py_slice 11 19 timestamp
  else timestamp.

(** [f"<icon>[{time_str}] "], the head of every line. *)
Definition head_of (icon : list Z) (timestamp : pystr) : pystr :=
  icon ++ [0x5B] ++ time_str timestamp ++ [0x5D; 0x20].

(** The icons, each with the blanks that follow it in the source. *)
Definition icon_chat : list Z := [0x1F4AC; 0x20].
Definition icon_gift : list Z := [0x1F381; 0x20].
Definition icon_like : list Z := [0x2764; 0xFE0F; 0x20; 0x20].
Definition icon_follow : list Z := [0x2795; 0x20].
Definition icon_share : list Z := [0x1F517; 0x20].
Definition icon_join : list Z := [0x1F44B; 0x20].
Definition icon_other : list Z := [0x1F4E1; 0x20].

(** The word for "gift" printed on gift lines. *)
Definition word_gift : list Z := [0x793C; 0x7269].

Definition colon : list Z := [0x3A; 0x20].

(** [LiveCollector._display_interaction]: the lines it prints. *)
Definition _display_interaction (interaction : Interaction)
  : list pystr :=
  let timestamp := i_timestamp interaction in
  let interaction_type := i_type interaction in
  let username := i_username interaction in
  let content := i_content interaction in
  if decide (interaction_type = units "chat") then
    [head_of icon_chat timestamp ++ username ++ colon ++ content]
  else if decide (interaction_type = units "gift") then
    [head_of icon_gift timestamp ++ word_gift ++ colon ++ content]
  else if decide (interaction_type = units "like") then
    [head_of icon_like timestamp ++ content]
  else if decide (interaction_type = units "follow") then
    [head_of icon_follow timestamp ++ content]
  else if decide (interaction_type = units "share") then
    [head_of icon_share timestamp ++ content]
  else if decide (interaction_type = units "join") then
    [head_of icon_join timestamp ++ content]
  else
    match content with
    | [] => []
    | _ :: _ =>
        [head_of icon_other timestamp ++ interaction_type ++ colon
           ++ content]
    end.

(** What a poll prints: the lines of its new interactions, in order. *)
Definition printed (new_interactions : list Interaction) : list pystr :=
  new_interactions ≫= _display_interaction.

End Display.

Module MonitorLoop.

Import Models Parser Captcha Hooks Collector.

(** One turn of the [while] loop of [monitor] as the loop observes it: the
    two readings of [time.time() - start_time] (at the loop test, then for
    [elapsed]), what [collect_once] meets if it is called in this turn, and
    the read of the poll. *)
Record Turn : Type := mkTurn {
  at_test : Q;
  at_body : Q;
  turn_cycles : list Cycle;
  turn_read : py (list Interaction)
}.

(** What a run of [monitor] leaves behind: how it ended, what the polls
    displayed, the values of [elapsed] with which [collect_once] was
    called, and the collector. *)
Record Run : Type := mkRun {
  ended : py unit;
  displayed : list Interaction;
  collected_at : list Q;
  after : LiveCollector
}.

Definition and_then (shown : list Interaction) (at_ : list Q) (r : Run)
  : Run :=
  {| ended := ended r; displayed := shown ++ displayed r;
     collected_at := at_ ++ collected_at r; after := after r |}.

(** The loop of [LiveCollector.monitor], from the value of
    [last_collect_time] on.  [None]: the observations end while the loop is
    still turning. *)
Fixpoint monitor_from (monitor_duration collect_interval : Z)
    (turns : list Turn) (last_collect_time : Q) (self : LiveCollector)
  : option Run :=
  match turns with
  | [] => None
  | turn :: rest =>
      if Qlt_bool (at_test turn) (inject_Z monitor_duration) then
        let elapsed := at_body turn in
        if Qle_bool (inject_Z collect_interval)
                    (elapsed - last_collect_time) then
          match collect_once (turn_cycles turn) self with
          | None => None
          | Some (Raises _, self) =>
              Some (mkRun (Raises CollectionError) [] [elapsed] self)
          | Some (Returns false, self) =>                (* break *)
              Some (mkRun (Returns tt) [] [elapsed] self)
          | Some (Returns true, self) =>
              let '(shown, self) :=
                process_live_interactions (turn_read turn) self in
              option_map (and_then shown [elapsed])
                (monitor_from monitor_duration collect_interval rest
                   elapsed self)
          end
        else
          let '(shown, self) :=
            process_live_interactions (turn_read turn) self in
          option_map (and_then shown [])
            (monitor_from monitor_duration collect_interval rest
               last_collect_time self)
      else Some (mkRun (Returns tt) [] [] self)
  end.

(** [LiveCollector.monitor]: [last_collect_time = 0]. *)
Definition monitor (monitor_duration collect_interval : Z)
    (turns : list Turn) (self : LiveCollector) : option Run :=
  monitor_from monitor_duration collect_interval turns 0 self.

End MonitorLoop.

(* ===================================================================== *)
(** ** browser.py: [_ensure_window_handle], [visit_live_room], [close] *)
(* ===================================================================== *)

Module BrowserManager.

(** What happens inside the [try] of one attempt of
    [_ensure_window_handle]: [driver.window_handles] or
    [switch_to.window] raises, no handle is there, or the first handle is
    switched to. *)
Inductive WindowAttempt : Type :=
| WindowRaises
| NoHandle
| Switched (handle : pystr).

(** How a call ends: [return] after a switch, falling off the end of the
    [for] loop, or the exception of the last attempt. *)
Inductive WindowResult : Type :=
| Ready (handle : pystr)
| NothingSelected
| WindowError.

(** The [for attempt in range(max_retries)] loop with [todo] attempts to
    go; the second component counts the [time.sleep(1)] calls.  [None]:
    the observations end before the loop does. *)
Fixpoint ensure_from (todo : nat) (attempts : list WindowAttempt)
  : option (WindowResult * nat) :=
  match todo with
  | O => Some (NothingSelected, O)
  | S todo' =>
      match attempts with
      | [] => None
      | Switched handle :: _ => Some (Ready handle, O)
      | NoHandle :: rest => ensure_from todo' rest
      | WindowRaises :: rest =>
          match todo' with
          | O => Some (WindowError, O)            (* attempt = max_retries - 1 *)
          | S _ =>
              match ensure_from todo' rest with
              | Some (r, sleeps) => Some (r, S sleeps)
              | None => None
              end
          end
      end
  end.

(** [BrowserManager._ensure_window_handle]: [max_retries = 5]. *)
Definition _ensure_window_handle (attempts : list WindowAttempt)
  : option (WindowResult * nat) :=
  ensure_from 5 attempts.

(** The calls of [time.sleep] on the way through [visit_live_room], by
    the place they stand at. *)
Inductive Nap : Type :=
| NapWindow        (* _ensure_window_handle: time.sleep(1) *)
| NapLoaded        (* after the wait for key elements: time.sleep(1) *)
| NapModal         (* _close_login_modal, at entry: time.sleep(2) *)
| NapModalClosed   (* _close_login_modal, after a close: time.sleep(1) *)
| NapScroll        (* after each scroll script: time.sleep(0.5) *)
| NapRetry.        (* between attempts: time.sleep(retry_delay) *)

(** How long each lasts, in milliseconds; [retry_delay = 2]. *)
Definition millis (n : Nap) : Z :=
  match n with
  | NapWindow | NapLoaded | NapModalClosed => 1000
  | NapModal | NapRetry => 2000
  | NapScroll => 500
  end.

(** What the script of [_close_login_modal] does: it returns a truthy
    value (a dialog was closed), a falsy one, or raises. *)
Inductive ModalOutcome : Type :=
| ModalClosed
| ModalAbsent
| ModalRaises.

(** [BrowserManager._close_login_modal]: it raises nothing; these are its
    sleeps. *)
Definition _close_login_modal (m : ModalOutcome) : list Nap :=
  NapModal ::
  match m with
  | ModalClosed => [NapModalClosed]
  | ModalAbsent | ModalRaises => []
  end.

(** What one attempt of [visit_live_room] meets. *)
Record VisitAttempt : Type := mkVisitAttempt {
  window : list WindowAttempt;   (* for _ensure_window_handle *)
  get_ok : bool;                 (* driver.get(live_url) returns *)
  wait_ok : bool;                (* the wait for a key element succeeds *)
  alive_after : bool;            (* _is_browser_alive() after the load *)
  modal : ModalOutcome;          (* for _close_login_modal *)
  scrolls_run : nat              (* how many of the four scroll scripts
                                    return before one raises; 4: all *)
}.

Inductive VisitResult : Type :=
| Visited
| BrowserError.

(** The [try] block of one attempt: whether it reaches its [return]
    ([false]: an exception reaches the [except]), the calls of
    [driver.get] and the sleeps, in order. *)
Definition visit_try (a : VisitAttempt) : option (bool * nat * list Nap) :=
  match _ensure_window_handle (window a) with
  | None => None
  | Some (WindowError, n) => Some (false, O, replicate n NapWindow)
  | Some (_, n) =>
      let naps := replicate n NapWindow in
      if negb (get_ok a) then Some (false, 1%nat, naps)
      else
        let naps := naps ++ (if wait_ok a then [NapLoaded] else []) in
        if negb (alive_after a) then Some (false, 1%nat, naps)
        else
          let naps := naps ++ _close_login_modal (modal a) in
          if (scrolls_run a <? 4)%nat then
            Some (false, 1%nat, naps ++ replicate (scrolls_run a) NapScroll)
          else Some (true, 1%nat, naps ++ replicate 4 NapScroll)
  end.

(** The [for attempt in range(max_retries)] loop of [visit_live_room] with
    [todo] attempts to go; the second component counts the calls of
    [driver.get], the third lists every [time.sleep] made. *)
Fixpoint visit_from (todo : nat) (attempts : list VisitAttempt)
  : option (VisitResult * nat * list Nap) :=
  match todo with
  | O => Some (Visited, O, [])       (* range exhausted: not reached *)
  | S todo' =>
      match attempts with
      | [] => None
      | a :: rest =>
          match visit_try a with
          | None => None
          | Some (true, gets, naps) => Some (Visited, gets, naps)
          | Some (false, gets, naps) =>
              match todo' with
              | O => Some (BrowserError, gets, naps)
              | S _ =>
                  match visit_from todo' rest with
                  | Some (r, gets', naps') =>
                      Some (r, (gets + gets')%nat, naps ++ NapRetry :: naps')
                  | None => None
                  end
              end
          end
      end
  end.

(** [BrowserManager.visit_live_room]: [driver_set] is whether
    [self.driver] is set, [alive] the answer of [_is_browser_alive()] at
    entry; [max_retries = 3]. *)
Definition visit_live_room (driver_set alive : bool)
    (attempts : list VisitAttempt) : option (VisitResult * nat * list Nap) :=
  if negb driver_set then Some (BrowserError, O, [])
  else if negb alive then Some (BrowserError, O, [])
  else visit_from 3 attempts.

(** [BrowserManager.close]: the new value of "[self.driver] is set" and
    the number of [driver.quit()] calls; [quit_ok] is whether [quit]
    returns. *)
Definition close (quit_ok : bool) (driver_set : bool) : bool * nat :=
  if driver_set then (false, 1%nat) else (driver_set, O).

End BrowserManager.

(* ===================================================================== *)
(** ** config.py *)
(* ===================================================================== *)

Module Config.

(** Truth value of [os.getenv(name)]: unset and empty are false. *)
Definition env_set (v : option pystr) : bool :=
  match v with
  | Some (_ :: _) => true
  | _ => false
  end.

(** [is_running_in_docker]: [dockerenv] is [os.path.exists("/.dockerenv")],
    [cgroup] the outcome of reading [/proc/1/cgroup], the last two the
    environment variables [DOCKER_CONTAINER] and [USE_XVFB]. *)
Definition is_running_in_docker (dockerenv : bool)
    (cgroup : Parser.py pystr) (docker_container use_xvfb : option pystr)
  : bool :=
  if dockerenv then true
  else
    match cgroup with
    | Parser.Returns text => Parser.includes text (units "docker")
    | Parser.Raises _ =>
        if env_set docker_container || env_set use_xvfb then true
        else false
    end.

(** [@dataclass class MonitorConfig] *)
Record MonitorConfig : Type := mkMonitorConfig {
  username : pystr;
  live_url : option pystr;
  window_size : Z * Z;
  headless : bool;
  chrome_binary_path : option pystr;
  chromedriver_path : option pystr;
  in_docker : bool;
  monitor_duration : Z;
  collect_interval : Z;
  page_load_timeout : Z;
  implicit_wait : Z
}.

(** [f"https://www.tiktok.com/@{self.username}/live"] *)
Definition live_url_of (username : pystr) : pystr :=
  units "https://www.tiktok.com/@" ++ username ++ units "/live".

(** [__post_init__]: the address is derived when none, or an empty one, was
    given. *)
Definition __post_init__ (self : MonitorConfig) : MonitorConfig :=
  match live_url self with
  | Some (_ :: _) => self
  | _ =>
      {| username := username self;
         live_url := Some (live_url_of (username self));
         window_size := window_size self; headless := headless self;
         chrome_binary_path := chrome_binary_path self;
         chromedriver_path := chromedriver_path self;
         in_docker := in_docker self;
         monitor_duration := monitor_duration self;
         collect_interval := collect_interval self;
         page_load_timeout := page_load_timeout self;
         implicit_wait := implicit_wait self |}
  end.

(** [MonitorConfig(username=..., live_url=..., headless=...,
    monitor_duration=..., collect_interval=...)]: the other fields take
    their defaults; [docker] is the answer of [is_running_in_docker()]. *)
Definition make (username : pystr) (live_url : option pystr)
    (headless : bool) (monitor_duration collect_interval : Z)
    (docker : bool) : MonitorConfig :=
  __post_init__
    {| username := username; live_url := live_url;
       window_size := (1920, 1080); headless := headless;
       chrome_binary_path := None; chromedriver_path := None;
       in_docker := docker; monitor_duration := monitor_duration;
       collect_interval := collect_interval; page_load_timeout := 30;
       implicit_wait := 10 |}.

End Config.

(* ===================================================================== *)
(** ** captcha_handler.py, the rest: the handler's state and its routes *)
(* ===================================================================== *)

Module CaptchaRoutes.

Import Models.

(** The two attributes of [CaptchaHandler] that the routes share with the
    collector. *)
Record Handler : Type := mkHandler {
  captcha_image_base64 : option pystr;
  captcha_solved : bool
}.

(** [CaptchaHandler.__init__], as far as these two attributes go. *)
Definition __init__ : Handler :=
  {| captcha_image_base64 := None; captcha_solved := false |}.

(** [CaptchaHandler.reset] *)
Definition reset (self : Handler) : Handler :=
  {| captcha_image_base64 := None; captcha_solved := false |}.

(** [CaptchaHandler.capture_captcha_image]: [shot] is the Base64 text of
    the screenshot, or the exception met on the way to it. *)
Definition capture_captcha_image (shot : Parser.py pystr) (self : Handler)
  : bool * Handler :=
  match shot with
  | Parser.Returns img_base64 =>
      (true,
       {| captcha_image_base64 :=
            Some (units "data:image/png;base64," ++ img_base64);
          captcha_solved := captcha_solved self |})
  | Parser.Raises _ => (false, self)
  end.

(** [CaptchaHandler._click_at_coordinates]: [script] is the outcome of
    [driver.execute_script]; what the script returns is not looked at. *)
Definition _click_at_coordinates (script : Parser.py Json) : bool :=
  match script with
  | Parser.Returns _ => true
  | Parser.Raises _ => false
  end.

(** Truth value of a request body, [None] being [JNull]. *)
Definition truthy (v : Json) : bool :=
  match v with
  | JNull => false
  | JBool b => b
  | JNum q => negb (Qeq_bool q 0)
  | JStr s => match s with [] => false | _ :: _ => true end
  | JArr xs => match xs with [] => false | _ :: _ => true end
  | JObj kvs => match kvs with [] => false | _ :: _ => true end
  end.

Definition is_str (key : pystr) (v : Json) : bool :=
  match v with
  | JStr s => bool_decide (s = key)
  | _ => false
  end.

(** [key in data].  [None]: [data] is not iterable, [TypeError]. *)
Definition contains (data : Json) (key : pystr) : option bool :=
  match data with
  | JObj kvs =>
      Some (match LiveRoom.assoc key kvs with
            | Some _ => true
            | None => false
            end)
  | JArr xs => Some (existsb (is_str key) xs)
  | JStr s => Some (Parser.includes s key)
  | JNull | JBool _ | JNum _ => None
  end.

(** [data[key]] for a string key.  [None]: [TypeError] (or [KeyError]). *)
Definition item (data : Json) (key : pystr) : option Json :=
  match data with
  | JObj kvs => LiveRoom.assoc key kvs
  | _ => None
  end.

(** What a route answers: a JSON body with a status code, or an exception
    that leaves the route (the framework answers 500). *)
Inductive Answer : Type :=
| Reply (status_code : Z) (body : list (string * Json))
| Unhandled.

Definition msg_image_not_ready : pystr :=
  [0x9a8c; 0x8bc1; 0x7801; 0x56fe; 0x7247; 0x672a; 0x51c6; 0x5907; 0x597d].
Definition msg_missing_coordinates : pystr :=
  [0x7f3a; 0x5c11; 0x5750; 0x6807; 0x53c2; 0x6570].
Definition msg_click_done : pystr :=
  [0x70b9; 0x51fb; 0x5df2; 0x6267; 0x884c; 0xff0c; 0x8bf7; 0x7b49; 0x5f85;
   0x9a8c; 0x8bc1; 0x2e; 0x2e; 0x2e].
Definition msg_click_failed : pystr :=
  [0x70b9; 0x51fb; 0x6267; 0x884c; 0x5931; 0x8d25].

(** Route [GET /api/captcha]; [now] is [time.time()]. *)
Definition get_captcha (now : Q) (self : Handler) : Answer :=
  match captcha_image_base64 self with
  | Some ((_ :: _) as image) =>
      Reply 200 [("success", JBool true); ("image", JStr image);
                 ("timestamp", JNum now)]%string
  | _ => Reply 404 [("error", JStr msg_image_not_ready)]%string
  end.

(** Route [POST /api/captcha/click]; [data] is [request.get_json()]. *)
Definition handle_click (data : Json) (script : Parser.py Json)
    (self : Handler) : Answer * Handler :=
  let bad_request :=
    (Reply 400 [("error", JStr msg_missing_coordinates)]%string, self) in
  if negb (truthy data) then bad_request
  else
    match contains data (units "x") with
    | None => (Unhandled, self)
    | Some false => bad_request
    | Some true =>
        match contains data (units "y") with
        | None => (Unhandled, self)
        | Some false => bad_request
        | Some true =>
            match item data (units "x"), item data (units "y") with
            | Some x, Some y =>
                if _click_at_coordinates script then
                  (Reply 200 [("success", JBool true);
                              ("message", JStr msg_click_done)]%string,
                   {| captcha_image_base64 := captcha_image_base64 self;
                      captcha_solved := true |})
                else
                  (Reply 500 [("success", JBool false);
                              ("message", JStr msg_click_failed)]%string,
                   self)
            | _, _ => (Unhandled, self)
            end
        end
    end.

(** Route [GET /api/captcha/status] *)
Definition get_status (self : Handler) : Answer :=
  Reply 200 [("solved", JBool (captcha_solved self));
             ("has_image",
              JBool (match captcha_image_base64 self with
                     | Some _ => true
                     | None => false
                     end))]%string.

End CaptchaRoutes.

(* ===================================================================== *)
(** ** parser.py, the rest: the embedded data and the snapshot *)
(* ===================================================================== *)

Module PageParser.

Import Models Parser.

(** A [script] element as the script of [parse_initial_data] meets it: its
    [id] and the outcome of [JSON.parse(script.textContent)], [None] when
    the parse throws. *)
Record ScriptTag : Type := mkScriptTag {
  script_id : jsstr;
  parsed : option Json
}.

Definition rehydration_id : jsstr :=
  units "__UNIVERSAL_DATA_FOR_REHYDRATION__".

(** The script of [parse_initial_data] over
    [document.querySelectorAll('script')]; [JNull] is [null]. *)
Fixpoint initial_data_script (scripts : list ScriptTag) : Json :=
  match scripts with
  | [] => JNull
  | script :: rest =>
      if decide (script_id script = rehydration_id) then
        match parsed script with
        | Some data => data
        | None => JNull
        end
      else initial_data_script rest
  end.

(** [PageParser.parse_initial_data]: [scripts] is what [execute_script]
    has in front of it, or the exception it raises. *)
Definition parse_initial_data (scripts : py (list ScriptTag))
  : option Json :=
  match scripts with
  | Returns tags =>
      match initial_data_script tags with
      | JNull => None
      | initial_data => Some initial_data
      end
  | Raises _ => None
  end.

Section Snapshot.

Variable toLowerCase : jsstr -> jsstr.
Variable parseInt : jsstr -> Z.
(** The driver's hand-over of a JavaScript string as a Python [str]. *)
Variable to_py : jsstr -> pystr.

(** [PageParser.create_snapshot]: [b] and [scripts] are what the two
    scripts meet, [page_source] the outcome of [driver.page_source], [now]
    the text of [datetime.now().isoformat()]. *)
Definition create_snapshot (b : Browser) (scripts : py (list ScriptTag))
    (page_source : py pystr) (now : pystr) : py PageSnapshot :=
  match parse_page_status toLowerCase parseInt b with
  | Raises _ => Raises ParserError
  | Returns page_status =>
      let initial_data := parse_initial_data scripts in
      match page_source with
      | Raises _ => Raises ParserError
      | Returns html_content =>
          Returns
            {| timestamp := now;
               url := to_py (st_url page_status);
               title := to_py (st_title page_status);
               has_video := hasVideo page_status;
               has_error_message := hasErrorMessage page_status;
               has_live_content := hasLiveContent page_status;
               element_count := elementCount page_status;
               video_count := videoCount page_status;
               html_size := Z.of_nat (length html_content);
               is_live_ended := isLiveEnded page_status;
               has_captcha := hasCaptcha page_status;
               has_page_error := hasPageError page_status;
               viewer_count := viewerCount page_status;
               initial_data := initial_data;
               body_text_preview := to_py (bodyTextPreview page_status) |}
      end
  end.

End Snapshot.

End PageParser.

(* ===================================================================== *)
(** ** formatter.py: the two console summaries *)
(* ===================================================================== *)

Module Formatter.

Import Models.

(** [sep.join(parts)] *)
Fixpoint join (sep : pystr) (parts : list pystr) : pystr :=
  match parts with
  | [] => []
  | x :: rest =>
      match rest with
      | [] => x
      | _ :: _ => x ++ sep ++ join sep rest
      end
  end.

(** [lines.insert(-1, x)]: before the last element; on an empty list the
    index is clamped to 0. *)
Definition insert_before_last {A} (x : A) (lines : list A) : list A :=
  take (length lines - 1) lines ++ x :: drop (length lines - 1) lines.

(** The literal pieces of the f-strings, by code point. *)
Definition mark_yes : pystr := [0x2705].
Definition mark_no : pystr := [0x274c].
Definition l_time : pystr :=
  [0x1f4f8; 0x20; 0x5feb; 0x7167; 0x65f6; 0x95f4; 0x3a; 0x20].
Definition l_video : pystr :=
  [0x20; 0x20; 0x251c; 0x2500; 0x20; 0x89c6; 0x9891; 0x5143; 0x7d20; 0x3a;
   0x20].
Definition l_detect : pystr :=
  [0x20; 0x20; 0x251c; 0x2500; 0x20; 0x68c0; 0x6d4b; 0x72b6; 0x6001; 0x3a;
   0x20].
Definition s_detected : pystr := [0x274c; 0x20; 0x88ab; 0x68c0; 0x6d4b].
Definition s_normal : pystr := [0x2705; 0x20; 0x6b63; 0x5e38].
Definition l_live : pystr :=
  [0x20; 0x20; 0x251c; 0x2500; 0x20; 0x76f4; 0x64ad; 0x5185; 0x5bb9; 0x3a;
   0x20].
Definition line_page_error : pystr :=
  [0x20; 0x20; 0x251c; 0x2500; 0x20; 0x26a0; 0xfe0f; 0x20; 0x20; 0x9875;
   0x9762; 0x9519; 0x8bef; 0x3a; 0x20; 0x1f6a8; 0x20; 0x68c0; 0x6d4b;
   0x5230; 0x9875; 0x9762; 0x95ee; 0x9898; 0xff01].
Definition line_captcha : pystr :=
  [0x20; 0x20; 0x251c; 0x2500; 0x20; 0x26a0; 0xfe0f; 0x20; 0x20; 0x9a8c;
   0x8bc1; 0x7801; 0x3a; 0x20; 0x1f6a8; 0x20; 0x68c0; 0x6d4b; 0x5230;
   0x9a8c; 0x8bc1; 0x7801; 0xff01].
Definition l_elements : pystr :=
  [0x20; 0x20; 0x251c; 0x2500; 0x20; 0x5143; 0x7d20; 0x6570; 0x91cf; 0x3a;
   0x20].
Definition l_html : pystr :=
  [0x20; 0x20; 0x2514; 0x2500; 0x20; 0x48; 0x54; 0x4d; 0x4c; 0x20; 0x5927;
   0x5c0f; 0x3a; 0x20].
Definition s_bytes : pystr := [0x20; 0x5b57; 0x8282].
Definition l_viewers : pystr :=
  [0x20; 0x20; 0x251c; 0x2500; 0x20; 0x89c2; 0x4f17; 0x6570; 0x3a; 0x20].

Definition rule : pystr := replicate 80 0x3d.
Definition s_title : pystr :=
  [0x1f4ca; 0x20; 0x76d1; 0x63a7; 0x4f1a; 0x8bdd; 0x6458; 0x8981].
Definition l_user : pystr := [0x7528; 0x6237; 0x540d; 0x3a; 0x20; 0x40].
Definition l_start : pystr := [0x5f00; 0x59cb; 0x65f6; 0x95f4; 0x3a; 0x20].
Definition l_end : pystr := [0x7ed3; 0x675f; 0x65f6; 0x95f4; 0x3a; 0x20].
Definition s_running : pystr := [0x8fdb; 0x884c; 0x4e2d].
Definition l_total : pystr := [0x603b; 0x5feb; 0x7167; 0x6570; 0x3a; 0x20].
Definition l_healthy : pystr := [0x6b63; 0x5e38; 0x5feb; 0x7167; 0x3a; 0x20].
Definition l_error : pystr := [0x5f02; 0x5e38; 0x5feb; 0x7167; 0x3a; 0x20].
Definition s_last_state : pystr := [0x6700; 0x540e; 0x72b6; 0x6001; 0x3a].
Definition l_last_detect : pystr :=
  [0x20; 0x20; 0x2d; 0x20; 0x68c0; 0x6d4b; 0x72b6; 0x6001; 0x3a; 0x20].
Definition s_undetected : pystr :=
  [0x2705; 0x20; 0x672a; 0x88ab; 0x68c0; 0x6d4b].
Definition l_last_page : pystr :=
  [0x20; 0x20; 0x2d; 0x20; 0x9875; 0x9762; 0x72b6; 0x6001; 0x3a; 0x20].
Definition s_page_bad : pystr := [0x274c; 0x20; 0x9519; 0x8bef].
Definition s_page_ok : pystr := [0x2705; 0x20; 0x6b63; 0x5e38].
Definition l_last_play : pystr :=
  [0x20; 0x20; 0x2d; 0x20; 0x89c6; 0x9891; 0x64ad; 0x653e; 0x3a; 0x20].
Definition s_play_yes : pystr := [0x2705; 0x20; 0x662f].
Definition s_play_no : pystr := [0x274c; 0x20; 0x5426].

Section Format.

(** Built-ins of Python, taken as they are. *)
Variable str_int : Z -> pystr.          (* f"{n}" for an int *)
Variable format_thousands : Z -> pystr. (* f"{n:,}" for an int *)

(** The list [lines] of [format_snapshot_summary] at its [return]. *)
Definition snapshot_summary_lines (snapshot : PageSnapshot) : list pystr :=
  let lines :=
    [ l_time ++ timestamp snapshot;
      l_video ++ (if has_video snapshot then mark_yes else mark_no);
      l_detect ++
        (if has_error_message snapshot then s_detected else s_normal);
      l_live ++ (if has_live_content snapshot then mark_yes else mark_no) ] in
  let lines :=
    if has_page_error snapshot then lines ++ [line_page_error] else lines in
  let lines :=
    if has_captcha snapshot then lines ++ [line_captcha] else lines in
  let lines :=
    lines ++
    [ l_elements ++ str_int (element_count snapshot);
      l_html ++ format_thousands (html_size snapshot) ++ s_bytes ] in
  match viewer_count snapshot with
  | Some n =>
      if n =? 0 then lines
      else insert_before_last (l_viewers ++ str_int n) lines
  | None => lines
  end.

(** [ResultFormatter.format_snapshot_summary] *)
Definition format_snapshot_summary (snapshot : PageSnapshot) : pystr :=
  join [0x0a] (snapshot_summary_lines snapshot).

(** [session.end_time or '...'] *)
Definition end_time_or_running (end_time : option pystr) : pystr :=
  match end_time with
  | Some ((_ :: _) as t) => t
  | _ => s_running
  end.

(** The list [lines] of [format_session_summary] at its [return]. *)
Definition session_summary_lines (session : MonitorSession) : list pystr :=
  let lines :=
    [ rule; s_title; rule;
      l_user ++ username session;
      l_start ++ start_time session;
      l_end ++ end_time_or_running (end_time session);
      [];
      l_total ++ str_int (total_snapshots session);
      l_healthy ++ str_int (healthy_snapshots session) ++ [0x20; 0x2705];
      l_error ++ str_int (error_snapshots session) ++ [0x20; 0x274c] ] in
  match last (snapshots session) with
  | Some last_snapshot =>
      lines ++
      [ [];
        s_last_state;
        l_last_detect ++
          (if has_error_message last_snapshot
           then s_detected else s_undetected);
        l_last_page ++
          (if has_page_error last_snapshot then s_page_bad else s_page_ok);
        l_last_play ++
          (if has_video last_snapshot then s_play_yes else s_play_no) ]
  | None => lines
  end.

(** [ResultFormatter.format_session_summary] *)
Definition format_session_summary (session : MonitorSession) : pystr :=
  join [0x0a] (session_summary_lines session).

End Format.

End Formatter.

(* ===================================================================== *)
(** ** collector.py: [finalize] *)
(* ===================================================================== *)

Module Finalize.

Import Models Parser Collector.

Section Finalize.

Variable str_int : Z -> pystr.

(** [LiveCollector.finalize]: the text printed (after an empty line) and
    the collector afterwards; [now] is [datetime.now().isoformat()].
    Without a session the attribute access raises, and the exception
    leaves as [CollectionError]. *)
Definition finalize (now : pystr) (self : LiveCollector)
  : py pystr * LiveCollector :=
  match session self with
  | None => (Raises CollectionError, self)
  | Some sess =>
      let sess := SessionReport.finish now sess in
      (Returns (Formatter.format_session_summary str_int sess),
       set_session (Some sess) self)
  end.

End Finalize.

End Finalize.

(* ===================================================================== *)
(** ** More sample inputs *)
(* ===================================================================== *)

Module MoreSamples.

Import Models Parser Captcha Hooks Collector Samples.
Import SessionReport Display MonitorLoop BrowserManager.

(** The error page with a captcha frame on top of it. *)
Definition snapshot_error_and_captcha : PageSnapshot :=
  {| timestamp := []; url := []; title := [];
     has_video := false; has_error_message := false;
     has_live_content := false; element_count := 40; video_count := 0;
     html_size := 1024; is_live_ended := false; has_captcha := true;
     has_page_error := true; viewer_count := None; initial_data := None;
     body_text_preview := units "Something went wrong" |}.

(** [d[k1][k2]...[kn]] read the way [from_initial_data] reads: a missing
    key on the way stands for an empty [dict], a missing last key for
    [None]; the answer is [None] when a value on the way is no [dict]. *)
Fixpoint get_path (keys : list (list Z)) (d : Json) : option Json :=
  match keys with
  | [] => Some d
  | k :: rest =>
      match rest with
      | [] => LiveRoom.dict_get d k JNull
      | _ :: _ =>
          match LiveRoom.dict_get d k (JObj []) with
          | None => None
          | Some d' => get_path rest d'
          end
      end
  end.

Definition room_path (key : string) : list (list Z) :=
  [units "__DEFAULT_SCOPE__"; units "webapp.live-detail";
   units "liveRoomInfo"; units key].

Definition owner_path (key : string) : list (list Z) :=
  [units "__DEFAULT_SCOPE__"; units "webapp.user-detail";
   units "userInfo"; units "user"; units key].

(** Initial data whose room section is [null] and whose user section is
    complete. *)
Definition data_room_null : Json :=
  JObj [(units "__DEFAULT_SCOPE__",
         JObj [(units "webapp.live-detail", JNull);
               (units "webapp.user-detail",
                JObj [(units "userInfo",
                       JObj [(units "user",
                              JObj [(units "nickname", JStr (units "ann"));
                                    (units "id", JStr (units "42"))])])])])].

(** Initial data with a room and a user section. *)
Definition data_room_and_owner : Json :=
  JObj [(units "__DEFAULT_SCOPE__",
         JObj [(units "webapp.live-detail",
                JObj [(units "liveRoomInfo",
                       JObj [(units "id", JStr (units "7301"));
                             (units "status", JNum 2)])]);
               (units "webapp.user-detail",
                JObj [(units "userInfo",
                       JObj [(units "user",
                              JObj [(units "nickname", JStr (units "ann"));
                                    (units "id", JStr (units "42"))])])])])].

(** The interaction types that have a line of their own. *)
Definition known_types : list (list Z) :=
  [units "chat"; units "gift"; units "like"; units "follow"; units "share";
   units "join"].

(** Successive times, each at least [interval] after the one before,
    counted from [last]. *)
Fixpoint spaced (interval : Z) (last : Q) (times : list Q) : Prop :=
  match times with
  | [] => True
  | t :: more => (inject_Z interval <= t - last)%Q /\ spaced interval t more
  end.

(** The snapshots a collector has recorded. *)
Definition recorded (self : LiveCollector) : list PageSnapshot :=
  match session self with
  | Some sess => snapshots sess
  | None => []
  end.

(** Two collectors that a poll cannot tell apart. *)
Definition same_poll_state (a b : LiveCollector) : Prop :=
  hooks a = hooks b
  /\ processed_interaction_count a = processed_interaction_count b.

(** A turn of the monitor loop that sees a healthy page if it looks, and
    reads [seen]. *)
Definition turn_at (t : Q) (seen : list Interaction) : Turn :=
  {| at_test := t; at_body := t;
     turn_cycles := [cycle_of snapshot_healthy []];
     turn_read := Returns seen |}.

(** Five turns over 25 seconds, then the test after the deadline. *)
Definition turns_25s : list Turn :=
  [turn_at 0 []; turn_at 7 [chat1]; turn_at 12 [chat1; gift2];
   turn_at 19 [chat1; gift2]; turn_at 24 captured3; turn_at 31 captured3].

(** None of the first [i] attempts switched to a window. *)
Definition no_switch_before (i : nat) (attempts : list WindowAttempt)
  : Prop :=
  forall (j : nat) (h : list Z),
    (j < i)%nat -> attempts !! j <> Some (Switched h).

(** An attempt of [visit_live_room] goes through: the window check does not
    raise, the page loads, the browser is still there and the four scroll
    scripts run. *)
Definition attempt_succeeds (a : VisitAttempt) : bool :=
  match _ensure_window_handle (window a) with
  | Some (Ready _, _) | Some (NothingSelected, _) =>
      get_ok a && alive_after a && (4 <=? scrolls_run a)%nat
  | Some (WindowError, _) | None => false
  end.

(** The same attempt with other outcomes of the wait for key elements and
    of the login dialog. *)
Definition with_wait (b : bool) (m : ModalOutcome) (a : VisitAttempt)
  : VisitAttempt :=
  {| window := window a; get_ok := get_ok a; wait_ok := b;
     alive_after := alive_after a; modal := m;
     scrolls_run := scrolls_run a |}.

(** A sum over the sleeps made. *)
Definition tally (f : Nap -> Z) (naps : list Nap) : Z :=
  foldr (fun n acc => f n + acc) 0 naps.

(** Milliseconds slept, and the number of retry delays. *)
Definition slept (naps : list Nap) : Z := tally millis naps.

Definition retry_delays (naps : list Nap) : Z :=
  tally (fun n => match n with NapRetry => 1 | _ => 0 end) naps.

(** Two exceptions, then an empty answer, then a window. *)
Definition window_late : list WindowAttempt :=
  [WindowRaises; WindowRaises; NoHandle; Switched (units "CDwindow-1")].

(** Five empty answers. *)
Definition window_never : list WindowAttempt := replicate 5 NoHandle.

(** A visit that goes through at the third attempt: the first load
    raises, in the second the browser is gone after the load, in the third
    the wait times out and a login dialog is closed. *)
Definition visit_third_time : list VisitAttempt :=
  [mkVisitAttempt window_late false true true ModalAbsent 4;
   mkVisitAttempt window_never true true false ModalAbsent 4;
   mkVisitAttempt window_never true false true ModalClosed 4].

End MoreSamples.

(* ===================================================================== *)
(** ** The calls served by one captcha handler *)
(* ===================================================================== *)

Module HandlerCalls.

Import Models Parser CaptchaRoutes.

(** What reaches a [CaptchaHandler] after its construction: the collector
    calls [reset] and [capture_captcha_image], the control surface posts
    click requests.  The requests for the image and the status only read. *)
Inductive HandlerCall : Type :=
| CallReset
| CallCapture (shot : py pystr)
| CallClick (data : Json) (script : py Json).

Definition serve (c : HandlerCall) (self : Handler) : Handler :=
  match c with
  | CallReset => reset self
  | CallCapture shot => snd (capture_captcha_image shot self)
  | CallClick data script => snd (handle_click data script self)
  end.

(** The handler after the calls, served in order. *)
Definition serve_all (calls : list HandlerCall) (self : Handler) : Handler :=
  fold_left (fun h c => serve c h) calls self.

(** The request body is an object with the keys [x] and [y]. *)
Definition has_coordinates (data : Json) : bool :=
  match data with
  | JObj kvs =>
      match LiveRoom.assoc (units "x") kvs, LiveRoom.assoc (units "y") kvs with
      | Some _, Some _ => true
      | _, _ => false
      end
  | _ => false
  end.

(** [s] holds the string [key] among its elements. *)
Definition holds (key : string) (xs : list Json) : bool :=
  existsb (is_str (units key)) xs.

(** The request body is refused for want of coordinates: it is falsy
    ([null], [false], [0], an empty string, list or object), or it is a
    string, a list or an object in which ["x"] or ["y"] is not found. *)
Definition lacks_coordinates (data : Json) : bool :=
  match data with
  | JNull => true
  | JBool b => negb b
  | JNum q => Qeq_bool q 0
  | JStr s => negb (includes s (units "x") && includes s (units "y"))
  | JArr xs => negb (holds "x" xs && holds "y" xs)
  | JObj _ => negb (has_coordinates data)
  end.

(** The request body makes the route raise [TypeError]: [true] or a number
    other than 0 (no [in] on them), or a string or a list in which both
    ["x"] and ["y"] are found (no [data["x"]] on them). *)
Definition breaks_route (data : Json) : bool :=
  match data with
  | JNull => false
  | JBool b => b
  | JNum q => negb (Qeq_bool q 0)
  | JStr s => includes s (units "x") && includes s (units "y")
  | JArr xs => holds "x" xs && holds "y" xs
  | JObj _ => false
  end.

(** The request carries coordinates and the driver ran the click script. *)
Definition accepted (data : Json) (script : py Json) : bool :=
  has_coordinates data &&
  match script with Returns _ => true | Raises _ => false end.

Definition image_prefix : pystr := units "data:image/png;base64,".

(** A click at (120, 340) where the page has no element: the script
    returns [false]. *)
Definition click_nowhere : HandlerCall :=
  CallClick (JObj [(units "x", JNum 120); (units "y", JNum 340)])
            (Returns (JBool false)).

End HandlerCalls.

(* ===================================================================== *)
(** ** Vocabulary for the printed summaries *)
(* ===================================================================== *)

Module Printed.

Import Models Collector Samples.

(** A snapshot that shows neither a page error nor a captcha. *)
Definition clean (s : PageSnapshot) : Prop :=
  has_page_error s = false /\ has_captcha s = false.

(** The viewer count is shown: it is known and not zero. *)
Definition viewers_shown (s : PageSnapshot) : bool :=
  match viewer_count s with
  | Some n => negb (n =? 0)
  | None => false
  end.

(** The snapshots whose summary is printed by the given actions. *)
Definition summaries (acts : list Action) : list PageSnapshot :=
  omap (fun a => match a with PrintSummary s => Some s | _ => None end) acts.

(** Two calls of [collect_once]: the first meets the error page, refreshes
    and then records a healthy page; the second records a healthy page. *)
Definition calls_error_then_healthy : list (list Cycle) :=
  [ [cycle_of snapshot_page_error []; cycle_of snapshot_healthy []];
    [cycle_of snapshot_healthy []] ].

(** Python's [str] of a small natural number is enough for the samples. *)
Definition str_digit (n : Z) : pystr := [0x30 + n].

End Printed.

(* ===================================================================== *)
(** ** The page's array of captured interactions *)
(* ===================================================================== *)

Module PageStore.

Import Models Parser Hooks Collector Samples.

(** What a browser call of the collector does to the array
    [window.__tiktok_live_interactions] of the page.  [driver.refresh()]
    loads the document anew: the array is gone, and
    [get_live_interactions] reads [[]] for it ([|| []]).  The script of
    [install_event_hook], run by [install_all_hooks], starts by assigning
    [[]] to it.  No other call of the collector writes it. *)
Definition store_after (a : Action) (store : list Interaction)
  : list Interaction :=
  match a with
  | Refresh | InstallAllHooks => []
  | _ => store
  end.

Definition store_after_all (acts : list Action) (store : list Interaction)
  : list Interaction :=
  foldl (fun s a => store_after a s) store acts.

(** The calls made since [self], read off the log of [self']. *)
Definition calls_since (self self' : LiveCollector) : list Action :=
  drop (length (actions self)) (actions self').

(** The page was loaded anew among these calls. *)
Definition reloads (acts : list Action) : bool :=
  existsb (fun a => match a with Refresh => true | _ => false end) acts.

(** A call of [collect_once] and then a poll.  [store] is the array when
    the call starts, [captured] what the page's hook pushes between the end
    of the call and the poll.  The answer of the call, the interactions the
    poll displays, the array as the poll reads it, and the collector. *)
Definition collect_then_poll (cycles : list Cycle)
    (store captured : list Interaction) (self : LiveCollector)
  : option (py bool * list Interaction * list Interaction * LiveCollector) :=
  match collect_once cycles self with
  | None => None
  | Some (r, self1) =>
      let store1 :=
        store_after_all (calls_since self self1) store ++ captured in
      let '(shown, self2) :=
        process_live_interactions (Returns store1) self1 in
      Some (r, shown, store1, self2)
  end.

(** A collector that has polled [captured3]. *)
Definition collector_polled3 : LiveCollector :=
  snd (process_live_interactions (Returns captured3) collector0).

(** A call that meets the error page, refreshes, and then sees a healthy
    page. *)
Definition cycles_retry : list Cycle :=
  [cycle_of snapshot_page_error []; cycle_of snapshot_healthy []].

(** The collector after that call. *)
Definition collector_after_retry : LiveCollector :=
  match collect_once cycles_retry collector_polled3 with
  | Some (_, self') => self'
  | None => collector_polled3
  end.

End PageStore.

(* ===================================================================== *)
(** * Properties of models.py *)
(* ===================================================================== *)

Section ModelsFacts.

Import Models Samples.

(** C1. [is_healthy] is the specified function of the five flags
    [has_captcha], [has_page_error], [is_live_ended], [has_error_message],
    [has_video], tested in that order; two snapshots that agree on these
    five flags have the same health whatever their other fields hold; and a
    snapshot with a captcha is never healthy. *)
Theorem is_healthy_priority (s : PageSnapshot) :
  is_healthy s =
    is_healthy_spec (has_captcha s) (has_page_error s) (is_live_ended s)
                    (has_error_message s) (has_video s)
  /\ (forall s' : PageSnapshot,
        has_captcha s' = has_captcha s ->
        has_page_error s' = has_page_error s ->
        is_live_ended s' = is_live_ended s ->
        has_error_message s' = has_error_message s ->
        has_video s' = has_video s ->
        is_healthy s' = is_healthy s)
  /\ (has_captcha s = true -> is_healthy s = false)
  /\ (has_captcha s = false -> has_page_error s = true ->
        is_healthy s = false)
  /\ (has_captcha s = false -> has_page_error s = false ->
        is_live_ended s = true -> is_healthy s = true)
  /\ (has_captcha s = false -> has_page_error s = false ->
        is_live_ended s = false ->
        is_healthy s = negb (has_error_message s) && has_video s).
Proof.
  unfold is_healthy, is_healthy_spec.
  split_and!.
  - destruct (has_captcha s), (has_page_error s), (is_live_ended s);
      reflexivity.
  - intros s' Hc Hp Hl He Hv. rewrite Hc, Hp, Hl, He, Hv. reflexivity.
  - intros Hc. rewrite Hc. reflexivity.
  - intros Hc Hp. rewrite Hc, Hp. reflexivity.
  - intros Hc Hp Hl. rewrite Hc, Hp, Hl. reflexivity.
  - intros Hc Hp Hl. rewrite Hc, Hp, Hl. reflexivity.
Qed.

Lemma is_healthy_priority_witness :
  is_healthy snapshot_captcha = false.
Proof.
  destruct (is_healthy_priority snapshot_captcha) as (_ & _ & Hcaptcha & _).
  apply Hcaptcha. reflexivity.
Defined.

Lemma add_snapshot_step (sess : MonitorSession) (x : PageSnapshot) :
  snapshots (add_snapshot sess x) = snapshots sess ++ [x]
  /\ total_snapshots (add_snapshot sess x) = total_snapshots sess + 1
  /\ healthy_snapshots (add_snapshot sess x) =
       healthy_snapshots sess + (if is_healthy x then 1 else 0)
  /\ error_snapshots (add_snapshot sess x) =
       error_snapshots sess + (if is_healthy x then 0 else 1).
Proof.
  unfold add_snapshot.
  destruct (is_healthy x); simpl; split_and!; first [reflexivity | lia].
Qed.

Lemma count_cons (x : PageSnapshot) (l : list PageSnapshot) :
  count_healthy (x :: l) = (if is_healthy x then 1 else 0) + count_healthy l
  /\ count_unhealthy (x :: l) =
       (if is_healthy x then 0 else 1) + count_unhealthy l.
Proof.
  unfold count_healthy, count_unhealthy. rewrite !filter_cons.
  destruct (is_healthy x).
  - rewrite decide_True by reflexivity. rewrite decide_False by discriminate.
    cbn [length]. lia.
  - rewrite decide_False by discriminate. rewrite decide_True by reflexivity.
    cbn [length]. lia.
Qed.

Lemma add_snapshots_delta (l : list PageSnapshot) :
  forall sess : MonitorSession,
    snapshots (add_snapshots sess l) = snapshots sess ++ l
    /\ total_snapshots (add_snapshots sess l) =
         total_snapshots sess + Z.of_nat (length l)
    /\ healthy_snapshots (add_snapshots sess l) =
         healthy_snapshots sess + count_healthy l
    /\ error_snapshots (add_snapshots sess l) =
         error_snapshots sess + count_unhealthy l.
Proof.
  unfold add_snapshots.
  induction l as [|x l IH]; intros sess.
  - simpl. rewrite app_nil_r. unfold count_healthy, count_unhealthy. simpl.
    split_and!; first [reflexivity | lia].
  - cbn [foldl].
    destruct (IH (add_snapshot sess x)) as (Hs & Ht & Hh & He).
    destruct (add_snapshot_step sess x) as (Hs1 & Ht1 & Hh1 & He1).
    destruct (count_cons x l) as (Hc1 & Hc2).
    rewrite Hs, Ht, Hh, He, Hs1, Ht1, Hh1, He1, Hc1, Hc2.
    rewrite <- app_assoc. cbn [app length].
    split_and!; first [reflexivity | lia].
Qed.

Lemma count_healthy_unhealthy (l : list PageSnapshot) :
  count_healthy l + count_unhealthy l = Z.of_nat (length l).
Proof.
  induction l as [|x l IH]; [reflexivity|].
  destruct (count_cons x l) as (-> & ->).
  cbn [length]. destruct (is_healthy x); lia.
Qed.

(** C4. Each [add_snapshot] appends the snapshot, adds one to
    [total_snapshots] and one to exactly one of [healthy_snapshots] (healthy
    snapshot) or [error_snapshots] (otherwise).  Hence after any sequence of
    calls on a session as it is created, [total = healthy + error], the list
    holds the snapshots in call order and its length is [total_snapshots];
    and on any session the calls keep [total = healthy + error] and
    [len(snapshots) = total] once they hold. *)
Theorem add_snapshot_invariant :
  (forall (sess : MonitorSession) (x : PageSnapshot),
      snapshots (add_snapshot sess x) = snapshots sess ++ [x]
      /\ total_snapshots (add_snapshot sess x) = total_snapshots sess + 1
      /\ healthy_snapshots (add_snapshot sess x) =
           healthy_snapshots sess + (if is_healthy x then 1 else 0)
      /\ error_snapshots (add_snapshot sess x) =
           error_snapshots sess + (if is_healthy x then 0 else 1))
  /\ (forall (u l t : list Z) (calls : list PageSnapshot),
        let sess := add_snapshots (new_session u l t) calls in
        total_snapshots sess = healthy_snapshots sess + error_snapshots sess
        /\ snapshots sess = calls
        /\ Z.of_nat (length (snapshots sess)) = total_snapshots sess)
  /\ (forall (sess0 : MonitorSession) (calls : list PageSnapshot),
        total_snapshots sess0 =
          healthy_snapshots sess0 + error_snapshots sess0 ->
        Z.of_nat (length (snapshots sess0)) = total_snapshots sess0 ->
        let sess := add_snapshots sess0 calls in
        total_snapshots sess = healthy_snapshots sess + error_snapshots sess
        /\ snapshots sess = snapshots sess0 ++ calls
        /\ Z.of_nat (length (snapshots sess)) = total_snapshots sess).
Proof.
  split; [exact add_snapshot_step|]. split.
  - intros u l t calls sess. subst sess.
    destruct (add_snapshots_delta calls (new_session u l t))
      as (Hs & Ht & Hh & He).
    pose proof (count_healthy_unhealthy calls) as Hc.
    rewrite Hs, Ht, Hh, He. simpl. split_and!; [lia|reflexivity|lia].
  - intros sess0 calls Hinv Hlen sess. subst sess.
    destruct (add_snapshots_delta calls sess0) as (Hs & Ht & Hh & He).
    pose proof (count_healthy_unhealthy calls) as Hc.
    rewrite Hs, Ht, Hh, He, length_app. split_and!; [lia|reflexivity|lia].
Qed.

Lemma add_snapshot_invariant_witness :
  let sess0 := add_snapshot (new_session [] [] []) snapshot_healthy in
  let sess := add_snapshots sess0 [snapshot_captcha; snapshot_healthy] in
  total_snapshots sess = healthy_snapshots sess + error_snapshots sess
  /\ snapshots sess = snapshots sess0 ++ [snapshot_captcha; snapshot_healthy]
  /\ Z.of_nat (length (snapshots sess)) = total_snapshots sess.
Proof.
  intros sess0 sess.
  apply (proj2 (proj2 add_snapshot_invariant) sess0
           [snapshot_captcha; snapshot_healthy]);
    reflexivity.
Defined.

(** C10. The dictionary of [to_dict] has the fifteen keys of the literal;
    [body_text_preview] holds the first 200 characters of the field (all of
    it when it is shorter), [has_initial_data] holds whether [initial_data]
    is set and the blob itself is not in the dictionary, and every other key
    holds the field of the same name as stored.  [to_dict] only reads
    [self]: it has no effect on the snapshot, and every value it returns is
    an immutable Python value ([None], [bool], [int], [str]). *)
Theorem to_dict_fields (s : PageSnapshot) :
  to_dict s !! "body_text_preview"%string =
    Some (PyStr (take 200 (body_text_preview s)))
  /\ length (take 200 (body_text_preview s)) =
       Nat.min 200 (length (body_text_preview s))
  /\ take 200 (body_text_preview s) `prefix_of` body_text_preview s
  /\ to_dict s !! "has_initial_data"%string =
       Some (PyBool (match initial_data s with
                     | Some _ => true
                     | None => false
                     end))
  /\ to_dict s !! "initial_data"%string = None
  /\ to_dict s !! "timestamp"%string = Some (PyStr (timestamp s))
  /\ to_dict s !! "url"%string = Some (PyStr (url s))
  /\ to_dict s !! "title"%string = Some (PyStr (title s))
  /\ to_dict s !! "has_video"%string = Some (PyBool (has_video s))
  /\ to_dict s !! "has_error_message"%string =
       Some (PyBool (has_error_message s))
  /\ to_dict s !! "has_page_error"%string = Some (PyBool (has_page_error s))
  /\ to_dict s !! "has_live_content"%string =
       Some (PyBool (has_live_content s))
  /\ to_dict s !! "is_live_ended"%string = Some (PyBool (is_live_ended s))
  /\ to_dict s !! "has_captcha"%string = Some (PyBool (has_captcha s))
  /\ to_dict s !! "element_count"%string = Some (PyInt (element_count s))
  /\ to_dict s !! "video_count"%string = Some (PyInt (video_count s))
  /\ to_dict s !! "html_size"%string = Some (PyInt (html_size s))
  /\ to_dict s !! "viewer_count"%string =
       Some (match viewer_count s with
             | Some n => PyInt n
             | None => PyNone
             end)
  /\ dom (to_dict s) = list_to_set to_dict_keys.
Proof.
  split_and!;
    first [ reflexivity
          | apply length_take
          | apply prefix_take
          | unfold to_dict; rewrite !dom_insert_L; simpl; set_solver ].
Qed.

End ModelsFacts.

(* ===================================================================== *)
(** * Properties of the inspection script (parser.py) *)
(* ===================================================================== *)

Section ParserFacts.

Import Parser Samples.

Lemma is_control_space : is_control space = false.
Proof. reflexivity. Qed.

Lemma replace_controls_lookup (t : list Z) (i : nat) :
  replace_controls t !! i =
    (fun c => if is_control c then space else c) <$> (t !! i).
Proof. unfold replace_controls. apply list_lookup_fmap. Qed.

Lemma replace_controls_clean (t : list Z) (c : Z) :
  c ∈ replace_controls t -> is_control c = false.
Proof.
  unfold replace_controls. intros Hc.
  apply list_elem_of_fmap in Hc as (c0 & -> & _).
  destruct (is_control c0) eqn:E; [apply is_control_space | exact E].
Qed.

(** The object literal succeeds exactly when its six unguarded reads do, and
    then every guarded field holds its own value or its own default. *)
Lemma main_record_Normal lower parse (p : Page) (st : Status) :
  main_record lower parse p = Normal st <->
  exists url title hv vc hlc ec,
    e_url p = Normal url /\ e_title p = Normal title /\
    e_hasVideo p = Normal hv /\ e_videoCount p = Normal vc /\
    e_hasLiveContent p = Normal hlc /\ e_elementCount p = Normal ec /\
    st = {| st_url := url; st_title := title; hasVideo := hv;
            videoCount := vc;
            hasErrorMessage := try_catch (e_hasErrorMessage p) false;
            hasPageError := try_catch (hasPageError_body p) false;
            isLiveEnded := try_catch (e_isLiveEnded p) false;
            hasLiveContent := hlc;
            hasCaptcha := try_catch (hasCaptcha_body lower p) false;
            elementCount := ec;
            viewerCount := try_catch (viewerCount_body parse p) None;
            bodyTextPreview := try_catch (bodyTextPreview_body p) [];
            st_error := None |}.
Proof.
  unfold main_record.
  destruct (e_url p) as [url|e1]; cbn [mbind completion_bind].
  2:{ split; [discriminate|]. intros (?&?&?&?&?&?&H&_). discriminate H. }
  destruct (e_title p) as [title|e2]; cbn [mbind completion_bind].
  2:{ split; [discriminate|]. intros (?&?&?&?&?&?&_&H&_). discriminate H. }
  destruct (e_hasVideo p) as [hv|e3]; cbn [mbind completion_bind].
  2:{ split; [discriminate|]. intros (?&?&?&?&?&?&_&_&H&_). discriminate H. }
  destruct (e_videoCount p) as [vc|e4]; cbn [mbind completion_bind].
  2:{ split; [discriminate|]. intros (?&?&?&?&?&?&_&_&_&H&_). discriminate H. }
  unfold e_hasErrorMessage, e_hasPageError, e_isLiveEnded.
  cbn [mbind completion_bind].
  destruct (e_hasLiveContent p) as [hlc|e5]; cbn [mbind completion_bind].
  2:{ split; [discriminate|].
      intros (?&?&?&?&?&?&_&_&_&_&H&_). discriminate H. }
  unfold e_hasCaptcha. cbn [mbind completion_bind].
  destruct (e_elementCount p) as [ec|e6]; cbn [mbind completion_bind].
  2:{ split; [discriminate|].
      intros (?&?&?&?&?&?&_&_&_&_&_&H&_). discriminate H. }
  unfold e_viewerCount, e_bodyTextPreview. cbn [mbind completion_bind].
  split.
  - intros [= <-]. exists url, title, hv, vc, hlc, ec.
    split_and!; reflexivity.
  - intros (?&?&?&?&?&?&[= <-]&[= <-]&[= <-]&[= <-]&[= <-]&[= <-]&->).
    reflexivity.
Qed.

(** The object literal throws exactly the first fault among its unguarded
    reads, in the order of the source. *)
Lemma main_record_Throw lower parse (p : Page) (e : list Z) :
  main_record lower parse p = Throw e ->
  e_url p = Throw e \/ e_title p = Throw e \/ e_hasVideo p = Throw e \/
  e_videoCount p = Throw e \/ e_hasLiveContent p = Throw e \/
  e_elementCount p = Throw e.
Proof.
  unfold main_record.
  destruct (e_url p) as [url|e1]; cbn [mbind completion_bind];
    [|intros [= ->]; tauto].
  destruct (e_title p) as [title|e2]; cbn [mbind completion_bind];
    [|intros [= ->]; tauto].
  destruct (e_hasVideo p) as [hv|e3]; cbn [mbind completion_bind];
    [|intros [= ->]; tauto].
  destruct (e_videoCount p) as [vc|e4]; cbn [mbind completion_bind];
    [|intros [= ->]; tauto].
  unfold e_hasErrorMessage, e_hasPageError, e_isLiveEnded.
  cbn [mbind completion_bind].
  destruct (e_hasLiveContent p) as [hlc|e5]; cbn [mbind completion_bind];
    [|intros [= ->]; tauto].
  unfold e_hasCaptcha. cbn [mbind completion_bind].
  destruct (e_elementCount p) as [ec|e6]; cbn [mbind completion_bind];
    [|intros [= ->]; tauto].
  unfold e_viewerCount, e_bodyTextPreview. cbn [mbind completion_bind].
  discriminate.
Qed.

(** The preview function itself: truncation to 500 and the clean-up. *)
Lemma bodyTextPreview_of_spec (t : list Z) :
  length (bodyTextPreview_of t) = Nat.min 500 (length t)
  /\ (forall i : nat, (i < 500)%nat ->
        bodyTextPreview_of t !! i =
          (fun c => if is_control c then space else c) <$> (t !! i))
  /\ (forall i : nat, (500 <= i)%nat -> bodyTextPreview_of t !! i = None)
  /\ (forall c : Z, c ∈ bodyTextPreview_of t -> is_control c = false)
  /\ (forall i : nat, (i < 500)%nat -> t !! i = Some 0x07 ->
        bodyTextPreview_of t !! i = Some space)
  /\ (length t = 600%nat -> length (bodyTextPreview_of t) = 500%nat).
Proof.
  unfold bodyTextPreview_of. split_and!.
  - unfold replace_controls. rewrite length_fmap. apply length_take.
  - intros i Hi. rewrite replace_controls_lookup, lookup_take_lt by exact Hi.
    reflexivity.
  - intros i Hi. rewrite replace_controls_lookup, lookup_take_ge by exact Hi.
    reflexivity.
  - apply replace_controls_clean.
  - intros i Hi Hbel.
    rewrite replace_controls_lookup, lookup_take_lt, Hbel by exact Hi.
    reflexivity.
  - intros Hlen. unfold replace_controls.
    rewrite length_fmap, length_take, Hlen. reflexivity.
Qed.

(** Which record the script returns, and the preview it carries. *)
Lemma script_records lower parse (p : Page) (st : Status) :
  script lower parse p = Normal st ->
  (st_error st = None /\ main_record lower parse p = Normal st
   /\ bodyTextPreview st = bodyTextPreview_of (getBodyText p))
  \/ (exists e : list Z,
        st_error st = Some e /\ main_record lower parse p = Throw e
        /\ bodyTextPreview st = []).
Proof.
  unfold script.
  destruct (main_record lower parse p) as [st0|e] eqn:Hmain.
  - intros [= <-]. left.
    apply main_record_Normal in Hmain
      as (?&?&?&?&?&?&_&_&_&_&_&_&->).
    split_and!; reflexivity.
  - unfold fallback_record, or_empty.
    destruct (location_href p); cbn [mbind completion_bind]; [|discriminate].
    destruct (document_title p); cbn [mbind completion_bind]; [|discriminate].
    intros [= <-]. right. exists e. split_and!; reflexivity.
Qed.

(** C8, as the code has it.  Let [t] be the visible body text of the page.
    (1) The preview of [t] is its first 500 characters (all of it when
    shorter) with every control character, [0x00]-[0x1F] and
    [0x7F]-[0x9F], replaced by a space: position by position the character
    of [t] or a space, no control character left, a BEL among the first
    500 characters turned into a space, 500 characters for a text of 600.
    (2) A record that inspection returns is either the one of the object
    literal, and then it carries this preview of [t], or the fallback
    record of the outer [catch], and then its preview is empty whatever
    [t] is.
    (3) When the six unguarded reads of the object literal go through,
    inspection does return a record, and it carries the preview of [t].
    (4) On any page, no record returned carries a control character in
    the field. *)
Theorem bodyTextPreview_clean lower parse (p : Page) (t : list Z) :
  body_innerText p = Normal t ->
  (length (bodyTextPreview_of t) = Nat.min 500 (length t)
   /\ (forall i : nat, (i < 500)%nat ->
         bodyTextPreview_of t !! i =
           (fun c => if is_control c then space else c) <$> (t !! i))
   /\ (forall i : nat, (500 <= i)%nat -> bodyTextPreview_of t !! i = None)
   /\ (forall c : Z, c ∈ bodyTextPreview_of t -> is_control c = false)
   /\ (forall i : nat, (i < 500)%nat -> t !! i = Some 0x07 ->
         bodyTextPreview_of t !! i = Some space)
   /\ (length t = 600%nat -> length (bodyTextPreview_of t) = 500%nat))
  /\ (forall st : Status,
        parse_page_status lower parse (Reachable p) = Returns st ->
        (st_error st = None /\ main_record lower parse p = Normal st
         /\ bodyTextPreview st = bodyTextPreview_of t)
        \/ (exists e : list Z,
              st_error st = Some e /\ main_record lower parse p = Throw e
              /\ bodyTextPreview st = []))
  /\ (forall url title hv vc hlc ec,
        e_url p = Normal url -> e_title p = Normal title ->
        e_hasVideo p = Normal hv -> e_videoCount p = Normal vc ->
        e_hasLiveContent p = Normal hlc -> e_elementCount p = Normal ec ->
        exists st : Status,
          parse_page_status lower parse (Reachable p) = Returns st
          /\ st_error st = None
          /\ bodyTextPreview st = bodyTextPreview_of t)
  /\ (forall (b : Browser) (st : Status) (c : Z),
        parse_page_status lower parse b = Returns st ->
        c ∈ bodyTextPreview st -> is_control c = false).
Proof.
  intros Hbody.
  assert (Htext : getBodyText p = t).
  { unfold getBodyText. rewrite Hbody. reflexivity. }
  assert (Hret : forall (q : Page) (st : Status),
            parse_page_status lower parse (Reachable q) = Returns st ->
            script lower parse q = Normal st).
  { intros q st. unfold parse_page_status, execute_script.
    destruct (script lower parse q); [intros [= <-]; reflexivity|].
    discriminate. }
  split; [apply bodyTextPreview_of_spec|]. split_and!.
  - intros st Hst. apply Hret in Hst.
    destruct (script_records lower parse p st Hst)
      as [(He & Hm & Hp)|Hfallback].
    + left. rewrite Htext in Hp. tauto.
    + right. exact Hfallback.
  - intros url title hv vc hlc ec H1 H2 H3 H4 H5 H6.
    assert (Hmain : exists st, main_record lower parse p = Normal st).
    { eexists. apply main_record_Normal.
      exists url, title, hv, vc, hlc, ec. split_and!; try eassumption.
      reflexivity. }
    destruct Hmain as [st Hmain]. exists st.
    assert (Hs : script lower parse p = Normal st).
    { unfold script. rewrite Hmain. reflexivity. }
    destruct (script_records lower parse p st Hs)
      as [(He & _ & Hp)|(e & _ & Hthrow & _)].
    + unfold parse_page_status, execute_script. rewrite Hs, <- Htext.
      tauto.
    + rewrite Hmain in Hthrow. discriminate Hthrow.
  - intros b st c Hst Hc. destruct b as [q|].
    2:{ discriminate Hst. }
    apply Hret in Hst.
    destruct (script_records lower parse q st Hst)
      as [(_ & _ & Hp)|(e & _ & _ & Hp)]; rewrite Hp in Hc.
    + apply (replace_controls_clean _ _ Hc).
    + apply elem_of_nil in Hc. destruct Hc.
Qed.

Lemma bodyTextPreview_clean_witness :
  exists st : Status,
    parse_page_status ascii_lower decimal (Reachable page_body_600)
      = Returns st
    /\ st_error st = None
    /\ bodyTextPreview st = bodyTextPreview_of body_600
    /\ length (bodyTextPreview_of body_600) = 500%nat
    /\ body_600 !! 1%nat = Some 0x07
    /\ bodyTextPreview_of body_600 !! 1%nat = Some space.
Proof.
  destruct (bodyTextPreview_clean ascii_lower decimal page_body_600
              body_600 eq_refl)
    as ((_ & _ & _ & _ & Hbel & Hlen) & _ & Hreturned & _).
  destruct (Hreturned (units "https://www.tiktok.com/@user/live")
              (units "LIVE") false 0 false 0
              eq_refl eq_refl eq_refl eq_refl eq_refl eq_refl)
    as (st & Hst & He & Hp).
  exists st. split_and!.
  - exact Hst.
  - exact He.
  - exact Hp.
  - apply Hlen. reflexivity.
  - reflexivity.
  - apply Hbel; [lia | reflexivity].
Defined.

(** C8 as the specification words it fails on [page_video_fault]: the body
    text is "Live ended", ten characters without a control character, so
    its preview is the text itself; the video query throws, and the record
    returned carries the empty preview. *)
Lemma preview_lost_in_fallback :
  body_innerText page_video_fault = Normal (units "Live ended")
  /\ bodyTextPreview_of (units "Live ended") = units "Live ended"
  /\ (forall lower parse,
        parse_page_status lower parse (Reachable page_video_fault) =
          Returns status_video_fault)
  /\ bodyTextPreview status_video_fault = [].
Proof. split_and!; reflexivity. Qed.

End ParserFacts.

Section InspectionFaults.

Import Parser Samples.

Lemma completion_cases {A} (c : completion A) :
  (exists a, c = Normal a) \/ (exists e, c = Throw e).
Proof. destruct c; [left | right]; eexists; reflexivity. Qed.

(** The object literal throws as soon as one unguarded read does. *)
Lemma main_record_unguarded_fault lower parse (p : Page) :
  ((exists e, e_url p = Throw e) \/ (exists e, e_title p = Throw e) \/
   (exists e, e_hasVideo p = Throw e) \/ (exists e, e_videoCount p = Throw e) \/
   (exists e, e_hasLiveContent p = Throw e) \/
   (exists e, e_elementCount p = Throw e)) ->
  exists e, main_record lower parse p = Throw e.
Proof.
  intros Hfault.
  destruct (main_record lower parse p) as [st|e] eqn:Hmain;
    [|exists e; reflexivity].
  apply main_record_Normal in Hmain
    as (?&?&?&?&?&?&H1&H2&H3&H4&H5&H6&_).
  rewrite H1, H2, H3, H4, H5, H6 in Hfault.
  destruct Hfault as [[? H]|[[? H]|[[? H]|[[? H]|[[? H]|[? H]]]]]];
    discriminate H.
Qed.

(** The script throws exactly when the address or the title of the page
    cannot be read. *)
Lemma script_Throw lower parse (p : Page) :
  (exists e, script lower parse p = Throw e) <->
  ((exists e, location_href p = Throw e) \/
   (exists e, document_title p = Throw e)).
Proof.
  unfold script. split.
  - intros [e He].
    destruct (main_record lower parse p) as [st|e0]; [discriminate He|].
    unfold fallback_record, or_empty in He.
    destruct (location_href p) as [u|e1]; [|left; eexists; reflexivity].
    destruct (document_title p) as [t|e2]; [|right; eexists; reflexivity].
    discriminate He.
  - intros Hfault.
    destruct (main_record_unguarded_fault lower parse p) as [e0 ->].
    { unfold e_url, e_title, or_empty. tauto. }
    unfold fallback_record, or_empty.
    destruct Hfault as [[e ->]|[e He]]; cbn [mbind completion_bind].
    + eexists; reflexivity.
    + rewrite He. destruct (location_href p); eexists; reflexivity.
Qed.

(** C9, as the code has it.  Inspection returns a record whenever the
    browser answers and the address and title of the page can be read.
    (1) When the six unguarded reads ([url], [title], [hasVideo],
    [videoCount], [hasLiveContent], [elementCount]) succeed, a fault inside
    [hasPageError], [hasCaptcha], [viewerCount] or [bodyTextPreview] gives
    that field alone its default ([false], [false], [None], ['']) and every
    other field holds its own value.  (2) When one of the unguarded reads
    throws, the script falls back to the record in which every signal holds
    its default and [error] holds the fault.  (3) [parse_page_status] raises
    only [ParserError], and does so exactly when [execute_script] raises:
    the browser cannot be reached, or the script itself throws because the
    address or the title cannot be read. *)
Theorem inspection_fault_handling lower parse :
  (forall (p : Page) url title hv vc hlc ec,
      e_url p = Normal url -> e_title p = Normal title ->
      e_hasVideo p = Normal hv -> e_videoCount p = Normal vc ->
      e_hasLiveContent p = Normal hlc -> e_elementCount p = Normal ec ->
      parse_page_status lower parse (Reachable p) =
        Returns
          {| st_url := url; st_title := title; hasVideo := hv;
             videoCount := vc;
             hasErrorMessage := try_catch (e_hasErrorMessage p) false;
             hasPageError := try_catch (hasPageError_body p) false;
             isLiveEnded := try_catch (e_isLiveEnded p) false;
             hasLiveContent := hlc;
             hasCaptcha := try_catch (hasCaptcha_body lower p) false;
             elementCount := ec;
             viewerCount := try_catch (viewerCount_body parse p) None;
             bodyTextPreview := try_catch (bodyTextPreview_body p) [];
             st_error := None |})
  /\ (forall (p : Page) url title,
        location_href p = Normal url -> document_title p = Normal title ->
        ((exists e, e_hasVideo p = Throw e) \/
         (exists e, e_videoCount p = Throw e) \/
         (exists e, e_hasLiveContent p = Throw e) \/
         (exists e, e_elementCount p = Throw e)) ->
        exists e,
          parse_page_status lower parse (Reachable p) =
            Returns
              {| st_url := url; st_title := title; hasVideo := false;
                 videoCount := 0; hasErrorMessage := false;
                 hasPageError := false; isLiveEnded := false;
                 hasLiveContent := false; hasCaptcha := false;
                 elementCount := 0; viewerCount := None;
                 bodyTextPreview := []; st_error := Some e |})
  /\ (forall b : Browser,
        parse_page_status lower parse b = Raises ParserError <->
        (exists e, execute_script lower parse b = Raises e))
  /\ (forall b : Browser,
        (exists e, execute_script lower parse b = Raises e) <->
        (b = Unreachable \/
         exists p, b = Reachable p /\
           ((exists e, location_href p = Throw e) \/
            (exists e, document_title p = Throw e))))
  /\ (forall (b : Browser) (e : py_exception),
        parse_page_status lower parse b = Raises e -> e = ParserError).
Proof.
  split_and!.
  - intros p url title hv vc hlc ec H1 H2 H3 H4 H5 H6.
    unfold parse_page_status, execute_script, script.
    assert (Hmain : main_record lower parse p = Normal
              {| st_url := url; st_title := title; hasVideo := hv;
                 videoCount := vc;
                 hasErrorMessage := try_catch (e_hasErrorMessage p) false;
                 hasPageError := try_catch (hasPageError_body p) false;
                 isLiveEnded := try_catch (e_isLiveEnded p) false;
                 hasLiveContent := hlc;
                 hasCaptcha := try_catch (hasCaptcha_body lower p) false;
                 elementCount := ec;
                 viewerCount := try_catch (viewerCount_body parse p) None;
                 bodyTextPreview := try_catch (bodyTextPreview_body p) [];
                 st_error := None |}).
    { apply main_record_Normal. exists url, title, hv, vc, hlc, ec.
      split_and!; first [assumption | reflexivity]. }
    rewrite Hmain. reflexivity.
  - intros p url title Hu Ht Hfault.
    destruct (main_record_unguarded_fault lower parse p) as [e He].
    { tauto. }
    exists e. unfold parse_page_status, execute_script, script.
    rewrite He. unfold fallback_record, or_empty. rewrite Hu, Ht.
    reflexivity.
  - intros b. unfold parse_page_status.
    destruct (execute_script lower parse b) as [st|e].
    + split; [discriminate | intros [? H]; discriminate H].
    + split; [intros _; exists e; reflexivity | reflexivity].
  - intros b. destruct b as [p|].
    + unfold execute_script. split.
      * intros [e He]. right. exists p. split; [reflexivity|].
        apply (script_Throw lower parse p).
        destruct (script lower parse p) as [st|e0];
          [discriminate He | exists e0; reflexivity].
      * intros [Hb|(p' & Heq & Hfault)]; [discriminate Hb|].
        injection Heq as <-.
        apply (script_Throw lower parse) in Hfault as [e He].
        rewrite He. eexists; reflexivity.
    + split; [intros _; left; reflexivity|].
      intros _. eexists; reflexivity.
  - intros b e. unfold parse_page_status.
    destruct (execute_script lower parse b); [discriminate|].
    intros [= <-]. reflexivity.
Qed.

Lemma inspection_fault_handling_witness :
  viewerCount_body decimal page_viewer_fault = Throw (units "TypeError")
  /\ parse_page_status ascii_lower decimal (Reachable page_viewer_fault) =
       Returns status_viewer_fault.
Proof.
  split; [reflexivity|].
  exact (proj1 (inspection_fault_handling ascii_lower decimal)
           page_viewer_fault _ _ _ _ _ _
           eq_refl eq_refl eq_refl eq_refl eq_refl eq_refl).
Defined.

(** C9 as the specification words it fails on [page_video_fault]: the
    video query throws, the ended marker and the captcha frame are there to
    be detected, yet the record returned holds [false] for both. *)
Lemma inspection_signals_not_isolated :
  e_hasVideo page_video_fault = Throw (units "Error: video")
  /\ isolated (e_isLiveEnded page_video_fault) false = true
  /\ (forall lower, isolated (hasCaptcha_body lower page_video_fault) false
                    = true)
  /\ (forall lower parse,
        parse_page_status lower parse (Reachable page_video_fault) =
          Returns status_video_fault)
  /\ isLiveEnded status_video_fault = false
  /\ hasCaptcha status_video_fault = false.
Proof.
  split_and!; try reflexivity.
  intros lower. unfold isolated, hasCaptcha_body. cbn.
  apply orb_true_r.
Qed.

End InspectionFaults.

(* ===================================================================== *)
(** * Properties of the challenge wait (captcha_handler.py) *)
(* ===================================================================== *)

Section CaptchaFacts.

Import Captcha Collector Samples.

Lemma Qlt_bool_true (x y : Q) : Qlt_bool x y = true <-> (x < y)%Q.
Proof.
  unfold Qlt_bool. rewrite negb_true_iff. split.
  - intros H. apply Qnot_le_lt. intros Hle.
    apply Qle_bool_iff in Hle. congruence.
  - intros H. destruct (Qle_bool y x) eqn:E; [|reflexivity].
    apply Qle_bool_iff in E. exfalso. exact (Qlt_not_le _ _ H E).
Qed.

Lemma Qlt_bool_false (x y : Q) : Qlt_bool x y = false <-> (y <= x)%Q.
Proof.
  unfold Qlt_bool. rewrite negb_false_iff. apply Qle_bool_iff.
Qed.

(** The loop answers [True] exactly when some turn reads the flag as set
    while every loop test up to it passes. *)
Lemma wait_for_solution_true (timeout : Z) (polls : list Poll) :
  wait_for_solution timeout polls = Some true <->
  exists (i : nat) (p : Poll),
    polls !! i = Some p /\ captcha_solved p = true /\
    (forall (j : nat) (q : Poll), (j <= i)%nat -> polls !! j = Some q ->
       (elapsed q < inject_Z timeout)%Q) /\
    (forall (j : nat) (q : Poll), (j < i)%nat -> polls !! j = Some q ->
       captcha_solved q = false).
Proof.
  induction polls as [|p0 rest IH]; cbn [wait_for_solution].
  - split; [discriminate|]. intros (i & p & H & _). discriminate H.
  - destruct (Qlt_bool (elapsed p0) (inject_Z timeout)) eqn:Ht.
    + apply Qlt_bool_true in Ht.
      destruct (captcha_solved p0) eqn:Hs.
      * split; [intros _|reflexivity].
        exists 0%nat, p0. split_and!; [reflexivity|exact Hs| |].
        -- intros j q Hj Hq. assert (j = 0%nat) as -> by lia.
           injection Hq as <-. exact Ht.
        -- intros j q Hj. lia.
      * rewrite IH. split.
        -- intros (i & p & Hp & Hsol & Hwin & Hbefore).
           exists (S i), p. split_and!; [exact Hp|exact Hsol| |].
           ++ intros [|j] q Hj Hq.
              ** injection Hq as <-. exact Ht.
              ** apply (Hwin j q); [lia|exact Hq].
           ++ intros [|j] q Hj Hq.
              ** injection Hq as <-. exact Hs.
              ** apply (Hbefore j q); [lia|exact Hq].
        -- intros (i & p & Hp & Hsol & Hwin & Hbefore).
           destruct i as [|i].
           { injection Hp as <-. congruence. }
           exists i, p. split_and!; [exact Hp|exact Hsol| |].
           ++ intros j q Hj Hq. apply (Hwin (S j) q); [lia|exact Hq].
           ++ intros j q Hj Hq. apply (Hbefore (S j) q); [lia|exact Hq].
    + apply Qlt_bool_false in Ht. split; [discriminate|].
      intros (i & p & Hp & Hsol & Hwin & _).
      specialize (Hwin 0%nat p0 ltac:(lia) eq_refl).
      exfalso. exact (Qlt_not_le _ _ Hwin Ht).
Qed.

(** The loop answers [False] exactly when some loop test fails before any
    turn has read the flag as set. *)
Lemma wait_for_solution_false (timeout : Z) (polls : list Poll) :
  wait_for_solution timeout polls = Some false <->
  exists (i : nat) (p : Poll),
    polls !! i = Some p /\ (inject_Z timeout <= elapsed p)%Q /\
    (forall (j : nat) (q : Poll), (j < i)%nat -> polls !! j = Some q ->
       (elapsed q < inject_Z timeout)%Q /\ captcha_solved q = false).
Proof.
  induction polls as [|p0 rest IH]; cbn [wait_for_solution].
  - split; [discriminate|]. intros (i & p & H & _). discriminate H.
  - destruct (Qlt_bool (elapsed p0) (inject_Z timeout)) eqn:Ht.
    + apply Qlt_bool_true in Ht.
      destruct (captcha_solved p0) eqn:Hs.
      * split; [discriminate|].
        intros (i & p & Hp & Hout & Hbefore). destruct i as [|i].
        -- injection Hp as <-. exfalso. exact (Qlt_not_le _ _ Ht Hout).
        -- destruct (Hbefore 0%nat p0 ltac:(lia) eq_refl) as [_ Hns].
           congruence.
      * rewrite IH. split.
        -- intros (i & p & Hp & Hout & Hbefore).
           exists (S i), p. split_and!; [exact Hp|exact Hout|].
           intros [|j] q Hj Hq.
           ++ injection Hq as <-. split; [exact Ht|exact Hs].
           ++ apply (Hbefore j q); [lia|exact Hq].
        -- intros (i & p & Hp & Hout & Hbefore). destruct i as [|i].
           { injection Hp as <-. exfalso. exact (Qlt_not_le _ _ Ht Hout). }
           exists i, p. split_and!; [exact Hp|exact Hout|].
           intros j q Hj Hq. apply (Hbefore (S j) q); [lia|exact Hq].
    + apply Qlt_bool_false in Ht. split; [intros _|reflexivity].
      exists 0%nat, p0. split_and!; [reflexivity|exact Ht|].
      intros j q Hj. lia.
Qed.

Lemma clock_monotone_tail (p0 : Poll) (rest : list Poll) :
  clock_monotone (p0 :: rest) -> clock_monotone rest.
Proof.
  intros Hmono i j p q Hij Hp Hq.
  apply (Hmono (S i) (S j) p q); [lia|exact Hp|exact Hq].
Qed.

(** With a clock that does not run backwards, a flag read as set within
    the window is found. *)
Lemma wait_resolved (timeout : Z) (polls : list Poll) :
  clock_monotone polls -> flag_read_within timeout polls ->
  wait_for_solution timeout polls = Some true.
Proof.
  intros Hmono (i & p & Hp & Hsol & Hwin). revert i Hmono Hp.
  induction polls as [|p0 rest IH]; intros i Hmono Hp; [discriminate Hp|].
  cbn [wait_for_solution].
  assert (Ht : Qlt_bool (elapsed p0) (inject_Z timeout) = true).
  { apply Qlt_bool_true. apply Qle_lt_trans with (elapsed p); [|exact Hwin].
    apply (Hmono 0%nat i p0 p); [lia|reflexivity|exact Hp]. }
  rewrite Ht. destruct (captcha_solved p0) eqn:Hs; [reflexivity|].
  destruct i as [|i].
  - injection Hp as <-. congruence.
  - apply (IH i); [exact (clock_monotone_tail _ _ Hmono)|exact Hp].
Qed.

(** A failed loop test before any flag read as set ends the wait. *)
Lemma wait_elapsed (timeout : Z) (polls : list Poll) :
  elapsed_unresolved timeout polls ->
  wait_for_solution timeout polls = Some false.
Proof.
  intros (i & p & Hp & Hout & Hbefore). revert i Hp Hbefore.
  induction polls as [|p0 rest IH]; intros i Hp Hbefore; [discriminate Hp|].
  cbn [wait_for_solution].
  destruct (Qlt_bool (elapsed p0) (inject_Z timeout)) eqn:Ht; [|reflexivity].
  apply Qlt_bool_true in Ht.
  destruct i as [|i].
  - injection Hp as <-. exfalso. exact (Qlt_not_le _ _ Ht Hout).
  - rewrite (Hbefore 0%nat p0 ltac:(lia) eq_refl).
    apply (IH i); [exact Hp|].
    intros j q Hj Hq. apply (Hbefore (S j) q); [lia|exact Hq].
Qed.

(** The wait is bounded: when every turn takes at least a second, the loop
    has answered by its [(timeout + 1)]-th test. *)
Lemma wait_bounded_from (timeout : Z) (polls : list Poll) :
  forall k : Z,
    (forall (i : nat) (p : Poll), polls !! i = Some p ->
       (inject_Z (k + Z.of_nat i) <= elapsed p)%Q) ->
    timeout - k < Z.of_nat (length polls) ->
    (0 < length polls)%nat ->
    is_Some (wait_for_solution timeout polls).
Proof.
  induction polls as [|p0 rest IH]; intros k Htick Hlen Hpos.
  - simpl in Hpos. lia.
  - cbn [wait_for_solution].
    destruct (Qlt_bool (elapsed p0) (inject_Z timeout)) eqn:Ht;
      [|eexists; reflexivity].
    destruct (captcha_solved p0); [eexists; reflexivity|].
    apply Qlt_bool_true in Ht.
    assert (Hk : k < timeout).
    { rewrite Zlt_Qlt. apply Qle_lt_trans with (elapsed p0); [|exact Ht].
      specialize (Htick 0%nat p0 eq_refl).
      rewrite Z.add_0_r in Htick. exact Htick. }
    cbn [length] in Hlen.
    apply (IH (k + 1)).
    + intros i p Hp. specialize (Htick (S i) p Hp).
      replace (k + 1 + Z.of_nat i) with (k + Z.of_nat (S i)) by lia.
      exact Htick.
    + lia.
    + lia.
Qed.

Lemma wait_bounded (timeout : Z) (polls : list Poll) :
  0 <= timeout -> ticking polls ->
  timeout < Z.of_nat (length polls) ->
  is_Some (wait_for_solution timeout polls).
Proof.
  intros H0 Htick Hlen. apply (wait_bounded_from timeout polls 0).
  - intros i p Hp. rewrite Z.add_0_l. apply (Htick i p Hp).
  - lia.
  - lia.
Qed.

End CaptchaFacts.

(* ===================================================================== *)
(** * Properties of the collection cycle (collector.py) *)
(* ===================================================================== *)

Section CollectorFacts.

Import Models Parser Captcha Hooks Collector Samples.

Lemma untouched_refl (self : LiveCollector) : untouched self self.
Proof. unfold untouched. split_and!; reflexivity. Qed.

Lemma untouched_trans (a b c : LiveCollector) :
  untouched a b -> untouched b c -> untouched a c.
Proof.
  unfold untouched. intros (H1 & H2 & H3 & H4 & H5) (K1 & K2 & K3 & K4 & K5).
  split_and!; congruence.
Qed.

(** [_handle_captcha] leaves everything but the handler and the list of
    calls alone, whatever its answer. *)
Lemma handle_captcha_untouched (timeout : Z) (env : CaptchaEnv)
    (self self' : LiveCollector) (b : bool) :
  _handle_captcha timeout env self = Some (b, self') ->
  untouched self self'
  /\ page_error_retry_count self' = page_error_retry_count self.
Proof.
  unfold _handle_captcha.
  destruct (negb (captcha_handler self) && negb (construct_ok env)).
  { intros [= <- <-]. split; [apply untouched_refl|reflexivity]. }
  destruct (negb (capture_ok env)).
  { intros [= <- <-]. split; [unfold untouched; cbn; split_and!; reflexivity|reflexivity]. }
  destruct (negb (server_alive env) && negb (start_server_ok env)).
  { intros [= <- <-]. split; [unfold untouched; cbn; split_and!; reflexivity|reflexivity]. }
  destruct (wait_for_solution timeout (polls env)) as [[|]|];
    [| |discriminate];
    intros [= <- <-]; (split; [|destruct (negb (server_alive env)); reflexivity]);
    unfold untouched; destruct (negb (server_alive env)); cbn;
    split_and!; reflexivity.
Qed.

(** When the handler can be built, the page captured and the server run,
    [_handle_captcha] is the wait. *)
Lemma handle_captcha_waits (timeout : Z) (env : CaptchaEnv)
    (self : LiveCollector) :
  (captcha_handler self = true \/ construct_ok env = true) ->
  capture_ok env = true ->
  (server_alive env = true \/ start_server_ok env = true) ->
  exists waiting : LiveCollector,
    actions waiting =
      actions self ++ captcha_actions (server_alive env) timeout
    /\ untouched self waiting
    /\ page_error_retry_count waiting = page_error_retry_count self
    /\ _handle_captcha timeout env self =
         match wait_for_solution timeout (polls env) with
         | None => None
         | Some true => Some (true, does [Sleep 3] waiting)
         | Some false => Some (false, waiting)
         end.
Proof.
  intros Hh Hc Hs. unfold _handle_captcha.
  assert (negb (captcha_handler self) && negb (construct_ok env) = false)
    as -> by (destruct Hh as [-> | ->]; [reflexivity|apply andb_false_r]).
  rewrite Hc. cbn [negb].
  assert (negb (server_alive env) && negb (start_server_ok env) = false)
    as -> by (destruct Hs as [-> | ->]; [reflexivity|apply andb_false_r]).
  eexists. split_and!; [| | |reflexivity].
  - unfold captcha_actions. destruct (server_alive env); cbn;
      rewrite <- ?app_assoc; reflexivity.
  - unfold untouched. destruct (server_alive env); cbn;
      split_and!; reflexivity.
  - destruct (server_alive env); reflexivity.
Qed.

(** [_handle_captcha] answers [True] only after a wait that ended with the
    flag read as set. *)
Lemma handle_captcha_true (timeout : Z) (env : CaptchaEnv)
    (self self' : LiveCollector) :
  _handle_captcha timeout env self = Some (true, self') ->
  (captcha_handler self = true \/ construct_ok env = true)
  /\ capture_ok env = true
  /\ (server_alive env = true \/ start_server_ok env = true)
  /\ wait_for_solution timeout (polls env) = Some true.
Proof.
  unfold _handle_captcha.
  destruct (captcha_handler self), (construct_ok env); cbn [negb andb];
    try discriminate;
    (destruct (capture_ok env); cbn [negb]; [|discriminate]);
    (destruct (server_alive env), (start_server_ok env); cbn [negb andb];
     try discriminate);
    (destruct (wait_for_solution timeout (polls env)) as [[|]|];
     [|discriminate|discriminate]);
    intros _; split_and!; tauto.
Qed.

(** A page-error snapshot below the limit whose refresh raises: the
    activation raises [CollectionError]; the session is as it was. *)
Lemma body_page_error_refresh_raises (self : LiveCollector) (c : Cycle)
    (s : PageSnapshot) :
  snapshot_result c = Returns s -> has_page_error s = true ->
  refresh_ok c = false ->
  page_error_retry_count self < max_page_error_retries self ->
  exists self' : LiveCollector,
    collect_once_body c self = Some (Done (Raises CollectionError) self')
    /\ untouched self self'.
Proof.
  intros Hs Hpe Hr Hlt. unfold collect_once_body.
  rewrite Hs, Hpe, Hr. apply Z.ltb_lt in Hlt. rewrite Hlt. cbn [negb].
  eexists. split; [reflexivity|].
  unfold untouched. cbn. split_and!; reflexivity.
Qed.

(** A page-error snapshot below the limit: refresh and go again. *)
Lemma body_page_error_retry (self : LiveCollector) (c : Cycle)
    (s : PageSnapshot) :
  snapshot_result c = Returns s -> has_page_error s = true ->
  refresh_ok c = true ->
  page_error_retry_count self < max_page_error_retries self ->
  exists self' : LiveCollector,
    collect_once_body c self = Some (Again self')
    /\ untouched self self'
    /\ page_error_retry_count self' = page_error_retry_count self + 1
    /\ actions self' = actions self ++ retry_actions (hooks self).
Proof.
  intros Hs Hpe Hr Hlt. unfold collect_once_body.
  rewrite Hs, Hpe, Hr. apply Z.ltb_lt in Hlt. rewrite Hlt. cbn [negb].
  eexists. split; [reflexivity|].
  unfold untouched, retry_actions.
  destruct self as [h ch se le pc rc mx ac]. cbn.
  destruct h; cbn; rewrite <- ?app_assoc; split_and!; reflexivity.
Qed.

(** A page-error snapshot at the limit: give up, touching nothing. *)
Lemma body_page_error_give_up (self : LiveCollector) (c : Cycle)
    (s : PageSnapshot) :
  snapshot_result c = Returns s -> has_page_error s = true ->
  max_page_error_retries self <= page_error_retry_count self ->
  collect_once_body c self = Some (Done (Returns false) self).
Proof.
  intros Hs Hpe Hge. unfold collect_once_body. rewrite Hs, Hpe.
  apply Z.ltb_ge in Hge. rewrite Hge. reflexivity.
Qed.

(** Any snapshot without a page error leaves the retry counter at zero. *)
Lemma body_no_page_error_resets (self : LiveCollector) (c : Cycle)
    (s : PageSnapshot) (out : Outcome) :
  snapshot_result c = Returns s -> has_page_error s = false ->
  collect_once_body c self = Some out ->
  page_error_retry_count (state_of out) = 0.
Proof.
  intros Hs Hpe. unfold collect_once_body. rewrite Hs, Hpe. cbn [negb].
  destruct (has_captcha s).
  - destruct (_handle_captcha _ _ _) as [[b self']|] eqn:Hh; [|discriminate].
    apply handle_captcha_untouched in Hh as (_ & Hcount).
    destruct b; intros [= <-]; exact Hcount.
  - cbn. destruct (session self); [|intros [= <-]; reflexivity].
    destruct (is_live_ended s); intros [= <-]; reflexivity.
Qed.

(** A snapshot with a page error or a captcha is not recorded. *)
Lemma body_skips_session (self : LiveCollector) (c : Cycle)
    (s : PageSnapshot) (out : Outcome) :
  snapshot_result c = Returns s ->
  has_page_error s = true \/ has_captcha s = true ->
  collect_once_body c self = Some out ->
  session (state_of out) = session self.
Proof.
  intros Hs Hor. unfold collect_once_body. rewrite Hs.
  destruct (has_page_error s) eqn:Hpe.
  - destruct (_ <? _); [|intros [= <-]; reflexivity].
    destruct (negb (refresh_ok c)); [intros [= <-]; reflexivity|].
    cbn. destruct (hooks self); intros [= <-]; reflexivity.
  - destruct Hor as [Hx|Hc]; [discriminate Hx|]. rewrite Hc. cbn [negb].
    destruct (_handle_captcha _ _ _) as [[b self']|] eqn:Hh; [|discriminate].
    apply handle_captcha_untouched in Hh as ((Hsess & _) & _).
    destruct b; intros [= <-]; exact Hsess.
Qed.

(** A snapshot with neither is recorded, and the activation returns. *)
Lemma body_records (self : LiveCollector) (c : Cycle) (s : PageSnapshot)
    (sess : MonitorSession) :
  snapshot_result c = Returns s ->
  has_page_error s = false -> has_captcha s = false ->
  session self = Some sess ->
  exists self' : LiveCollector,
    collect_once_body c self =
      Some (Done (Returns (if is_live_ended s then false else is_healthy s))
                 self')
    /\ session self' = Some (add_snapshot sess s)
    /\ live_has_ended self' = (is_live_ended s || live_has_ended self)
    /\ page_error_retry_count self' = 0
    /\ actions self' = actions self ++ [PrintSummary s].
Proof.
  intros Hs Hpe Hc Hsess. unfold collect_once_body.
  rewrite Hs, Hpe, Hc. cbn. rewrite Hsess.
  destruct (is_live_ended s); eexists; split_and!; reflexivity.
Qed.

(** An activation raises nothing but [CollectionError]. *)
Lemma body_raises_collection_error (self self' : LiveCollector) (c : Cycle)
    (e : py_exception) :
  collect_once_body c self = Some (Done (Raises e) self') ->
  e = CollectionError.
Proof.
  unfold collect_once_body.
  destruct (snapshot_result c) as [s|e0]; [|intros [= <- _]; reflexivity].
  destruct (has_page_error s).
  - destruct (_ <? _); [|discriminate].
    destruct (negb (refresh_ok c)); [intros [= <- _]; reflexivity|].
    discriminate.
  - destruct (has_captcha s).
    + destruct (_handle_captcha _ _ _) as [[[|] ?]|]; discriminate.
    + destruct (session _); [|intros [= <- _]; reflexivity].
      destruct (is_live_ended s); discriminate.
Qed.

End CollectorFacts.

Section RecoveryPolicy.

Import Models Parser Captcha Hooks Collector Samples.

(** A run of page-error activations that stays within the limit is a run
    of refreshes. *)
Lemma retry_chain (cs : list Cycle) :
  forall self : LiveCollector,
    Forall page_error_cycle cs -> Forall refreshable cs ->
    page_error_retry_count self + Z.of_nat (length cs)
      <= max_page_error_retries self ->
    exists self' : LiveCollector,
      (forall rest, collect_once (cs ++ rest) self = collect_once rest self')
      /\ untouched self self'
      /\ page_error_retry_count self' =
           page_error_retry_count self + Z.of_nat (length cs)
      /\ actions self' =
           actions self
             ++ concat (replicate (length cs) (retry_actions (hooks self))).
Proof.
  induction cs as [|c cs IH]; intros self Hpe Hrf Hle.
  - exists self. split_and!.
    + reflexivity.
    + apply untouched_refl.
    + cbn. lia.
    + cbn. rewrite app_nil_r. reflexivity.
  - apply Forall_cons in Hpe as [(s & Hs & Hp) Hpe].
    apply Forall_cons in Hrf as [Hr Hrf]. cbn [length] in Hle.
    destruct (body_page_error_retry self c s Hs Hp Hr ltac:(lia))
      as (self1 & Hbody & Hun & Hcount & Hact).
    destruct (IH self1 Hpe Hrf) as (self' & Hrun & Hun' & Hcount' & Hact').
    { destruct Hun as (_ & _ & _ & -> & _). lia. }
    exists self'. split_and!.
    + intros rest. cbn [app collect_once]. rewrite Hbody. apply Hrun.
    + exact (untouched_trans _ _ _ Hun Hun').
    + rewrite Hcount', Hcount. cbn [length]. lia.
    + rewrite Hact', Hact. destruct Hun as (_ & _ & _ & _ & ->).
      cbn [length replicate concat]. rewrite <- app_assoc. reflexivity.
Qed.

(** C3. (1) A snapshot without page error leaves the retry counter at 0,
    however the activation ends.  (2) A page-error snapshot met with the
    counter below the limit adds one to the counter, refreshes the page
    and, the refresh returning, sleeps, reinstalls the hooks and runs the
    cycle again; the session and the interaction watermark are not
    touched.  (3) A page-error snapshot
    met with the counter at the limit makes [collect_once] return [False]
    with nothing touched and nothing raised.  (4) Hence, from a counter at 0
    with the limit of 3, four page-error snapshots in a row give three
    refresh-and-retry rounds and the give-up answer at the fourth, not
    before: after one, two or three of them the call has not returned. *)
Theorem page_error_retry_policy (self : LiveCollector) :
  (forall (c : Cycle) (s : PageSnapshot) (out : Outcome),
      snapshot_result c = Returns s -> has_page_error s = false ->
      collect_once_body c self = Some out ->
      page_error_retry_count (state_of out) = 0)
  /\ (forall (c : Cycle),
        page_error_cycle c -> refreshable c ->
        page_error_retry_count self < max_page_error_retries self ->
        exists self' : LiveCollector,
          collect_once_body c self = Some (Again self')
          /\ untouched self self'
          /\ page_error_retry_count self' = page_error_retry_count self + 1
          /\ actions self' = actions self ++ retry_actions (hooks self))
  /\ (forall (c : Cycle),
        page_error_cycle c ->
        max_page_error_retries self <= page_error_retry_count self ->
        collect_once_body c self = Some (Done (Returns false) self))
  /\ (forall (c1 c2 c3 c4 : Cycle) (rest : list Cycle),
        page_error_retry_count self = 0 ->
        max_page_error_retries self = 3 ->
        Forall page_error_cycle [c1; c2; c3; c4] ->
        Forall refreshable [c1; c2; c3] ->
        collect_once [c1] self = None
        /\ collect_once [c1; c2] self = None
        /\ collect_once [c1; c2; c3] self = None
        /\ exists self' : LiveCollector,
             collect_once (c1 :: c2 :: c3 :: c4 :: rest) self =
               Some (Returns false, self')
             /\ untouched self self'
             /\ page_error_retry_count self' = 3
             /\ actions self' =
                  actions self ++ retry_actions (hooks self)
                    ++ retry_actions (hooks self)
                    ++ retry_actions (hooks self)).
Proof.
  split_and!.
  - intros c s out. apply body_no_page_error_resets.
  - intros c (s & Hs & Hp) Hr Hlt. exact (body_page_error_retry self c s Hs Hp Hr Hlt).
  - intros c (s & Hs & Hp) Hge. exact (body_page_error_give_up self c s Hs Hp Hge).
  - intros c1 c2 c3 c4 rest H0 H3 Hpe Hrf.
    assert (Hpe3 : Forall page_error_cycle [c1; c2; c3]).
    { repeat (apply Forall_cons in Hpe as [? Hpe]).
      repeat (apply Forall_cons; split; [assumption|]). apply Forall_nil_2. }
    assert (Hpe4 : page_error_cycle c4).
    { repeat (apply Forall_cons in Hpe as [? Hpe]). assumption. }
    assert (Hrf1 : Forall refreshable [c1]).
    { apply Forall_cons in Hrf as [? _]. apply Forall_cons; split;
        [assumption|apply Forall_nil_2]. }
    assert (Hrf2 : Forall refreshable [c1; c2]).
    { repeat (apply Forall_cons in Hrf as [? Hrf]).
      repeat (apply Forall_cons; split; [assumption|]). apply Forall_nil_2. }
    assert (Hpe1 : Forall page_error_cycle [c1]).
    { apply Forall_cons in Hpe3 as [? _]. apply Forall_cons; split;
        [assumption|apply Forall_nil_2]. }
    assert (Hpe2 : Forall page_error_cycle [c1; c2]).
    { repeat (apply Forall_cons in Hpe3 as [? Hpe3]).
      repeat (apply Forall_cons; split; [assumption|]). apply Forall_nil_2. }
    split_and!.
    + destruct (retry_chain [c1] self Hpe1 Hrf1) as (s1 & Hrun & _).
      { cbn. lia. }
      specialize (Hrun []). rewrite app_nil_r in Hrun. exact Hrun.
    + destruct (retry_chain [c1; c2] self Hpe2 Hrf2) as (s2 & Hrun & _).
      { cbn. lia. }
      specialize (Hrun []). rewrite app_nil_r in Hrun. exact Hrun.
    + destruct (retry_chain [c1; c2; c3] self Hpe3 Hrf) as (s3 & Hrun & _).
      { cbn. lia. }
      specialize (Hrun []). rewrite app_nil_r in Hrun. exact Hrun.
    + destruct (retry_chain [c1; c2; c3] self Hpe3 Hrf)
        as (s3 & Hrun & Hun & Hcount & Hact).
      { cbn. lia. }
      exists s3. split_and!.
      * specialize (Hrun (c4 :: rest)). cbn [app] in Hrun. rewrite Hrun.
        cbn [collect_once]. destruct Hpe4 as (s & Hs & Hp).
        rewrite (body_page_error_give_up s3 c4 s Hs Hp); [reflexivity|].
        destruct Hun as (_ & _ & _ & -> & _). cbn in Hcount. lia.
      * exact Hun.
      * rewrite Hcount, H0. reflexivity.
      * rewrite Hact. cbn. rewrite app_nil_r. reflexivity.
Qed.

Lemma page_error_retry_policy_witness :
  exists self' : LiveCollector,
    collect_once (replicate 4 (cycle_of snapshot_page_error [])) collector0 =
      Some (Returns false, self')
    /\ untouched collector0 self'
    /\ page_error_retry_count self' = 3
    /\ actions self' =
         actions collector0 ++ retry_actions true ++ retry_actions true
           ++ retry_actions true.
Proof.
  destruct (page_error_retry_policy collector0) as (_ & _ & _ & Hfour).
  pose (c := cycle_of snapshot_page_error []).
  assert (Hc : page_error_cycle c).
  { exists snapshot_page_error. split; reflexivity. }
  destruct (Hfour c c c c [] eq_refl eq_refl) as (_ & _ & _ & Hrun).
  - repeat (apply Forall_cons; split; [exact Hc|]). apply Forall_nil_2.
  - repeat (apply Forall_cons; split; [reflexivity|]). apply Forall_nil_2.
  - exact Hrun.
Defined.

(** What an activation does to the session: nothing, or one
    [add_snapshot] of a snapshot with neither page error nor captcha. *)
Lemma body_session_cases (self : LiveCollector) (c : Cycle) (out : Outcome) :
  collect_once_body c self = Some out ->
  session (state_of out) = session self
  \/ exists (sess : MonitorSession) (s : PageSnapshot) (r : py bool)
            (self' : LiveCollector),
       out = Done r self' /\ snapshot_result c = Returns s
       /\ has_page_error s = false /\ has_captcha s = false
       /\ session self = Some sess
       /\ session self' = Some (add_snapshot sess s).
Proof.
  intros Hbody.
  destruct (snapshot_result c) as [s|e] eqn:Hs.
  2:{ left. unfold collect_once_body in Hbody. rewrite Hs in Hbody.
      injection Hbody as <-. reflexivity. }
  destruct (has_page_error s) eqn:Hp.
  { left. apply (body_skips_session self c s out Hs); [tauto|exact Hbody]. }
  destruct (has_captcha s) eqn:Hc.
  { left. apply (body_skips_session self c s out Hs); [tauto|exact Hbody]. }
  destruct (session self) as [sess|] eqn:Hsess.
  - right. destruct (body_records self c s sess Hs Hp Hc Hsess)
      as (self' & Hb & Hsess' & _).
    rewrite Hb in Hbody. injection Hbody as <-.
    exists sess, s, (Returns (if is_live_ended s then false else is_healthy s)),
      self'.
    split_and!; reflexivity || assumption.
  - left. unfold collect_once_body in Hbody.
    rewrite Hs, Hp, Hc in Hbody. cbn in Hbody. rewrite Hsess in Hbody.
    injection Hbody as <-. cbn. congruence.
Qed.

(** C6. (1) Processing a snapshot that has a page error or a captcha leaves
    the session, with its three counters and its list, as it was, however
    the activation ends.  (2) A snapshot with neither is appended by
    [add_snapshot] and the activation returns (ended or normal branch).
    (3) Hence a whole call of [collect_once], retries included, leaves the
    session as it was or appends exactly one snapshot, one that has neither
    page error nor captcha. *)
Theorem unhealthy_pages_not_recorded (self : LiveCollector) :
  (forall (c : Cycle) (s : PageSnapshot) (out : Outcome),
      snapshot_result c = Returns s ->
      has_page_error s = true \/ has_captcha s = true ->
      collect_once_body c self = Some out ->
      session (state_of out) = session self)
  /\ (forall (c : Cycle) (s : PageSnapshot) (sess : MonitorSession),
        snapshot_result c = Returns s ->
        has_page_error s = false -> has_captcha s = false ->
        session self = Some sess ->
        exists self' : LiveCollector,
          collect_once_body c self =
            Some (Done (Returns (if is_live_ended s then false
                                 else is_healthy s)) self')
          /\ session self' = Some (add_snapshot sess s))
  /\ (forall (cycles : list Cycle) (r : py bool) (self' : LiveCollector),
        collect_once cycles self = Some (r, self') ->
        session self' = session self
        \/ exists (sess : MonitorSession) (s : PageSnapshot),
             session self = Some sess
             /\ session self' = Some (add_snapshot sess s)
             /\ has_page_error s = false /\ has_captcha s = false
             /\ Returns s ∈ snapshot_result <$> cycles).
Proof.
  split_and!.
  - intros c s out. apply body_skips_session.
  - intros c s sess Hs Hp Hc Hsess.
    destruct (body_records self c s sess Hs Hp Hc Hsess)
      as (self' & Hb & Hsess' & _).
    exists self'. split; assumption.
  - intros cycles. revert self.
    induction cycles as [|c rest IH]; intros self r self' Hrun;
      [discriminate Hrun|].
    cbn [collect_once] in Hrun.
    destruct (collect_once_body c self) as [out|] eqn:Hbody;
      [|discriminate Hrun].
    destruct (body_session_cases self c out Hbody)
      as [Hsame|(sess & s & r0 & self0 & -> & Hs & Hp & Hc & Hsess & Hadd)].
    + destruct out as [r0 self0|self0]; cbn in Hsame.
      * injection Hrun as <- <-. left. exact Hsame.
      * destruct (IH self0 r self' Hrun)
          as [Hsame'|(sess & s & Hsess & Hadd & Hp & Hc & Hin)].
        -- left. congruence.
        -- right. exists sess, s. rewrite <- Hsame.
           split_and!; try assumption.
           rewrite fmap_cons. apply list_elem_of_further. exact Hin.
    + injection Hrun as <- <-. right. exists sess, s.
      split_and!; try assumption.
      rewrite fmap_cons, Hs. apply list_elem_of_here.
Qed.

Lemma unhealthy_pages_not_recorded_witness :
  match collect_once_body (cycle_of snapshot_captcha polls_solved)
          collector0 with
  | Some out => session (state_of out) = session collector0
  | None => False
  end.
Proof.
  destruct (collect_once_body (cycle_of snapshot_captcha polls_solved)
              collector0) as [out|] eqn:Hbody.
  - apply (proj1 (unhealthy_pages_not_recorded collector0)
             (cycle_of snapshot_captcha polls_solved) snapshot_captcha out
             eq_refl (or_intror eq_refl) Hbody).
  - discriminate Hbody.
Defined.

End RecoveryPolicy.

Section ChallengeBranch.

Import Models Parser Captcha Hooks Collector Samples.

(** On a captcha snapshot, when the window opens, the activation is the
    wait run on the collector with its retry counter back at zero. *)
Lemma body_captcha (self : LiveCollector) (c : Cycle) :
  captcha_snapshot c -> window_opens self c ->
  exists waiting : LiveCollector,
    actions waiting =
      actions self
        ++ captcha_actions (server_alive (captcha_env c)) default_timeout
    /\ untouched self waiting
    /\ page_error_retry_count waiting = 0
    /\ collect_once_body c self =
         match wait_for_solution default_timeout (polls (captcha_env c)) with
         | None => None
         | Some true => Some (Again (does [Sleep 3] waiting))
         | Some false => Some (Done (Returns false) waiting)
         end.
Proof.
  intros (s & Hs & Hp & Hc) (Hh & Hcap & Hsrv).
  destruct (handle_captcha_waits default_timeout (captcha_env c)
              (set_page_error_retry_count 0 self) Hh Hcap Hsrv)
    as (waiting & Hact & Hun & Hcount & Hrun).
  exists waiting. split_and!.
  - exact Hact.
  - exact Hun.
  - exact Hcount.
  - unfold collect_once_body. rewrite Hs, Hp, Hc. cbn [negb]. rewrite Hrun.
    destruct (wait_for_solution _ _) as [[|]|]; reflexivity.
Qed.

(** However a captcha activation ends, it either goes round again, and then
    the wait ended with the flag read as set, or returns [False]; it raises
    nothing, records nothing and leaves the retry counter at zero. *)
Lemma body_captcha_outcomes (self : LiveCollector) (c : Cycle)
    (out : Outcome) :
  captcha_snapshot c ->
  collect_once_body c self = Some out ->
  untouched self (state_of out)
  /\ page_error_retry_count (state_of out) = 0
  /\ ((exists self' : LiveCollector,
         out = Again self' /\ window_opens self c /\
         wait_for_solution default_timeout (polls (captcha_env c))
           = Some true)
      \/ (exists self' : LiveCollector, out = Done (Returns false) self')).
Proof.
  intros (s & Hs & Hp & Hc). unfold collect_once_body.
  rewrite Hs, Hp, Hc. cbn [negb].
  destruct (_handle_captcha default_timeout (captcha_env c)
              (set_page_error_retry_count 0 self))
    as [[b self']|] eqn:Hh; [|discriminate].
  pose proof (handle_captcha_untouched _ _ _ _ _ Hh) as (Hun & Hcount).
  destruct b; intros [= <-]; cbn [state_of].
  - apply handle_captcha_true in Hh as (H1 & H2 & H3 & H4).
    split_and!; [exact Hun|exact Hcount|].
    left. exists self'. unfold window_opens. tauto.
  - split_and!; [exact Hun|exact Hcount|].
    right. exists self'. reflexivity.
Qed.

(** The flag observed through [polls_of]. *)
Lemma seen_is_read (timeout : Z) (arrival : option Q)
    (turns : list WaitTurn) :
  seen_within timeout arrival turns ->
  flag_read_within timeout (polls_of arrival turns).
Proof.
  intros (a & i & w & -> & Hw & Htest & Hread).
  exists i, (mkPoll (tested_at w) (flag_at (Some a) (read_at w))).
  split_and!.
  - unfold polls_of. rewrite list_lookup_fmap, Hw. reflexivity.
  - cbn. apply Qle_bool_iff. exact Hread.
  - exact Htest.
Qed.

Lemma missed_is_unresolved (timeout : Z) (arrival : option Q)
    (turns : list WaitTurn) :
  missed timeout arrival turns ->
  elapsed_unresolved timeout (polls_of arrival turns).
Proof.
  intros (i & w & Hw & Htest & Hbefore).
  exists i, (mkPoll (tested_at w) (flag_at arrival (read_at w))).
  split_and!.
  - unfold polls_of. rewrite list_lookup_fmap, Hw. reflexivity.
  - exact Htest.
  - intros j q Hj Hq. unfold polls_of in Hq.
    rewrite list_lookup_fmap in Hq.
    destruct (turns !! j) as [v|] eqn:Hv; [|discriminate Hq].
    injection Hq as <-. cbn. exact (Hbefore j v Hj Hv).
Qed.

(** C7, as the code has it.  On a snapshot with a captcha and no page
    error, the wait loop observing the turns [turns] while the resolution
    signal arrives at [arrival]:
    (1) the wait is opened with the default window of 300 seconds;
    (2) if the signal is seen in time, that is, a turn whose loop test
    comes before 300 s reads the flag when the signal has arrived, the
    handler sleeps 3 seconds and the cycle runs again, the page-error
    counter staying at 0 and the session untouched;
    (3) if the signal is missed, that is, a loop test comes at 300 s or
    later and no earlier turn read the flag after the signal, then
    [collect_once] returns [False], also when the signal did arrive within
    the 300 seconds;
    (4) the wait is bounded: with turns of at least a second each, the
    activation has ended by the 301st loop test;
    (5) in every case the activation raises nothing and records nothing:
    it runs the cycle again only when the signal was seen in time, and
    otherwise returns [False].
    (2)-(4) are for a window that opens: the page was captured and the
    control surface runs. *)
Theorem captcha_wait_window (self : LiveCollector) (c : Cycle)
    (arrival : option Q) (turns : list WaitTurn) :
  captcha_snapshot c ->
  polls (captcha_env c) = polls_of arrival turns ->
  default_timeout = 300
  /\ (window_opens self c ->
      clock_monotone (polls_of arrival turns) ->
      seen_within 300 arrival turns ->
      exists self' : LiveCollector,
        collect_once_body c self = Some (Again self')
        /\ (forall rest : list Cycle,
              collect_once (c :: rest) self = collect_once rest self')
        /\ untouched self self'
        /\ page_error_retry_count self' = 0
        /\ actions self' =
             actions self
               ++ captcha_actions (server_alive (captcha_env c)) 300
               ++ [Sleep 3])
  /\ (window_opens self c ->
      missed 300 arrival turns ->
      exists self' : LiveCollector,
        collect_once_body c self = Some (Done (Returns false) self')
        /\ (forall rest : list Cycle,
              collect_once (c :: rest) self = Some (Returns false, self'))
        /\ untouched self self'
        /\ actions self' =
             actions self
               ++ captcha_actions (server_alive (captcha_env c)) 300)
  /\ (window_opens self c ->
      ticking (polls_of arrival turns) ->
      (300 < length turns)%nat ->
      exists out : Outcome, collect_once_body c self = Some out)
  /\ (forall out : Outcome,
        collect_once_body c self = Some out ->
        untouched self (state_of out)
        /\ page_error_retry_count (state_of out) = 0
        /\ ((exists self' : LiveCollector,
               out = Again self' /\ window_opens self c /\
               seen_within 300 arrival turns)
            \/ (exists self' : LiveCollector,
                  out = Done (Returns false) self'))).
Proof.
  intros Hsnap Hpolls. split; [reflexivity|].
  assert (Hopen : window_opens self c ->
            exists waiting : LiveCollector,
              actions waiting =
                actions self
                  ++ captcha_actions (server_alive (captcha_env c)) 300
              /\ untouched self waiting
              /\ page_error_retry_count waiting = 0
              /\ collect_once_body c self =
                   match wait_for_solution 300 (polls_of arrival turns) with
                   | None => None
                   | Some true => Some (Again (does [Sleep 3] waiting))
                   | Some false => Some (Done (Returns false) waiting)
                   end).
  { intros Hw. rewrite <- Hpolls. exact (body_captcha self c Hsnap Hw). }
  split_and!.
  - intros Hw Hmono Hseen.
    destruct (Hopen Hw) as (waiting & Hact & Hun & Hcount & Hbody).
    rewrite (wait_resolved 300 _ Hmono (seen_is_read _ _ _ Hseen)) in Hbody.
    exists (does [Sleep 3] waiting). split_and!.
    + exact Hbody.
    + intros rest. cbn [collect_once]. rewrite Hbody. reflexivity.
    + destruct Hun as (H1 & H2 & H3 & H4 & H5).
      unfold untouched. cbn. split_and!; assumption.
    + exact Hcount.
    + cbn. rewrite Hact, <- app_assoc. reflexivity.
  - intros Hw Hmissed.
    destruct (Hopen Hw) as (waiting & Hact & Hun & Hcount & Hbody).
    rewrite (wait_elapsed 300 _ (missed_is_unresolved _ _ _ Hmissed))
      in Hbody.
    exists waiting. split_and!.
    + exact Hbody.
    + intros rest. cbn [collect_once]. rewrite Hbody. reflexivity.
    + exact Hun.
    + exact Hact.
  - intros Hw Htick Hlen.
    destruct (Hopen Hw) as (waiting & Hact & Hun & Hcount & Hbody).
    destruct (wait_bounded 300 (polls_of arrival turns)) as [b Hb].
    + lia.
    + exact Htick.
    + unfold polls_of. rewrite length_fmap. lia.
    + rewrite Hb in Hbody. destruct b; eexists; exact Hbody.
  - intros out Hout.
    destruct (body_captcha_outcomes self c out Hsnap Hout)
      as (Hun & Hcount & Hcases).
    split_and!; [exact Hun|exact Hcount|].
    destruct Hcases as [(self' & -> & Hw & Hwait)|Hdone]; [|right; exact Hdone].
    left. exists self'. split_and!; [reflexivity|exact Hw|].
    rewrite Hpolls in Hwait.
    apply wait_for_solution_true in Hwait
      as (i & p & Hp & Hflag & Hin & _).
    pose proof (Hin i p ltac:(lia) Hp) as Htest.
    unfold polls_of in Hp. rewrite list_lookup_fmap in Hp.
    destruct (turns !! i) as [w|] eqn:Hturn; [|discriminate Hp].
    injection Hp as <-. cbn in Hflag, Htest.
    destruct arrival as [a|]; [|discriminate Hflag].
    exists a, i, w. split_and!; [reflexivity|exact Hturn|exact Htest|].
    apply Qle_bool_iff. exact Hflag.
Qed.

Lemma polls_solved_monotone : clock_monotone polls_solved.
Proof.
  intros i j p q Hij Hp Hq.
  destruct i as [|[|[|i]]]; destruct j as [|[|[|j]]];
    try lia; try discriminate Hp; try discriminate Hq;
    injection Hp as <-; injection Hq as <-;
    unfold Qle; cbn; lia.
Qed.

Lemma captcha_wait_window_witness :
  exists self' : LiveCollector,
    collect_once_body (cycle_of snapshot_captcha polls_solved) collector0 =
      Some (Again self')
    /\ (forall rest : list Cycle,
          collect_once (cycle_of snapshot_captcha polls_solved :: rest)
            collector0 = collect_once rest self')
    /\ untouched collector0 self'
    /\ page_error_retry_count self' = 0
    /\ actions self' =
         [CaptchaReset; CaptureCaptchaImage; StartApiServer 5000;
          WaitForSolution 300; Sleep 3].
Proof.
  assert (Hsnap : captcha_snapshot (cycle_of snapshot_captcha polls_solved)).
  { exists snapshot_captcha. split_and!; reflexivity. }
  destruct (captcha_wait_window collector0
              (cycle_of snapshot_captcha polls_solved)
              (Some (3 # 2)) turns_solved Hsnap eq_refl)
    as (_ & Hseen & _).
  apply Hseen.
  - split_and!; [right; reflexivity|reflexivity|right; reflexivity].
  - exact polls_solved_monotone.
  - exists (3 # 2), 2%nat, (mkWaitTurn (201 # 100) (201 # 100)).
    split_and!; [reflexivity|reflexivity|reflexivity|].
    unfold Qle. cbn. lia.
Defined.

(** C7 as the specification words it fails when the signal comes in the
    last turn before the deadline: with the turns of [turns_late] the
    click arrives 299.9 s in, within the window, but the flag was last read
    at 299.7475 s and the next loop test, at 300.75 s, ends the wait; the
    call returns [False]. *)
Lemma signal_in_last_interval_missed :
  arrives_within 300 (Some (2999 # 10))
  /\ captcha_snapshot
       (cycle_of snapshot_captcha (polls_of (Some (2999 # 10)) turns_late))
  /\ window_opens collector0
       (cycle_of snapshot_captcha (polls_of (Some (2999 # 10)) turns_late))
  /\ turns_late !! 299%nat
       = Some (mkWaitTurn (119899 # 400) (119899 # 400))
  /\ turns_late !! 300%nat = Some (mkWaitTurn (120300 # 400) (120300 # 400))
  /\ wait_for_solution 300 (polls_of (Some (2999 # 10)) turns_late)
       = Some false
  /\ fst <$> collect_once
       [cycle_of snapshot_captcha (polls_of (Some (2999 # 10)) turns_late)]
       collector0
     = Some (Returns false).
Proof.
  split_and!.
  - exists (2999 # 10). split; reflexivity.
  - exists snapshot_captcha. split_and!; reflexivity.
  - split_and!; [right; reflexivity|reflexivity|right; reflexivity].
  - vm_compute. reflexivity.
  - vm_compute. reflexivity.
  - vm_compute. reflexivity.
  - vm_compute. reflexivity.
Qed.

End ChallengeBranch.

(* ===================================================================== *)
(** * The interaction watermark (collector.py, hooks.py) *)
(* ===================================================================== *)

Section Watermark.

Import Models Parser Captcha Hooks Collector Samples.

Lemma py_slice_from_nonneg {A} (n : Z) (l : list A) :
  0 <= n -> py_slice_from n l = drop (Z.to_nat n) l.
Proof.
  intros Hn. unfold py_slice_from.
  destruct (n <? 0) eqn:E; [apply Z.ltb_lt in E; lia|reflexivity].
Qed.

(** One poll whose read succeeds: the suffix beyond the watermark is
    displayed and the watermark becomes the length read. *)
Lemma poll_read_ok (self : LiveCollector) (l : list Interaction) :
  hooks self = true -> 0 <= processed_interaction_count self ->
  process_live_interactions (Returns l) self =
    (drop (Z.to_nat (processed_interaction_count self)) l,
     set_processed_interaction_count (Z.of_nat (length l)) self).
Proof.
  intros Hh Hw. unfold process_live_interactions. rewrite Hh. cbn [negb].
  cbn [get_live_interactions]. rewrite py_slice_from_nonneg by exact Hw.
  reflexivity.
Qed.

Lemma growing_last {A} (l : list A) (reads : list (list A)) (lst : list A) :
  growing (l :: reads) -> last (l :: reads) = Some lst -> l `prefix_of` lst.
Proof.
  revert l. induction reads as [|l' reads IH]; intros l Hg Hlast.
  - injection Hlast as <-. reflexivity.
  - destruct Hg as [Hpre Hg]. rewrite last_cons_cons in Hlast.
    transitivity l'; [exact Hpre|apply (IH l' Hg Hlast)].
Qed.

(** While every read succeeds and the captured sequence only grows, the
    polls display, in order and once each, exactly the events between the
    first watermark and the end of the last read, and the watermark ends at
    the length of the last read. *)
Lemma polls_exactly_once (reads : list (list Interaction)) :
  forall (l : list Interaction) (self : LiveCollector) (lst : list Interaction),
    hooks self = true ->
    0 <= processed_interaction_count self <= Z.of_nat (length l) ->
    growing (l :: reads) -> last (l :: reads) = Some lst ->
    fst (process_polls (Returns <$> (l :: reads)) self) =
      drop (Z.to_nat (processed_interaction_count self)) lst
    /\ processed_interaction_count
         (snd (process_polls (Returns <$> (l :: reads)) self)) =
       Z.of_nat (length lst)
    /\ processed_interaction_count self <= Z.of_nat (length lst).
Proof.
  induction reads as [|l' reads IH]; intros l self lst Hh Hw Hg Hlast.
  - injection Hlast as <-. cbn [fmap list_fmap process_polls].
    rewrite poll_read_ok by tauto. cbn. rewrite app_nil_r.
    split_and!; [reflexivity|reflexivity|lia].
  - pose proof (growing_last l (l' :: reads) lst Hg Hlast) as [k ->].
    destruct Hg as [Hpre Hg]. rewrite last_cons_cons in Hlast.
    rewrite fmap_cons. cbn [process_polls].
    rewrite poll_read_ok by tauto.
    set (self1 := set_processed_interaction_count (Z.of_nat (length l)) self).
    destruct (IH l' self1 (l ++ k)) as (Hshown & Hcount & _).
    + exact Hh.
    + cbn. apply prefix_length in Hpre. lia.
    + exact Hg.
    + exact Hlast.
    + destruct (process_polls (Returns <$> l' :: reads) self1)
        as [shown' self2] eqn:Hrun.
      cbn [fst snd] in *. subst shown'. cbn [processed_interaction_count self1].
      cbn. rewrite Nat2Z.id, drop_app_length.
      split_and!.
      * rewrite drop_app.
        replace (Z.to_nat (processed_interaction_count self) - length l)%nat
          with 0%nat by lia.
        reflexivity.
      * exact Hcount.
      * rewrite length_app. lia.
Qed.

(** C5 at the failing read.  After a poll that read three interactions the
    watermark is 3; the next poll, whose read raises, displays nothing and
    leaves the watermark at 0. *)
Theorem watermark_after_failed_read :
  let '(shown1, self1) :=
    process_live_interactions (Returns captured3) collector0 in
  let '(shown2, self2) :=
    process_live_interactions (Raises WebDriverException) self1 in
  shown1 = captured3
  /\ processed_interaction_count self1 = 3
  /\ shown2 = []
  /\ processed_interaction_count self2 = 0.
Proof. cbn. split_and!; reflexivity. Qed.

(** C2 at the failing read.  The captured sequence holds the same three
    interactions throughout.  Three polls whose reads all succeed display
    them once.  When the read of the second poll raises, the third poll
    displays all three again: each is displayed twice. *)
Theorem failed_read_displays_twice :
  fst (process_polls
         [Returns captured3; Returns captured3; Returns captured3]
         collector0)
  = captured3
  /\ fst (process_polls
            [Returns captured3; Raises WebDriverException; Returns captured3]
            collector0)
     = captured3 ++ captured3.
Proof. split; reflexivity. Qed.

End Watermark.

(* ===================================================================== *)
(** * The scenarios of the specification *)
(* ===================================================================== *)

Section Scenarios.

Import Models Parser Captcha Hooks Collector Samples.

(** [healthy, healthy, page_error x 4]: three retries, then stop; the
    session holds the two healthy snapshots only. *)
Example scenario_page_errors :
  summary (collect_calls
             [[cycle_of snapshot_healthy []];
              [cycle_of snapshot_healthy []];
              replicate 4 (cycle_of snapshot_page_error [])]
             collector0)
  = Some ([Returns true; Returns true; Returns false],
          Some [snapshot_healthy; snapshot_healthy], Some (2, 2, 0), 3).
Proof. vm_compute. reflexivity. Qed.

(** [healthy, captcha (resolved in time), healthy]: the session holds the
    two healthy snapshots; the challenge leaves no entry. *)
Example scenario_captcha_resolved :
  summary (collect_calls
             [[cycle_of snapshot_healthy []];
              [cycle_of snapshot_captcha polls_solved;
               cycle_of snapshot_healthy []]]
             collector0)
  = Some ([Returns true; Returns true],
          Some [snapshot_healthy; snapshot_healthy], Some (2, 2, 0), 0).
Proof. vm_compute. reflexivity. Qed.

(** Nobody answers the challenge: after the loop test at second 300 the
    call returns [False]; nothing is recorded. *)
Example scenario_captcha_timeout :
  summary (collect_calls [[cycle_of snapshot_captcha polls_timeout]]
             collector0)
  = Some ([Returns false], Some [], Some (0, 0, 0), 0).
Proof. vm_compute. reflexivity. Qed.

End Scenarios.

(* ===================================================================== *)
(** * Further properties of the collection cycle *)
(* ===================================================================== *)

Section CycleFrame.

Import Models Parser Captcha Hooks Collector Samples MoreSamples PageStore.

(** However an activation ends, it leaves the interaction watermark, the
    hooks and the retry limit alone. *)
Lemma body_keeps_watermark (self : LiveCollector) (c : Cycle) (out : Outcome) :
  collect_once_body c self = Some out ->
  processed_interaction_count (state_of out) = processed_interaction_count self
  /\ hooks (state_of out) = hooks self
  /\ max_page_error_retries (state_of out) = max_page_error_retries self.
Proof.
  unfold collect_once_body.
  destruct (snapshot_result c) as [s|e];
    [|intros [= <-]; split_and!; reflexivity].
  destruct (has_page_error s).
  - destruct (_ <? _); [|intros [= <-]; split_and!; reflexivity].
    destruct (negb (refresh_ok c));
      [intros [= <-]; split_and!; reflexivity|].
    destruct self as [h ch se le pc rc mx ac]. cbn.
    destruct h; intros [= <-]; split_and!; reflexivity.
  - cbn [negb]. destruct (has_captcha s).
    + destruct (_handle_captcha _ _ _) as [[b self']|] eqn:Hh; [|discriminate].
      apply handle_captcha_untouched in Hh as ((_ & _ & Hw & Hm & Hk) & _).
      destruct b; intros [= <-]; cbn [state_of]; split_and!; assumption.
    + cbn. destruct (session self);
        [|intros [= <-]; split_and!; reflexivity].
      destruct (is_live_ended s); intros [= <-]; split_and!; reflexivity.
Qed.

Lemma collect_once_keeps_watermark (cycles : list Cycle) :
  forall (self self' : LiveCollector) (r : py bool),
    collect_once cycles self = Some (r, self') ->
    processed_interaction_count self' = processed_interaction_count self
    /\ hooks self' = hooks self
    /\ max_page_error_retries self' = max_page_error_retries self.
Proof.
  induction cycles as [|c rest IH]; intros self self' r Hrun;
    [discriminate Hrun|].
  cbn [collect_once] in Hrun.
  destruct (collect_once_body c self) as [out|] eqn:Hbody;
    [|discriminate Hrun].
  destruct (body_keeps_watermark self c out Hbody) as (Hw & Hh & Hm).
  destruct out as [r0 self0|self0]; cbn [state_of] in *.
  - injection Hrun as <- <-. split_and!; assumption.
  - destruct (IH self0 self' r Hrun) as (Hw' & Hh' & Hm').
    split_and!; congruence.
Qed.

(** A call of [collect_once] leaves the recorded snapshots as they were or
    appends one, which has neither page error nor captcha. *)
Lemma collect_once_records (cycles : list Cycle) :
  forall (self self' : LiveCollector) (r : py bool),
    collect_once cycles self = Some (r, self') ->
    session self' = session self
    \/ exists (sess : MonitorSession) (s : PageSnapshot),
         session self = Some sess
         /\ session self' = Some (add_snapshot sess s)
         /\ has_page_error s = false /\ has_captcha s = false.
Proof.
  induction cycles as [|c rest IH]; intros self self' r Hrun;
    [discriminate Hrun|].
  cbn [collect_once] in Hrun.
  destruct (collect_once_body c self) as [out|] eqn:Hbody;
    [|discriminate Hrun].
  destruct (body_session_cases self c out Hbody)
    as [Hsame|(sess & s & r0 & self0 & -> & Hs & Hp & Hc & Hsess & Hadd)].
  - destruct out as [r0 self0|self0]; cbn in Hsame.
    + injection Hrun as <- <-. left. exact Hsame.
    + destruct (IH self0 self' r Hrun)
        as [Hsame'|(sess & s & Hsess & Hadd & Hp & Hc)].
      * left. congruence.
      * right. exists sess, s. rewrite <- Hsame. split_and!; assumption.
  - injection Hrun as <- <-. right. exists sess, s. split_and!; assumption.
Qed.

Lemma store_after_all_app (a b : list Action) (store : list Interaction) :
  store_after_all (a ++ b) store = store_after_all b (store_after_all a store).
Proof. unfold store_after_all. apply foldl_app. Qed.

Lemma store_after_all_nil (acts : list Action) : store_after_all acts [] = [].
Proof.
  unfold store_after_all. induction acts as [|a acts IH]; [reflexivity|].
  cbn [foldl]. destruct a; exact IH.
Qed.

Lemma reloads_app (a b : list Action) :
  reloads (a ++ b) = reloads a || reloads b.
Proof. unfold reloads. apply existsb_app. Qed.

(** The calls of the challenge handler leave the array alone. *)
Lemma handle_captcha_store (timeout : Z) (env : CaptchaEnv)
    (self self' : LiveCollector) (b : bool) :
  _handle_captcha timeout env self = Some (b, self') ->
  exists added : list Action,
    actions self' = actions self ++ added
    /\ reloads added = false
    /\ forall store, store_after_all added store = store.
Proof.
  unfold _handle_captcha.
  repeat match goal with
  | |- context [if ?c then _ else _] => destruct c
  | |- context [match wait_for_solution ?t ?p with _ => _ end] =>
      destruct (wait_for_solution t p) as [[|]|]
  end;
  intros H; try discriminate H; injection H as <- <-;
  cbn [actions does set_captcha_handler];
  first [ exists []; split; [by rewrite app_nil_r|]; split; reflexivity
        | rewrite <- ?app_assoc; eexists; (split; [reflexivity|]);
          split; reflexivity ].
Qed.

(** The array after an activation: emptied if the page was loaded anew,
    untouched otherwise. *)
Lemma body_store (c : Cycle) (self : LiveCollector) (out : Outcome) :
  collect_once_body c self = Some out ->
  exists added : list Action,
    actions (state_of out) = actions self ++ added
    /\ forall store,
         store_after_all added store = if reloads added then [] else store.
Proof.
  unfold collect_once_body.
  destruct (snapshot_result c) as [s|e].
  2:{ intros [= <-]. exists []. rewrite app_nil_r. split; reflexivity. }
  destruct (has_page_error s) eqn:Hpe.
  - destruct (_ <? _).
    + destruct (negb (refresh_ok c)).
      * intros [= <-]. exists [Refresh]. split; reflexivity.
      * cbn [hooks does set_page_error_retry_count].
        destruct (hooks self); intros [= <-];
          cbn [state_of actions does set_page_error_retry_count];
          rewrite <- ?app_assoc; eexists; split; reflexivity.
    + intros [= <-]. exists []. rewrite app_nil_r. split; reflexivity.
  - cbn [negb]. destruct (has_captcha s) eqn:Hc.
    + destruct (_handle_captcha _ _ _) as [[b self']|] eqn:Hh;
        [|discriminate].
      destruct (handle_captcha_store _ _ _ _ _ Hh)
        as (added & Hact & Hno & Hsame).
      cbn in Hact.
      destruct b; intros [= <-]; exists added; cbn [state_of];
        (split; [exact Hact|]); intros store; by rewrite Hno, Hsame.
    + cbn [session set_page_error_retry_count].
      destruct (session self) as [sess|].
      * destruct (is_live_ended s); intros [= <-];
          exists [PrintSummary s]; split; reflexivity.
      * intros [= <-]. exists []. cbn. rewrite app_nil_r.
        split; reflexivity.
Qed.

Lemma collect_once_store (cycles : list Cycle) :
  forall (self self' : LiveCollector) (r : py bool),
    collect_once cycles self = Some (r, self') ->
    actions self' = actions self ++ calls_since self self'
    /\ forall store,
         store_after_all (calls_since self self') store
         = if reloads (calls_since self self') then [] else store.
Proof.
  assert (Hsince : forall (a b : LiveCollector) (added : list Action),
            actions b = actions a ++ added -> calls_since a b = added).
  { intros a b added H. unfold calls_since.
    rewrite H. by rewrite drop_app_length. }
  induction cycles as [|c rest IH]; intros self self' r Hrun;
    [discriminate Hrun|].
  cbn [collect_once] in Hrun.
  destruct (collect_once_body c self) as [out|] eqn:Hbody;
    [|discriminate Hrun].
  destruct (body_store _ _ _ Hbody) as (added & Hact & Hstore).
  destruct out as [r0 self0|self0]; cbn [state_of] in *.
  - injection Hrun as <- <-. rewrite (Hsince _ _ _ Hact). by split.
  - destruct (IH self0 self' r Hrun) as (Hact' & Hstore').
    assert (Hall : actions self' =
                   actions self ++ added ++ calls_since self0 self').
    { rewrite Hact', Hact. by rewrite <- app_assoc. }
    rewrite (Hsince _ _ _ Hall). split; [exact Hall|].
    intros store. rewrite store_after_all_app, reloads_app, Hstore, Hstore'.
    destruct (reloads added), (reloads (calls_since self0 self'));
      cbn [orb]; try reflexivity.
Qed.

(** X1. Snapshots and polls meet in the page.  A call of [collect_once],
    whatever it meets and however often it retries, never writes the
    interaction watermark, the hooks or the retry limit; a poll never
    writes the session, the ended flag, the retry counter or the captcha
    handler.  But a retry loads the page anew and the page's array of
    captured interactions starts again from empty, while the watermark
    keeps its value.  So for a collector with hooks set that has polled
    [seen], a call of [collect_once] followed by a poll, the page having
    captured [captured] in between: if the call did not reload the page,
    the poll displays exactly [captured]; if it did, the poll displays only
    what lies beyond the first [length seen] entries of [captured],
    nothing at all when there are not more than that, and sets the
    watermark to [length captured].  Either way every later poll displays
    only what the page captures from then on, so after a retry the first
    [length seen] interactions captured are never displayed. *)
Theorem snapshot_retry_and_polls (cycles : list Cycle)
    (self self' : LiveCollector) (r : py bool)
    (seen captured : list Interaction) :
  collect_once cycles self = Some (r, self') ->
  hooks self = true ->
  processed_interaction_count self = Z.of_nat (length seen) ->
  let added := calls_since self self' in
  let store := (if reloads added then [] else seen) ++ captured in
  let shown :=
    if reloads added then drop (length seen) captured else captured in
  let self'' :=
    set_processed_interaction_count (Z.of_nat (length store)) self' in
  actions self' = actions self ++ added
  /\ (processed_interaction_count self', hooks self',
      max_page_error_retries self')
     = (processed_interaction_count self, hooks self,
        max_page_error_retries self)
  /\ collect_then_poll cycles seen captured self
     = Some (r, shown, store, self'')
  /\ (session self'', live_has_ended self'', page_error_retry_count self'',
      captcha_handler self'')
     = (session self', live_has_ended self', page_error_retry_count self',
        captcha_handler self')
  /\ (reloads added = true ->
      (length captured <= length seen)%nat -> shown = [])
  /\ (forall more : list Interaction,
        fst (process_live_interactions (Returns (store ++ more)) self'')
        = more).
Proof.
  intros Hrun Hh Hw. cbn zeta.
  destruct (collect_once_keeps_watermark _ _ _ _ Hrun) as (Hw' & Hh' & Hm').
  destruct (collect_once_store _ _ _ _ Hrun) as (Hact & Hstore).
  split; [exact Hact|]. split; [by rewrite Hw', Hh', Hm'|].
  split.
  { unfold collect_then_poll. rewrite Hrun, Hstore.
    unfold process_live_interactions. rewrite Hh', Hh. cbn [negb].
    cbn [get_live_interactions]. rewrite Hw', Hw.
    rewrite py_slice_from_nonneg by lia. rewrite Nat2Z.id.
    destruct (reloads (calls_since self self')); [reflexivity|].
    by rewrite drop_app_length. }
  split; [reflexivity|]. split.
  { intros -> Hlen. apply drop_ge. exact Hlen. }
  intros more. unfold process_live_interactions.
  cbn [hooks set_processed_interaction_count processed_interaction_count].
  rewrite Hh', Hh. cbn [negb fst get_live_interactions].
  rewrite py_slice_from_nonneg by lia. rewrite Nat2Z.id.
  by rewrite drop_app_length.
Qed.

Lemma snapshot_retry_and_polls_witness :
  reloads (calls_since collector_polled3 collector_after_retry) = true
  /\ processed_interaction_count collector_after_retry = 3
  /\ option_map (fun x => (x.1.1.1, x.1.1.2, x.1.2))
       (collect_then_poll cycles_retry captured3 [chat1; gift2]
          collector_polled3)
     = Some (Returns true, [], [chat1; gift2]).
Proof.
  destruct (snapshot_retry_and_polls cycles_retry collector_polled3
              collector_after_retry (Returns true) captured3 [chat1; gift2]
              eq_refl eq_refl eq_refl)
    as (_ & Hframe & Hpoll & _).
  split_and!.
  - reflexivity.
  - exact (f_equal (fun t => fst (fst t)) Hframe).
  - rewrite Hpoll. reflexivity.
Defined.

(** X2. A page error comes before a captcha.  On a snapshot with a page
    error the activation always ends at once (it never waits), and it ends
    the same way whether or not the snapshot also shows a captcha and
    whatever the challenge handler would have met: the handler is not
    called, and the only calls made are those of a retry. *)
Theorem page_error_before_captcha (self : LiveCollector) (c : Cycle)
    (s : PageSnapshot) :
  snapshot_result c = Returns s ->
  has_page_error s = true ->
  (exists out : Outcome,
     collect_once_body c self = Some out
     /\ captcha_handler (state_of out) = captcha_handler self
     /\ exists done : list Action,
          actions (state_of out) = actions self ++ done
          /\ Forall (fun a => a ∈ retry_actions true) done)
  /\ (forall (s' : PageSnapshot) (env' : CaptchaEnv),
        has_page_error s' = true ->
        match collect_once_body c self,
              collect_once_body
                {| snapshot_result := Returns s'; refresh_ok := refresh_ok c;
                   captcha_env := env' |} self with
        | Some (Done r1 self1), Some (Done r2 self2) =>
            r1 = r2 /\ self1 = self2
        | Some (Again self1), Some (Again self2) => self1 = self2
        | _, _ => False
        end).
Proof.
  intros Hs Hp. split.
  - unfold collect_once_body. rewrite Hs, Hp.
    destruct (_ <? _).
    + destruct (negb (refresh_ok c)).
      * eexists. split; [reflexivity|]. split; [reflexivity|].
        exists [Refresh]. split; [reflexivity|].
        repeat constructor.
      * destruct self as [h ch se le pc rc mx ac]. cbn.
        destruct h; eexists; (split; [reflexivity|]);
          (split; [reflexivity|]); cbn.
        -- exists [Refresh; Sleep 5; InstallAllHooks; InjectDataExtractor].
           split; [rewrite <- app_assoc; reflexivity|].
           unfold retry_actions. repeat constructor.
        -- exists [Refresh; Sleep 5]. split; [reflexivity|].
           unfold retry_actions. repeat constructor.
    + eexists. split; [reflexivity|]. split; [reflexivity|].
      exists []. split; [rewrite app_nil_r; reflexivity|constructor].
  - intros s' env' Hp'. unfold collect_once_body. cbn.
    rewrite Hs, Hp, Hp'.
    destruct (_ <? _); [|split; reflexivity].
    destruct (negb (refresh_ok c)); [split; reflexivity|].
    reflexivity.
Qed.

Lemma page_error_before_captcha_witness :
  exists out : Outcome,
    collect_once_body
      (cycle_of snapshot_error_and_captcha polls_solved) collector0 = Some out
    /\ captcha_handler (state_of out) = captcha_handler collector0
    /\ exists done : list Action,
         actions (state_of out) = actions collector0 ++ done
         /\ Forall (fun a => a ∈ retry_actions true) done.
Proof.
  exact (proj1 (page_error_before_captcha collector0
                  (cycle_of snapshot_error_and_captcha polls_solved)
                  snapshot_error_and_captcha eq_refl eq_refl)).
Defined.

End CycleFrame.

(* ===================================================================== *)
(** * Further properties of models.py *)
(* ===================================================================== *)

Section SessionReportFacts.

Import Models SessionReport Samples MoreSamples.

(** X3. [finish] stamps the end time and nothing else: list and counters
    stay.  Nothing closes the session: a snapshot added after [finish] is
    recorded as before, the two calls commute; and a second [finish]
    replaces the end time of the first. *)
Theorem finish_only_stamps (now later : list Z) (sess : MonitorSession)
    (s : PageSnapshot) :
  end_time (finish now sess) = Some now
  /\ snapshots (finish now sess) = snapshots sess
  /\ total_snapshots (finish now sess) = total_snapshots sess
  /\ healthy_snapshots (finish now sess) = healthy_snapshots sess
  /\ error_snapshots (finish now sess) = error_snapshots sess
  /\ add_snapshot (finish now sess) s = finish now (add_snapshot sess s)
  /\ finish later (finish now sess) = finish later sess.
Proof.
  split_and!; try reflexivity.
  unfold add_snapshot, finish. destruct (is_healthy s); reflexivity.
Qed.

Lemma session_to_dict_snapshots (sess : MonitorSession) :
  session_to_dict sess !! "snapshots"%string =
    Some (Dicts (to_dict <$> snapshots sess)).
Proof. reflexivity. Qed.

(** X4. The report of a session that was created and then fed [calls]:
    it lists one dictionary per call, in call order, each the [to_dict] of
    the snapshot; [total_snapshots] is their number and equals the sum of
    the two other counters it reports; [end_time] is [None] until
    [finish], and [finish] changes no other entry. *)
Theorem session_report_matches_calls (u l t : list Z)
    (calls : list PageSnapshot) :
  let sess := add_snapshots (new_session u l t) calls in
  session_to_dict sess !! "snapshots"%string
    = Some (Dicts (to_dict <$> calls))
  /\ session_to_dict sess !! "total_snapshots"%string
       = Some (Plain (PyInt (Z.of_nat (length calls))))
  /\ (exists h e : Z,
        session_to_dict sess !! "healthy_snapshots"%string
          = Some (Plain (PyInt h))
        /\ session_to_dict sess !! "error_snapshots"%string
             = Some (Plain (PyInt e))
        /\ h + e = Z.of_nat (length calls)
        /\ h = count_healthy calls)
  /\ session_to_dict sess !! "end_time"%string = Some (Plain PyNone)
  /\ (forall now : list Z,
        session_to_dict (SessionReport.finish now sess) =
          <["end_time" := Plain (PyStr now)]> (session_to_dict sess)).
Proof.
  intros sess.
  destruct (add_snapshots_delta calls (new_session u l t))
    as (Hs & Ht & Hh & He).
  pose proof (count_healthy_unhealthy calls) as Hc.
  fold sess in Hs, Ht, Hh, He. cbn in Hs, Ht, Hh, He.
  split_and!.
  - rewrite session_to_dict_snapshots, Hs. reflexivity.
  - change (session_to_dict sess !! "total_snapshots"%string)
      with (Some (Plain (PyInt (total_snapshots sess)))).
    rewrite Ht. reflexivity.
  - exists (healthy_snapshots sess), (error_snapshots sess).
    split_and!; [reflexivity|reflexivity|lia|lia].
  - change (session_to_dict sess !! "end_time"%string)
      with (Some (Plain (py_optional_str (end_time sess)))).
    assert (Hend : forall c s0, end_time (add_snapshots s0 c) = end_time s0).
    { clear. intros c. unfold add_snapshots.
      induction c as [|x c IH]; intros s0; [reflexivity|].
      cbn [foldl]. rewrite IH. unfold add_snapshot.
      destruct (is_healthy x); reflexivity. }
    unfold sess. rewrite Hend. reflexivity.
  - intros now. unfold session_to_dict, SessionReport.finish.
    cbn [username live_url start_time end_time snapshots total_snapshots
         healthy_snapshots error_snapshots py_optional_str].
    rewrite (insert_insert_ne _ "end_time"%string "snapshots"%string) by done.
    rewrite (insert_insert_ne _ "end_time"%string "error_snapshots"%string)
      by done.
    rewrite (insert_insert_ne _ "end_time"%string "healthy_snapshots"%string)
      by done.
    rewrite (insert_insert_ne _ "end_time"%string "total_snapshots"%string)
      by done.
    rewrite insert_insert_eq. reflexivity.
Qed.

End SessionReportFacts.

Section LiveRoomFacts.

Import Models LiveRoom Samples MoreSamples.

Lemma dict_get_obj (kvs : list (list Z * Json)) (key : list Z) (d : Json) :
  dict_get (JObj kvs) key d =
    Some (match assoc key kvs with Some v => v | None => d end).
Proof. reflexivity. Qed.

(** X5. What [from_initial_data] reads.  When the room section cannot be
    read (a value on the way to [liveRoomInfo] is no dictionary), the
    object comes back with all seven fields [None], a complete user section
    notwithstanding.  When it can, the five room fields hold the values at
    their keys ([None] for a missing key) and the two owner fields hold the
    values of the user section, or [None] when that section cannot be read.
    Hence an owner field is set only if the room section was readable. *)
Theorem from_initial_data_reads (data : Json) :
  let info := from_initial_data data in
  (get_path (room_path "id") data = None -> info = blank)
  /\ (is_Some (get_path (room_path "id") data) ->
      Some (room_id info) = get_path (room_path "id") data
      /\ Some (LiveRoom.title info) = get_path (room_path "title") data
      /\ Some (status info) = get_path (room_path "status") data
      /\ Some (user_count info) = get_path (room_path "userCount") data
      /\ Some (stream_url info) = get_path (room_path "streamUrl") data
      /\ owner_nickname info =
           default JNull (get_path (owner_path "nickname") data)
      /\ owner_id info = default JNull (get_path (owner_path "id") data))
  /\ (owner_nickname info <> JNull \/ owner_id info <> JNull ->
      is_Some (get_path (room_path "id") data))
  /\ from_initial_data data_room_null = blank.
Proof.
  intros info.
  assert (Hchar :
    (get_path (room_path "id") data = None /\ info = blank)
    \/ (is_Some (get_path (room_path "id") data)
        /\ Some (room_id info) = get_path (room_path "id") data
        /\ Some (LiveRoom.title info) = get_path (room_path "title") data
        /\ Some (status info) = get_path (room_path "status") data
        /\ Some (user_count info) = get_path (room_path "userCount") data
        /\ Some (stream_url info) = get_path (room_path "streamUrl") data
        /\ owner_nickname info =
             default JNull (get_path (owner_path "nickname") data)
        /\ owner_id info = default JNull (get_path (owner_path "id") data))).
  { unfold info, from_initial_data, room_path, owner_path.
    generalize (units "__DEFAULT_SCOPE__") (units "webapp.live-detail")
      (units "liveRoomInfo") (units "webapp.user-detail") (units "userInfo")
      (units "user") (units "id") (units "title") (units "status")
      (units "userCount") (units "streamUrl") (units "nickname").
    intros k_scope k_detail k_room k_udetail k_uinfo k_user k_id k_title
      k_status k_count k_stream k_nick.
    cbn [get_path].
    destruct (dict_get data k_scope (JObj []))
      as [scope|]; [|left; split; reflexivity].
    destruct (dict_get scope k_detail (JObj []))
      as [detail|]; [|left; split; reflexivity].
    destruct (dict_get detail k_room (JObj []))
      as [room|]; [|left; split; reflexivity].
    destruct room as [| | | | |room_kvs];
      try (left; split; reflexivity).
    rewrite !dict_get_obj. right.
    destruct (dict_get scope k_udetail (JObj []))
      as [user_detail|];
      [|split_and!; first [reflexivity | eexists; reflexivity]].
    destruct (dict_get user_detail k_uinfo (JObj []))
      as [user_info|];
      [|split_and!; first [reflexivity | eexists; reflexivity]].
    destruct (dict_get user_info k_user (JObj []))
      as [user_data|];
      [|split_and!; first [reflexivity | eexists; reflexivity]].
    destruct user_data as [| | | | |user_kvs];
      split_and!; first [reflexivity | eexists; reflexivity]. }
  split_and!.
  - intros Hnone. destruct Hchar as [[_ Hb]|[Hsome _]]; [exact Hb|].
    rewrite Hnone in Hsome. destruct Hsome as [? Hx]. discriminate Hx.
  - intros Hsome. destruct Hchar as [[Hnone _]|[_ Hall]]; [|exact Hall].
    rewrite Hnone in Hsome. destruct Hsome as [? Hx]. discriminate Hx.
  - intros Hset. destruct Hchar as [[_ Hb]|[Hsome _]]; [|exact Hsome].
    rewrite Hb in Hset. cbn in Hset. destruct Hset as [Hx|Hx]; congruence.
  - reflexivity.
Qed.

Lemma from_initial_data_reads_witness :
  Some (room_id (from_initial_data data_room_and_owner))
    = Some (JStr (units "7301"))
  /\ Some (LiveRoom.title (from_initial_data data_room_and_owner))
       = Some JNull
  /\ Some (status (from_initial_data data_room_and_owner)) = Some (JNum 2)
  /\ Some (user_count (from_initial_data data_room_and_owner)) = Some JNull
  /\ Some (stream_url (from_initial_data data_room_and_owner)) = Some JNull
  /\ owner_nickname (from_initial_data data_room_and_owner)
       = JStr (units "ann")
  /\ owner_id (from_initial_data data_room_and_owner) = JStr (units "42").
Proof.
  apply (proj1 (proj2 (from_initial_data_reads data_room_and_owner))).
  eexists. reflexivity.
Defined.

End LiveRoomFacts.

(* ===================================================================== *)
(** * Properties of the interaction display and of the monitor loop *)
(* ===================================================================== *)

Section DisplayFacts.

Import Hooks Display Samples MoreSamples.

Lemma elem_of_known_types (ty : list Z) :
  ty ∈ known_types <->
  ty = units "chat" \/ ty = units "gift" \/ ty = units "like" \/
  ty = units "follow" \/ ty = units "share" \/ ty = units "join".
Proof.
  unfold known_types. rewrite !elem_of_cons, elem_of_nil. tauto.
Qed.

Lemma printed_cons (i : Interaction) (l : list Interaction) :
  printed (i :: l) = _display_interaction i ++ printed l.
Proof. reflexivity. Qed.

Lemma display_at_most_one (i : Interaction) :
  (length (_display_interaction i) <= 1)%nat.
Proof.
  unfold _display_interaction.
  repeat (case_decide; [cbn; lia|]).
  destruct (i_content i); cbn; lia.
Qed.

(** X6. [_display_interaction] prints one line or none.  It prints none
    exactly when the type is none of chat, gift, like, follow, share, join
    and the content is empty.  A printed line starts with an icon and the
    bracketed time and ends with the content.  The user name is printed on
    chat lines only: for every other type the line is the same whatever the
    user name.  So a poll prints at most one line per new interaction. *)
Theorem display_interaction_lines (i : Interaction) :
  (length (_display_interaction i) <= 1)%nat
  /\ (_display_interaction i = [] <->
      (i_type i ∉ known_types) /\ i_content i = [])
  /\ (forall line : list Z,
        line ∈ _display_interaction i ->
        i_content i `suffix_of` line
        /\ exists icon : list Z,
             (icon ++ [0x5B] ++ time_str (i_timestamp i) ++ [0x5D; 0x20])
               `prefix_of` line)
  /\ (i_type i <> units "chat" ->
      forall u : list Z,
        _display_interaction
          (mkInteraction (i_timestamp i) (i_type i) u (i_content i))
        = _display_interaction i)
  /\ (forall l : list Interaction, (length (printed l) <= length l)%nat).
Proof.
  split_and!.
  - apply display_at_most_one.
  - rewrite elem_of_known_types. unfold _display_interaction.
    repeat (case_decide; [split; [discriminate|tauto]|]).
    destruct (i_content i); split; try discriminate; try tauto.
    intros [_ Hx]. discriminate Hx.
  - intros line Hline.
    assert (Hshape : exists icon mid : list Z,
               line = head_of icon (i_timestamp i) ++ mid ++ i_content i).
    { revert Hline. unfold _display_interaction.
      case_decide.
      { intros ->%list_elem_of_singleton.
        exists icon_chat, (i_username i ++ colon).
        rewrite <- !app_assoc. reflexivity. }
      case_decide.
      { intros ->%list_elem_of_singleton.
        exists icon_gift, (word_gift ++ colon).
        rewrite <- !app_assoc. reflexivity. }
      case_decide.
      { intros ->%list_elem_of_singleton. exists icon_like, []. reflexivity. }
      case_decide.
      { intros ->%list_elem_of_singleton. exists icon_follow, [].
        reflexivity. }
      case_decide.
      { intros ->%list_elem_of_singleton. exists icon_share, [].
        reflexivity. }
      case_decide.
      { intros ->%list_elem_of_singleton. exists icon_join, [].
        reflexivity. }
      destruct (i_content i) as [|c0 content];
        [intros Hx; apply elem_of_nil in Hx as []|].
      intros ->%list_elem_of_singleton.
      exists icon_other, (i_type i ++ colon).
      rewrite <- !app_assoc. reflexivity. }
    destruct Hshape as (icon & mid & ->). split.
    + exists (head_of icon (i_timestamp i) ++ mid).
      rewrite <- app_assoc. reflexivity.
    + exists icon. exists (mid ++ i_content i).
      unfold head_of. rewrite <- !app_assoc. reflexivity.
  - intros Hne u. unfold _display_interaction. cbn.
    case_decide; [contradiction|]. reflexivity.
  - intros l. induction l as [|x l IH]; [reflexivity|].
    rewrite printed_cons, length_app. cbn [length].
    pose proof (display_at_most_one x). lia.
Qed.

(** X7. The time shown.  A timestamp of 19 characters or more shows its
    characters 11 to 18, eight in all: of an ISO timestamp, eleven
    characters of date and separator, then the clock, it shows the clock.
    A shorter timestamp is shown whole. *)
Theorem time_str_clock :
  (forall ts : list Z,
      (19 <= length ts)%nat ->
      length (time_str ts) = 8%nat
      /\ forall k : nat, (k < 8)%nat -> time_str ts !! k = ts !! (11 + k)%nat)
  /\ (forall ts : list Z, (length ts < 19)%nat -> time_str ts = ts)
  /\ (forall date clock rest : list Z,
        length date = 11%nat -> length clock = 8%nat ->
        time_str (date ++ clock ++ rest) = clock).
Proof.
  split_and!.
  - intros ts Hlen. unfold time_str, py_slice.
    apply Nat.leb_le in Hlen as Hb. rewrite Hb. split.
    + rewrite length_take, length_drop. lia.
    + intros k Hk. rewrite lookup_take_lt by lia. apply lookup_drop.
  - intros ts Hlen. unfold time_str.
    apply Nat.leb_gt in Hlen. rewrite Hlen. reflexivity.
  - intros date clock rest Hd Hc. unfold time_str, py_slice.
    assert (Hb : (19 <=? length (date ++ clock ++ rest))%nat = true).
    { apply Nat.leb_le. rewrite !length_app. lia. }
    rewrite Hb. rewrite drop_app_length' by (symmetry; exact Hd).
    rewrite take_app_length' by (symmetry; exact Hc). reflexivity.
Qed.

End DisplayFacts.

Section MonitorFacts.

Import Models Parser Captcha Hooks Collector MonitorLoop Samples MoreSamples.

Lemma option_map_Some {A B} (f : A -> B) (o : option A) (b : B) :
  option_map f o = Some b -> exists a, o = Some a /\ b = f a.
Proof.
  destruct o as [a|]; [|discriminate]. intros [= <-]. exists a. tauto.
Qed.

Lemma poll_keeps_session (read : py (list Interaction))
    (self : LiveCollector) :
  session (snd (process_live_interactions read self)) = session self.
Proof.
  unfold process_live_interactions. destruct (negb (hooks self)); reflexivity.
Qed.

Lemma recorded_after_collect (cycles : list Cycle)
    (self self' : LiveCollector) (r : py bool) :
  collect_once cycles self = Some (r, self') ->
  exists added : list PageSnapshot,
    recorded self' = recorded self ++ added
    /\ (length added <= 1)%nat
    /\ Forall (fun s => has_page_error s = false /\ has_captcha s = false)
              added.
Proof.
  intros Hrun. unfold recorded.
  destruct (collect_once_records cycles self self' r Hrun)
    as [->|(sess & s & -> & -> & Hp & Hc)].
  - exists []. rewrite app_nil_r. split_and!; [reflexivity|cbn; lia|constructor].
  - exists [s]. split_and!.
    + apply (add_snapshot_step sess s).
    + cbn. lia.
    + constructor; [tauto|constructor].
Qed.

(** The schedule of the loop, from any value of [last_collect_time]. *)
Lemma monitor_from_schedule (duration interval : Z) (turns : list Turn) :
  forall (last : Q) (self : LiveCollector) (run : Run),
    monitor_from duration interval turns last self = Some run ->
    spaced interval last (collected_at run)
    /\ (ended run = Returns tt \/ ended run = Raises CollectionError)
    /\ exists added : list PageSnapshot,
         recorded (after run) = recorded self ++ added
         /\ (length added <= length (collected_at run))%nat
         /\ Forall (fun s => has_page_error s = false
                             /\ has_captcha s = false) added.
Proof.
  induction turns as [|turn rest IH]; intros last self run Hrun;
    [discriminate Hrun|].
  cbn [monitor_from] in Hrun.
  destruct (Qlt_bool (at_test turn) (inject_Z duration)).
  2:{ injection Hrun as <-. cbn. split_and!; [exact I|tauto|].
      exists []. rewrite app_nil_r.
      split_and!; [reflexivity|cbn; lia|constructor]. }
  destruct (Qle_bool (inject_Z interval) (at_body turn - last)) eqn:Hdue.
  - apply Qle_bool_iff in Hdue.
    destruct (collect_once (turn_cycles turn) self) as [[r self1]|] eqn:Hc;
      [|discriminate Hrun].
    destruct (recorded_after_collect _ _ _ _ Hc)
      as (added & Hrec & Hlen & Hall).
    destruct r as [[|]|e].
    + destruct (process_live_interactions (turn_read turn) self1)
        as [shown self2] eqn:Hpoll.
      apply option_map_Some in Hrun as (run' & Hrun' & ->).
      destruct (IH _ _ _ Hrun') as (Hsp & Hend & added' & Hrec' & Hlen' & Hall').
      cbn. split_and!; [exact Hdue|exact Hsp|exact Hend|].
      exists (added ++ added'). split_and!.
      * rewrite Hrec'. unfold recorded at 1.
        pose proof (poll_keeps_session (turn_read turn) self1) as Hk.
        rewrite Hpoll in Hk. cbn in Hk. rewrite Hk.
        fold (recorded self1). rewrite Hrec, app_assoc. reflexivity.
      * rewrite length_app. cbn. lia.
      * apply Forall_app. split; assumption.
    + injection Hrun as <-. cbn. split_and!; [exact Hdue|exact I|tauto|].
      exists added. split_and!; [exact Hrec|cbn; lia|exact Hall].
    + injection Hrun as <-. cbn. split_and!; [exact Hdue|exact I|tauto|].
      exists added. split_and!; [exact Hrec|cbn; lia|exact Hall].
  - destruct (process_live_interactions (turn_read turn) self)
      as [shown self2] eqn:Hpoll.
    apply option_map_Some in Hrun as (run' & Hrun' & ->).
    destruct (IH _ _ _ Hrun') as (Hsp & Hend & added' & Hrec' & Hlen' & Hall').
    cbn. split_and!; [exact Hsp|exact Hend|].
    exists added'. split_and!; [|exact Hlen'|exact Hall'].
    rewrite Hrec'. unfold recorded at 1.
    pose proof (poll_keeps_session (turn_read turn) self) as Hk.
    rewrite Hpoll in Hk. cbn in Hk. rewrite Hk. reflexivity.
Qed.

(** X8. The schedule of [monitor].  Whenever a run of the loop ends, the
    snapshot calls it made are at least [collect_interval] apart on the
    loop's own clock, the first one at least [collect_interval] after the
    start; the run records at most one snapshot per call, none with a page
    error or a captcha; and it ends normally or with [CollectionError]. *)
Theorem monitor_schedule (duration interval : Z) (turns : list Turn)
    (self : LiveCollector) (run : Run) :
  monitor duration interval turns self = Some run ->
  spaced interval 0 (collected_at run)
  /\ (ended run = Returns tt \/ ended run = Raises CollectionError)
  /\ exists added : list PageSnapshot,
       recorded (after run) = recorded self ++ added
       /\ (length added <= length (collected_at run))%nat
       /\ Forall (fun s => has_page_error s = false
                           /\ has_captcha s = false) added.
Proof. apply monitor_from_schedule. Qed.

Lemma monitor_schedule_witness :
  match monitor 30 10 turns_25s collector0 with
  | Some run =>
      spaced 10 0 (collected_at run)
      /\ (ended run = Returns tt \/ ended run = Raises CollectionError)
      /\ exists added : list PageSnapshot,
           recorded (after run) = recorded collector0 ++ added
           /\ (length added <= length (collected_at run))%nat
           /\ Forall (fun s => has_page_error s = false
                               /\ has_captcha s = false) added
  | None => False
  end.
Proof.
  destruct (monitor 30 10 turns_25s collector0) as [run|] eqn:Hrun.
  - exact (monitor_schedule 30 10 turns_25s collector0 run Hrun).
  - vm_compute in Hrun. discriminate Hrun.
Defined.

Example monitor_25s :
  option_map (fun run => (ended run, displayed run, collected_at run,
                          length (recorded (after run))))
    (monitor 30 10 turns_25s collector0)
  = Some (Returns tt, captured3, [12%Q; 24%Q], 2%nat).
Proof. vm_compute. reflexivity. Qed.

End MonitorFacts.

Section MonitorPolls.

Import Models Parser Captcha Hooks Collector MonitorLoop Samples MoreSamples.

Lemma poll_same_state (read : py (list Interaction)) (a b : LiveCollector) :
  same_poll_state a b ->
  fst (process_live_interactions read a)
    = fst (process_live_interactions read b)
  /\ same_poll_state (snd (process_live_interactions read a))
                     (snd (process_live_interactions read b)).
Proof.
  intros [Hh Hw]. unfold process_live_interactions, same_poll_state.
  rewrite Hh, Hw. destruct (negb (hooks b)); cbn; tauto.
Qed.

Lemma polls_same_state (reads : list (py (list Interaction))) :
  forall a b : LiveCollector,
    same_poll_state a b ->
    fst (process_polls reads a) = fst (process_polls reads b)
    /\ same_poll_state (snd (process_polls reads a))
                       (snd (process_polls reads b)).
Proof.
  induction reads as [|read rest IH]; intros a b Hab; [cbn; tauto|].
  cbn [process_polls].
  destruct (poll_same_state read a b Hab) as [Hshown Hnext].
  destruct (process_live_interactions read a) as [shown_a a1].
  destruct (process_live_interactions read b) as [shown_b b1].
  cbn [fst snd] in Hshown, Hnext. subst shown_b.
  destruct (IH a1 b1 Hnext) as [Hshown' Hnext'].
  destruct (process_polls rest a1) as [shown_a' a2].
  destruct (process_polls rest b1) as [shown_b' b2].
  cbn [fst snd] in *. subst shown_b'. tauto.
Qed.

(** A run of the loop ends in one of its turns, say turn [n] counting
    from 0: the loop ends when it has seen the turns up to that one, and
    not before.  Its polls are those of the [n] turns before, as if no
    snapshot had been taken in between. *)
Lemma monitor_from_polls (duration interval : Z) (turns : list Turn) :
  forall (last : Q) (self : LiveCollector) (run : Run),
    monitor_from duration interval turns last self = Some run ->
    exists n : nat,
      (n < length turns)%nat
      /\ monitor_from duration interval (take (S n) turns) last self
         = Some run
      /\ monitor_from duration interval (take n turns) last self = None
      /\ displayed run
           = fst (process_polls (turn_read <$> take n turns) self)
      /\ same_poll_state (after run)
           (snd (process_polls (turn_read <$> take n turns) self)).
Proof.
  induction turns as [|turn rest IH]; intros last self run Hrun;
    [discriminate Hrun|].
  assert (Hstop : forall self1 : LiveCollector,
            same_poll_state self1 self ->
            displayed run = [] -> after run = self1 ->
            (forall l : list Turn,
               monitor_from duration interval (turn :: l) last self
               = Some run) ->
            exists n : nat,
              (n < length (turn :: rest))%nat
              /\ monitor_from duration interval (take (S n) (turn :: rest))
                   last self = Some run
              /\ monitor_from duration interval (take n (turn :: rest))
                   last self = None
              /\ displayed run
                   = fst (process_polls
                            (turn_read <$> take n (turn :: rest)) self)
              /\ same_poll_state (after run)
                   (snd (process_polls
                           (turn_read <$> take n (turn :: rest)) self))).
  { intros self1 Hst Hd Ha Hany. exists 0%nat. cbn [take length].
    split_and!.
    - lia.
    - apply Hany.
    - reflexivity.
    - rewrite Hd. reflexivity.
    - rewrite Ha. exact Hst. }
  assert (Hgo : forall (self1 : LiveCollector) (last' : Q) (at_ : list Q),
            same_poll_state self1 self ->
            (forall l : list Turn,
               monitor_from duration interval (turn :: l) last self
               = (let '(shown, self2) :=
                    process_live_interactions (turn_read turn) self1 in
                  option_map (and_then shown at_)
                    (monitor_from duration interval l last' self2))) ->
            exists n : nat,
              (n < length (turn :: rest))%nat
              /\ monitor_from duration interval (take (S n) (turn :: rest))
                   last self = Some run
              /\ monitor_from duration interval (take n (turn :: rest))
                   last self = None
              /\ displayed run
                   = fst (process_polls
                            (turn_read <$> take n (turn :: rest)) self)
              /\ same_poll_state (after run)
                   (snd (process_polls
                           (turn_read <$> take n (turn :: rest)) self))).
  { intros self1 last' at_ Hst Hstep.
    rewrite (Hstep rest) in Hrun.
    destruct (poll_same_state (turn_read turn) self1 self Hst)
      as [Hshown Hnext].
    assert (Hsteps : forall l : list Turn,
              monitor_from duration interval (turn :: l) last self
              = option_map
                  (and_then
                     (fst (process_live_interactions (turn_read turn) self1))
                     at_)
                  (monitor_from duration interval l last'
                     (snd (process_live_interactions (turn_read turn)
                             self1)))).
    { intros l. rewrite (Hstep l).
      destruct (process_live_interactions (turn_read turn) self1).
      reflexivity. }
    destruct (process_live_interactions (turn_read turn) self1)
      as [shown self2] eqn:Hpoll.
    cbn [fst snd] in Hsteps.
    apply option_map_Some in Hrun as (run' & Hrun' & ->).
    destruct (IH _ _ _ Hrun') as (n & Hn & Hends & Hnot & Hdisp & Hstate).
    exists (S n).
    assert (Htake : forall k : nat,
              take (S k) (turn :: rest) = turn :: take k rest)
      by reflexivity.
    rewrite !Htake, !Hsteps, Hends, Hnot.
    cbn [fmap list_fmap process_polls length].
    destruct (process_live_interactions (turn_read turn) self)
      as [shown0 self0].
    cbn [fst snd] in Hshown, Hnext. subst shown0.
    destruct (polls_same_state (turn_read <$> take n rest) self2 self0 Hnext)
      as [Heq Hst'].
    fold (@fmap list _ _ _ turn_read (take n rest)).
    destruct (process_polls (turn_read <$> take n rest) self0)
      as [shown' self0'].
    cbn [fst snd and_then displayed after option_map] in *. split_and!.
    - lia.
    - reflexivity.
    - reflexivity.
    - rewrite Hdisp, Heq. reflexivity.
    - destruct Hstate as [H1 H2], Hst' as [K1 K2].
      split; congruence. }
  cbn [monitor_from] in Hrun.
  destruct (Qlt_bool (at_test turn) (inject_Z duration)) eqn:Htest.
  2:{ injection Hrun as <-.
      apply (Hstop self (conj eq_refl eq_refl) eq_refl eq_refl).
      intros l. cbn [monitor_from]. rewrite Htest. reflexivity. }
  destruct (Qle_bool (inject_Z interval) (at_body turn - last)) eqn:Hdue.
  - destruct (collect_once (turn_cycles turn) self) as [[r self1]|] eqn:Hc;
      [|discriminate Hrun].
    destruct (collect_once_keeps_watermark _ _ _ _ Hc) as (Hw & Hh & _).
    assert (Hst : same_poll_state self1 self) by (split; assumption).
    destruct r as [[|]|e].
    + apply (Hgo self1 (at_body turn) [at_body turn] Hst).
      intros l. cbn [monitor_from]. rewrite Htest, Hdue, Hc. reflexivity.
    + injection Hrun as <-. apply (Hstop self1 Hst eq_refl eq_refl).
      intros l. cbn [monitor_from]. rewrite Htest, Hdue, Hc. reflexivity.
    + injection Hrun as <-. apply (Hstop self1 Hst eq_refl eq_refl).
      intros l. cbn [monitor_from]. rewrite Htest, Hdue, Hc. reflexivity.
  - apply (Hgo self last [] (conj eq_refl eq_refl)).
    intros l. cbn [monitor_from]. rewrite Htest, Hdue. reflexivity.
Qed.

Lemma growing_take {A} (n : nat) :
  forall reads : list (list A), growing reads -> growing (take n reads).
Proof.
  induction n as [|n IH]; intros reads Hg; [exact I|].
  destruct reads as [|l rest]; [exact I|].
  destruct Hg as [Hpre Hg]. cbn [take growing]. split.
  - destruct rest as [|l' rest']; [destruct n; exact I|].
    destruct n; [exact I|]. exact Hpre.
  - apply IH. exact Hg.
Qed.

(** X9. Exactly once, snapshots notwithstanding.  Take a finished run of
    [monitor] that starts with the watermark at 0 and hooks set, whose
    reads all succeed and each extend the one before (as they do as long
    as the page is not loaded anew).  The run ends in one of the observed
    turns, turn [n] counting from 0: the loop ends when it has seen the
    turns up to that one and not before, so it has polled in each of the
    [n] turns before it and in no other.  What the run displayed is
    exactly the read of the last of these polls, that of turn [n - 1], in
    order and once each (nothing when [n = 0]), whatever snapshots were
    taken in between; and the watermark ends at its length. *)
Theorem monitor_displays_once (duration interval : Z) (turns : list Turn)
    (self : LiveCollector) (run : Run) (seqs : list (list Interaction)) :
  monitor duration interval turns self = Some run ->
  hooks self = true ->
  processed_interaction_count self = 0 ->
  turn_read <$> turns = Returns <$> seqs ->
  growing seqs ->
  exists n : nat,
    (n < length turns)%nat
    /\ monitor duration interval (take (S n) turns) self = Some run
    /\ monitor duration interval (take n turns) self = None
    /\ match n with
       | O => displayed run = []
       | S k => seqs !! k = Some (displayed run)
       end
    /\ processed_interaction_count (after run)
         = Z.of_nat (length (displayed run)).
Proof.
  intros Hrun Hh Hw Hreads Hg.
  destruct (monitor_from_polls _ _ _ _ _ _ Hrun)
    as (n & Hn & Hends & Hnot & Hdisp & _ & Hst).
  exists n. split; [exact Hn|]. split; [exact Hends|].
  split; [exact Hnot|].
  rewrite Hst, Hdisp. rewrite fmap_take, Hreads, <- fmap_take.
  pose proof (growing_take n seqs Hg) as Hgn.
  assert (Hlen : length seqs = length turns).
  { rewrite <- (length_fmap Returns seqs), <- Hreads, length_fmap.
    reflexivity. }
  destruct n as [|k].
  - cbn. split; [reflexivity|exact Hw].
  - assert (Hk : exists lst, seqs !! k = Some lst).
    { apply lookup_lt_is_Some. lia. }
    destruct Hk as [lst Hk].
    assert (Hlast : last (take (S k) seqs) = Some lst).
    { rewrite last_lookup, length_take, Nat.min_l by lia.
      cbn [pred]. rewrite lookup_take_lt by lia. exact Hk. }
    destruct (take (S k) seqs) as [|l reads] eqn:Htake;
      [discriminate Hlast|].
    destruct (polls_exactly_once reads l self lst Hh) as (Hs & Hc & _).
    + rewrite Hw. lia.
    + exact Hgn.
    + exact Hlast.
    + rewrite Hs, Hc, Hw, Hk. cbn. split; reflexivity.
Qed.

Lemma monitor_displays_once_witness :
  match monitor 30 10 turns_25s collector0 with
  | Some run =>
      exists n : nat,
        (n < length turns_25s)%nat
        /\ monitor 30 10 (take (S n) turns_25s) collector0 = Some run
        /\ monitor 30 10 (take n turns_25s) collector0 = None
        /\ match n with
           | O => displayed run = []
           | S k =>
               [[]; [chat1]; [chat1; gift2]; [chat1; gift2]; captured3;
                captured3] !! k = Some (displayed run)
           end
        /\ processed_interaction_count (after run)
             = Z.of_nat (length (displayed run))
  | None => False
  end.
Proof.
  destruct (monitor 30 10 turns_25s collector0) as [run|] eqn:Hrun.
  - apply (monitor_displays_once 30 10 turns_25s collector0 run
             [[]; [chat1]; [chat1; gift2]; [chat1; gift2]; captured3;
              captured3] Hrun); try reflexivity.
    cbn. repeat split; eexists; reflexivity.
  - vm_compute in Hrun. discriminate Hrun.
Defined.

(** The run over [turns_25s] ends in its sixth turn, after five polls and
    two snapshots: what it displayed is the read of the fifth poll. *)
Example monitor_25s_last_read :
  option_map displayed (monitor 30 10 turns_25s collector0) = Some captured3
  /\ option_map collected_at (monitor 30 10 turns_25s collector0)
     = Some [12%Q; 24%Q]
  /\ monitor 30 10 (take 5 turns_25s) collector0 = None
  /\ turn_read <$> turns_25s !! 4%nat = Some (Returns captured3).
Proof. split_and!; vm_compute; reflexivity. Qed.

End MonitorPolls.

(* ===================================================================== *)
(** * Properties of browser.py and config.py *)
(* ===================================================================== *)

Section BrowserFacts.

Import BrowserManager Samples MoreSamples.

Lemma no_switch_before_cons (a : WindowAttempt) (rest : list WindowAttempt)
    (i : nat) :
  (forall h, a <> Switched h) -> no_switch_before i rest ->
  no_switch_before (S i) (a :: rest).
Proof.
  intros Ha Hrest [|j] h Hj; cbn.
  - intros [= Hx]. exact (Ha h Hx).
  - apply Hrest. lia.
Qed.

Lemma ensure_from_outcomes (todo : nat) :
  forall (attempts : list WindowAttempt) (r : WindowResult) (sleeps : nat),
    ensure_from todo attempts = Some (r, sleeps) ->
    (sleeps <= pred todo)%nat
    /\ match r with
       | Ready h =>
           exists i : nat,
             (i < todo)%nat /\ attempts !! i = Some (Switched h)
             /\ no_switch_before i attempts
       | WindowError =>
           (0 < todo)%nat /\ attempts !! pred todo = Some WindowRaises
           /\ no_switch_before (pred todo) attempts
       | NothingSelected =>
           no_switch_before todo attempts
           /\ (todo = 0%nat \/ attempts !! pred todo = Some NoHandle)
       end.
Proof.
  induction todo as [|todo IH]; intros attempts r sleeps Hrun.
  - injection Hrun as <- <-. split; [cbn; lia|]. split; [|tauto].
    intros j h Hj. lia.
  - cbn [ensure_from] in Hrun.
    destruct attempts as [|a rest]; [discriminate Hrun|].
    destruct a as [| |handle].
    + destruct todo as [|todo'].
      * injection Hrun as <- <-. cbn. split; [lia|].
        split_and!; [lia|reflexivity|]. intros j h Hj. lia.
      * destruct (ensure_from (S todo') rest) as [[r0 sl0]|] eqn:Hrest;
          [|discriminate Hrun].
        injection Hrun as <- <-.
        destruct (IH rest r0 sl0 Hrest) as [Hsl Hr]. cbn [pred] in *.
        split; [lia|].
        destruct r0 as [h| |].
        -- destruct Hr as (i & Hi & Hat & Hno). exists (S i).
           split_and!; [lia|exact Hat|].
           apply no_switch_before_cons; [discriminate|exact Hno].
        -- destruct Hr as [Hno Hlast]. split.
           ++ apply no_switch_before_cons; [discriminate|exact Hno].
           ++ right. destruct Hlast as [Hx|Hlast]; [discriminate Hx|].
              exact Hlast.
        -- destruct Hr as (_ & Hat & Hno). split_and!; [lia|exact Hat|].
           apply no_switch_before_cons; [discriminate|exact Hno].
    + destruct (IH rest r sleeps Hrun) as [Hsl Hr]. cbn [pred].
      split; [lia|].
      destruct r as [h| |].
      * destruct Hr as (i & Hi & Hat & Hno). exists (S i).
        split_and!; [lia|exact Hat|].
        apply no_switch_before_cons; [discriminate|exact Hno].
      * destruct Hr as [Hno Hlast]. split.
        -- apply no_switch_before_cons; [discriminate|exact Hno].
        -- right. destruct Hlast as [->|Hlast]; [reflexivity|].
           destruct todo as [|todo']; [reflexivity|exact Hlast].
      * destruct Hr as (Hpos & Hat & Hno).
        destruct todo as [|todo']; [lia|].
        split_and!; [lia|exact Hat|].
        apply no_switch_before_cons; [discriminate|exact Hno].
    + injection Hrun as <- <-. split; [lia|].
      exists 0%nat. split_and!; [lia|reflexivity|]. intros j h Hj. lia.
Qed.

Lemma ensure_from_total (todo : nat) :
  forall attempts : list WindowAttempt,
    (todo <= length attempts)%nat -> is_Some (ensure_from todo attempts).
Proof.
  induction todo as [|todo IH]; intros attempts Hlen; [by eexists|].
  destruct attempts as [|a rest]; [cbn in Hlen; lia|].
  cbn in Hlen. cbn [ensure_from].
  destruct a as [| |h]; [| |by eexists].
  - destruct todo as [|todo']; [by eexists|].
    destruct (IH rest ltac:(lia)) as [[r sl] ->]. by eexists.
  - apply IH. lia.
Qed.

(** X10. [_ensure_window_handle] makes five attempts at most.  It returns
    after the first attempt that switches to a window.  An exception in one
    of the first four attempts is swallowed, with a sleep of a second; only
    the exception of the fifth attempt is raised.  When the fifth attempt
    finds no handle the function returns normally although no window was
    selected.  There are four sleeps at most, and five observed attempts
    are always enough for the call to end. *)
Theorem ensure_window_handle_outcomes (attempts : list WindowAttempt)
    (r : WindowResult) (sleeps : nat) :
  _ensure_window_handle attempts = Some (r, sleeps) ->
  (sleeps <= 4)%nat
  /\ match r with
     | Ready h =>
         exists i : nat,
           (i < 5)%nat /\ attempts !! i = Some (Switched h)
           /\ no_switch_before i attempts
     | WindowError =>
         attempts !! 4%nat = Some WindowRaises
         /\ no_switch_before 4 attempts
     | NothingSelected =>
         attempts !! 4%nat = Some NoHandle /\ no_switch_before 5 attempts
     end
  /\ (forall observed : list WindowAttempt,
        (5 <= length observed)%nat ->
        is_Some (_ensure_window_handle observed)).
Proof.
  intros Hrun.
  destruct (ensure_from_outcomes 5 attempts r sleeps Hrun) as [Hsl Hr].
  split; [exact Hsl|]. split; [|apply ensure_from_total].
  destruct r as [h| |].
  - exact Hr.
  - destruct Hr as [Hno [Hx|Hlast]]; [discriminate Hx|]. tauto.
  - tauto.
Qed.

Lemma ensure_window_handle_outcomes_witness :
  (2 <= 4)%nat
  /\ exists i : nat,
       (i < 5)%nat
       /\ window_late !! i = Some (Switched (units "CDwindow-1"))
       /\ no_switch_before i window_late.
Proof.
  destruct (ensure_window_handle_outcomes window_late
              (Ready (units "CDwindow-1")) 2 eq_refl) as (H1 & H2 & _).
  split; assumption.
Defined.

Lemma tally_app (f : Nap -> Z) (a b : list Nap) :
  tally f (a ++ b) = tally f a + tally f b.
Proof.
  unfold tally. induction a as [|n a IH]; cbn; [reflexivity|].
  rewrite IH. lia.
Qed.

Lemma tally_replicate (f : Nap -> Z) (k : nat) (n : Nap) :
  tally f (replicate k n) = Z.of_nat k * f n.
Proof.
  unfold tally. induction k as [|k IH]; cbn [replicate foldr]; [lia|].
  rewrite IH. lia.
Qed.

Lemma tally_cons (f : Nap -> Z) (n : Nap) (l : list Nap) :
  tally f (n :: l) = f n + tally f l.
Proof. reflexivity. Qed.

Lemma tally_nil (f : Nap -> Z) : tally f [] = 0.
Proof. reflexivity. Qed.

Local Ltac tallies :=
  repeat first [rewrite tally_app | rewrite tally_cons
               | rewrite tally_replicate | rewrite tally_nil];
  cbn [millis].

(** One attempt: whether it goes through, and what it costs. *)
Lemma visit_try_outcomes (a : VisitAttempt) (ok : bool) (gets : nat)
    (naps : list Nap) :
  visit_try a = Some (ok, gets, naps) ->
  ok = attempt_succeeds a
  /\ (gets <= 1)%nat
  /\ retry_delays naps = 0
  /\ 0 <= slept naps <= 10000
  /\ (ok = true ->
      gets = 1%nat /\ 4000 <= slept naps
      /\ exists before : list Nap,
           naps = before ++ _close_login_modal (modal a)
                         ++ replicate 4 NapScroll).
Proof.
  unfold visit_try, attempt_succeeds, slept, retry_delays.
  destruct (_ensure_window_handle (window a)) as [[w n]|] eqn:Hw;
    [|discriminate].
  destruct (ensure_from_outcomes 5 (window a) w n Hw) as [Hn _].
  cbn [pred] in Hn.
  assert (Hrest :
    Some (if negb (get_ok a) then (false, 1%nat, replicate n NapWindow)
          else if negb (alive_after a)
               then (false, 1%nat,
                     replicate n NapWindow
                       ++ (if wait_ok a then [NapLoaded] else []))
               else if (scrolls_run a <? 4)%nat
                    then (false, 1%nat,
                          (replicate n NapWindow
                             ++ (if wait_ok a then [NapLoaded] else []))
                            ++ _close_login_modal (modal a)
                            ++ replicate (scrolls_run a) NapScroll)
                    else (true, 1%nat,
                          (replicate n NapWindow
                             ++ (if wait_ok a then [NapLoaded] else []))
                            ++ _close_login_modal (modal a)
                            ++ replicate 4 NapScroll))
      = Some (ok, gets, naps) ->
    ok = get_ok a && alive_after a && (4 <=? scrolls_run a)%nat
    /\ (gets <= 1)%nat
    /\ tally (fun n0 => match n0 with NapRetry => 1 | _ => 0 end) naps = 0
    /\ 0 <= tally millis naps <= 10000
    /\ (ok = true ->
        gets = 1%nat /\ 4000 <= tally millis naps
        /\ exists before : list Nap,
             naps = before ++ _close_login_modal (modal a)
                           ++ replicate 4 NapScroll)).
  { destruct (get_ok a); cbn [negb andb].
    2:{ intros [= <- <- <-]. tallies.
        split_and!; try lia; try reflexivity; try discriminate. }
    destruct (alive_after a); cbn [negb andb].
    2:{ intros [= <- <- <-].
        destruct (wait_ok a); tallies;
          (split_and!; try lia; try reflexivity; try discriminate). }
    destruct (Nat.ltb_spec (scrolls_run a) 4) as [Hs|Hs].
    - intros [= <- <- <-].
      apply Nat.leb_gt in Hs as Hb. rewrite Hb.
      destruct (wait_ok a), (modal a); cbn [_close_login_modal]; tallies;
        (split_and!; try lia; try reflexivity; try discriminate).
    - intros [= <- <- <-].
      apply Nat.leb_le in Hs as Hb. rewrite Hb.
      destruct (wait_ok a), (modal a); cbn [_close_login_modal]; tallies;
        (split_and!; try lia; try reflexivity;
         intros _; split_and!; try lia; try reflexivity;
         eexists; reflexivity). }
  destruct w as [h| |].
  - intros H. apply Hrest. rewrite <- H.
    destruct (negb (get_ok a)); [reflexivity|].
    destruct (negb (alive_after a)); [reflexivity|].
    rewrite <- !app_assoc.
    destruct (scrolls_run a <? 4)%nat; rewrite <- ?app_assoc; reflexivity.
  - intros H. apply Hrest. rewrite <- H.
    destruct (negb (get_ok a)); [reflexivity|].
    destruct (negb (alive_after a)); [reflexivity|].
    rewrite <- !app_assoc.
    destruct (scrolls_run a <? 4)%nat; rewrite <- ?app_assoc; reflexivity.
  - intros [= <- <- <-]. tallies.
    split_and!; try lia; try reflexivity; try discriminate.
Qed.

Lemma visit_from_outcomes (todo : nat) :
  forall (attempts : list VisitAttempt) (r : VisitResult) (gets : nat)
         (naps : list Nap),
    (0 < todo)%nat ->
    visit_from todo attempts = Some (r, gets, naps) ->
    (r = Visited <-> existsb attempt_succeeds (take todo attempts) = true)
    /\ (gets <= todo)%nat
    /\ 0 <= retry_delays naps <= Z.of_nat (pred todo)
    /\ 0 <= slept naps <= 10000 * Z.of_nat todo + 2000 * Z.of_nat (pred todo)
    /\ (r = Visited ->
        4000 <= slept naps
        /\ exists (before : list Nap) (m : ModalOutcome),
             naps = before ++ _close_login_modal m ++ replicate 4 NapScroll).
Proof.
  induction todo as [|todo IH]; intros attempts r gets naps Hpos Hrun;
    [lia|].
  cbn [visit_from] in Hrun.
  destruct attempts as [|a rest]; [discriminate Hrun|].
  cbn [take existsb].
  destruct (visit_try a) as [[[ok g] ns]|] eqn:Htry; [|discriminate Hrun].
  destruct (visit_try_outcomes a ok g ns Htry)
    as (Hok & Hg & Hretry & Hslept & Hthrough).
  rewrite <- Hok. destruct ok.
  - injection Hrun as <- <- <-.
    destruct (Hthrough eq_refl) as (_ & Hmin & before & Hnaps).
    cbn [orb]. split_and!; try tauto; try lia.
    intros _. split; [exact Hmin|]. by exists before, (modal a).
  - destruct todo as [|todo'].
    + injection Hrun as <- <- <-. cbn [take existsb orb].
      split_and!; try lia; [split; discriminate|discriminate].
    + destruct (visit_from (S todo') rest) as [[[r0 g0] n0]|] eqn:Hrest;
        [|discriminate Hrun].
      injection Hrun as <- <- <-.
      destruct (IH rest r0 g0 n0 ltac:(lia) Hrest)
        as (Hiff & Hg0 & Hr0 & Hs0 & Hv0).
      unfold slept, retry_delays in *.
      rewrite !tally_app. cbn [tally foldr millis].
      fold (tally millis n0).
      fold (tally (fun n => match n with NapRetry => 1 | _ => 0 end) n0).
      cbn [orb pred] in *. split_and!; try exact Hiff; try lia.
      intros Hv. destruct (Hv0 Hv) as (Hmin & before & m & ->).
      split; [lia|].
      exists (ns ++ NapRetry :: before), m.
      by rewrite <- app_assoc.
Qed.

Lemma visit_try_ignores_wait (b : bool) (m : ModalOutcome)
    (a : VisitAttempt) :
  option_map fst (visit_try (with_wait b m a)) = option_map fst (visit_try a).
Proof.
  unfold visit_try, with_wait.
  cbn [window get_ok wait_ok alive_after modal scrolls_run].
  destruct (_ensure_window_handle (window a)) as [[[h| |] n]|];
    try reflexivity;
    destruct (get_ok a), (alive_after a), (scrolls_run a <? 4)%nat;
    reflexivity.
Qed.

Lemma visit_from_ignores_wait (b : bool) (m : ModalOutcome) (todo : nat) :
  forall attempts : list VisitAttempt,
    option_map fst (visit_from todo (with_wait b m <$> attempts))
    = option_map fst (visit_from todo attempts).
Proof.
  induction todo as [|todo IH]; intros attempts; [reflexivity|].
  destruct attempts as [|a rest]; [reflexivity|].
  cbn [fmap list_fmap visit_from].
  fold (@fmap list _ _ _ (with_wait b m) rest).
  pose proof (visit_try_ignores_wait b m a) as Htry.
  destruct (visit_try (with_wait b m a)) as [[[ok g] ns]|],
           (visit_try a) as [[[ok' g'] ns']|];
    try discriminate Htry; [|reflexivity].
  injection Htry as <- <-.
  destruct ok; [reflexivity|].
  destruct todo as [|todo']; [reflexivity|].
  specialize (IH rest).
  destruct (visit_from (S todo') (with_wait b m <$> rest))
    as [[[r1 g1] n1]|],
    (visit_from (S todo') rest) as [[[r2 g2] n2]|];
    try discriminate IH; [|reflexivity].
  injection IH as <- <-. reflexivity.
Qed.

Lemma visit_from_total (todo : nat) :
  forall attempts : list VisitAttempt,
    (todo <= length attempts)%nat ->
    Forall (fun a => (5 <= length (window a))%nat) attempts ->
    is_Some (visit_from todo attempts).
Proof.
  induction todo as [|todo IH]; intros attempts Hlen Hwin; [by eexists|].
  destruct attempts as [|a rest]; [cbn in Hlen; lia|].
  cbn in Hlen. apply Forall_cons in Hwin as [Ha Hrest].
  cbn [visit_from].
  assert (Htry : is_Some (visit_try a)).
  { unfold visit_try.
    destruct (ensure_from_total 5 (window a) Ha) as [[w sl] Hw].
    unfold _ensure_window_handle. rewrite Hw.
    destruct w; try (by eexists);
      destruct (negb (get_ok a)); try (by eexists);
      destruct (negb (alive_after a)); try (by eexists);
      destruct (scrolls_run a <? 4)%nat; by eexists. }
  destruct Htry as [[[ok g] ns] ->].
  destruct ok; [by eexists|].
  destruct todo as [|todo']; [by eexists|].
  destruct (IH rest ltac:(lia) Hrest) as [[[r g0] n0] ->]. by eexists.
Qed.

(** X11. [visit_live_room] raises [BrowserError] at once, without loading
    or sleeping, when no driver is set or the browser is not alive.
    Otherwise it tries up to three times and returns at the first attempt
    that goes through (window check without exception, page loaded, browser
    still alive, the four scroll scripts run); it raises [BrowserError]
    exactly when none of the three does.  The page is loaded three times
    at most and there are two retry delays at most.  Counting every sleep
    on the way (window checks, the pause after the wait, the login dialog,
    the scroll pauses, the retry delays) a call sleeps 34 seconds at most,
    and a call that succeeds sleeps 4 seconds at least: it ends with the
    sleeps of the login dialog and the four scroll pauses.  Whether the
    wait for the key elements succeeds and what the login dialog does
    changes neither the result nor the number of loads.  After [close], no
    driver is set: a second [close] does not call [quit], and a visit fails
    at once.  Three observed attempts, each with five observed window
    checks, are always enough for the call to end. *)
Theorem visit_live_room_outcomes (driver_set alive : bool)
    (attempts : list VisitAttempt) (r : VisitResult) (gets : nat)
    (naps : list Nap) :
  visit_live_room driver_set alive attempts = Some (r, gets, naps) ->
  (r = Visited <->
   driver_set = true /\ alive = true
   /\ existsb attempt_succeeds (take 3 attempts) = true)
  /\ (gets <= 3)%nat
  /\ 0 <= retry_delays naps <= 2
  /\ 0 <= slept naps <= 34000
  /\ (r = Visited ->
      4000 <= slept naps
      /\ exists (before : list Nap) (m : ModalOutcome),
           naps = before ++ _close_login_modal m ++ replicate 4 NapScroll)
  /\ (driver_set = false \/ alive = false -> gets = 0%nat /\ naps = [])
  /\ (forall (b : bool) (m : ModalOutcome),
        option_map fst
          (visit_live_room driver_set alive (with_wait b m <$> attempts))
        = Some (r, gets))
  /\ (forall quit_ok quit_ok' : bool,
        fst (close quit_ok driver_set) = false
        /\ close quit_ok' (fst (close quit_ok driver_set)) = (false, 0%nat)
        /\ visit_live_room (fst (close quit_ok driver_set)) alive attempts
           = Some (BrowserError, 0%nat, []))
  /\ (forall observed : list VisitAttempt,
        (3 <= length observed)%nat ->
        Forall (fun a => (5 <= length (window a))%nat) observed ->
        is_Some (visit_live_room driver_set alive observed)).
Proof.
  intros Hrun.
  assert (Htotal : forall observed : list VisitAttempt,
            (3 <= length observed)%nat ->
            Forall (fun a => (5 <= length (window a))%nat) observed ->
            is_Some (visit_live_room driver_set alive observed)).
  { intros observed Hlen Hwin. unfold visit_live_room.
    destruct (negb driver_set); [by eexists|].
    destruct (negb alive); [by eexists|].
    by apply visit_from_total. }
  assert (Hclose : forall quit_ok quit_ok' : bool,
            fst (close quit_ok driver_set) = false
            /\ close quit_ok' (fst (close quit_ok driver_set))
               = (false, 0%nat)
            /\ visit_live_room (fst (close quit_ok driver_set)) alive
                 attempts
               = Some (BrowserError, 0%nat, [])).
  { intros q q'. unfold close. destruct driver_set; cbn; tauto. }
  assert (Hwait : forall (b : bool) (m : ModalOutcome),
            option_map fst
              (visit_live_room driver_set alive (with_wait b m <$> attempts))
            = option_map fst (visit_live_room driver_set alive attempts)).
  { intros b m. unfold visit_live_room.
    destruct (negb driver_set); [reflexivity|].
    destruct (negb alive); [reflexivity|].
    apply visit_from_ignores_wait. }
  assert (Hstop : driver_set = false \/ alive = false ->
            r = BrowserError /\ gets = 0%nat /\ naps = []).
  { unfold visit_live_room in Hrun.
    intros [-> | ->]; cbn [negb] in Hrun.
    - by injection Hrun as <- <- <-.
    - destruct driver_set; by injection Hrun as <- <- <-. }
  destruct driver_set.
  2:{ destruct (Hstop ltac:(auto)) as (-> & -> & ->).
      split_and!; try done; try (cbn; lia).
      split; [discriminate|]. intros (Hx & _). discriminate Hx. }
  destruct alive.
  2:{ destruct (Hstop ltac:(auto)) as (-> & -> & ->).
      split_and!; try done; try (cbn; lia).
      split; [discriminate|]. intros (_ & Hx & _). discriminate Hx. }
  unfold visit_live_room in Hrun. cbn [negb] in Hrun.
  destruct (visit_from_outcomes 3 attempts r gets naps ltac:(lia) Hrun)
    as (Hiff & Hg & Hr & Hs & Hv).
  cbn [pred] in Hr, Hs.
  split; [rewrite Hiff; tauto|].
  split; [exact Hg|].
  split; [lia|].
  split; [lia|].
  split; [exact Hv|].
  split; [intros [H | H]; discriminate H|].
  split; [|split; [exact Hclose | exact Htotal]].
  intros b m. rewrite Hwait. unfold visit_live_room. cbn [negb].
  by rewrite Hrun.
Qed.

Lemma visit_live_room_outcomes_witness :
  (Visited = Visited <->
   true = true /\ true = true
   /\ existsb attempt_succeeds (take 3 visit_third_time) = true)
  /\ (3 <= 3)%nat
  /\ 0 <= retry_delays
            [NapWindow; NapWindow; NapRetry; NapLoaded; NapRetry;
             NapModal; NapModalClosed;
             NapScroll; NapScroll; NapScroll; NapScroll] <= 2
  /\ 0 <= slept
            [NapWindow; NapWindow; NapRetry; NapLoaded; NapRetry;
             NapModal; NapModalClosed;
             NapScroll; NapScroll; NapScroll; NapScroll] <= 34000.
Proof.
  destruct (visit_live_room_outcomes true true visit_third_time Visited 3
              [NapWindow; NapWindow; NapRetry; NapLoaded; NapRetry;
               NapModal; NapModalClosed;
               NapScroll; NapScroll; NapScroll; NapScroll]
              eq_refl) as (H1 & H2 & H3 & H4 & _).
  exact (conj H1 (conj H2 (conj H3 H4))).
Defined.

End BrowserFacts.

(* ===================================================================== *)
(** * config.py: container detection and the derived address *)
(* ===================================================================== *)

Module ConfigFacts.

Import Parser Config.

Lemma starts_with_spec (needle hay : list Z) :
  starts_with needle hay = true <-> exists post, hay = needle ++ post.
Proof.
  revert hay; induction needle as [|a needle IH]; intros hay.
  - cbn. split; [intros _; by exists hay | done].
  - destruct hay as [|b hay]; cbn.
    + split; [done | intros [post Hpost]; discriminate].
    + rewrite andb_true_iff, Z.eqb_eq, IH. split.
      * intros [-> [post ->]]. by exists post.
      * intros [post Hpost]. injection Hpost as -> ->. eauto.
Qed.

(** [includes] is the substring test of [in] and of
    [String.prototype.includes]. *)
Lemma includes_spec (hay needle : list Z) :
  includes hay needle = true <->
  exists pre post, hay = pre ++ needle ++ post.
Proof.
  induction hay as [|c hay IH].
  - cbn. rewrite orb_false_r, starts_with_spec. split.
    + intros [post Hpost]. by exists [], post.
    + intros (pre & post & H). symmetry in H.
      apply app_eq_nil in H as [-> H]. apply app_eq_nil in H as [-> ->].
      by exists [].
  - cbn [includes]. rewrite orb_true_iff, starts_with_spec, IH. split.
    + intros [[post Hpost] | (pre & post & ->)].
      * by exists [], post.
      * by exists (c :: pre), post.
    + intros (pre & post & H). destruct pre as [|c' pre].
      * left. by exists post.
      * right. injection H as -> ->. by exists pre, post.
Qed.

Lemma env_set_spec (v : option pystr) :
  env_set v = true <-> exists c cs, v = Some (c :: cs).
Proof.
  destruct v as [[|c cs]|]; cbn; split; try done; eauto;
    intros (c' & cs' & H); discriminate.
Qed.

(** X12.  [is_running_in_docker] asks three questions in order and stops at
    the first that answers.  With [/.dockerenv] present the answer is yes.
    Without it, a readable [/proc/1/cgroup] decides alone: the answer is
    whether its text contains "docker", and the environment variables are
    not consulted, also when they are set.  Only when the file cannot be
    read does the answer become whether [DOCKER_CONTAINER] or [USE_XVFB]
    holds a non-empty value. *)
Theorem docker_detection_order (docker_container use_xvfb : option pystr) :
  (forall cgroup,
     is_running_in_docker true cgroup docker_container use_xvfb = true) /\
  (forall text,
     (is_running_in_docker false (Returns text) docker_container use_xvfb
        = true <->
      exists pre post, text = pre ++ units "docker" ++ post) /\
     is_running_in_docker false (Returns text) docker_container use_xvfb
       = is_running_in_docker false (Returns text) None None) /\
  (forall e,
     is_running_in_docker false (Raises e) docker_container use_xvfb
       = true <->
     (exists c cs, docker_container = Some (c :: cs)) \/
     (exists c cs, use_xvfb = Some (c :: cs))).
Proof.
  split_and!.
  - done.
  - intros text. split; [|done].
    unfold is_running_in_docker. apply includes_spec.
  - intros e. unfold is_running_in_docker.
    rewrite <- !env_set_spec.
    destruct (env_set docker_container), (env_set use_xvfb); cbn;
      intuition discriminate.
Qed.

Lemma live_url_of_inj (u v : pystr) :
  live_url_of u = live_url_of v -> u = v.
Proof.
  unfold live_url_of. intros H.
  apply app_inv_head in H. by apply app_inv_tail in H.
Qed.

(** X13.  A configuration as constructed always carries a non-empty
    address.  An address given and not empty is kept; a missing or empty
    one is replaced by [https://www.tiktok.com/@<username>/live], and two
    user names never derive the same address.  No other field is touched,
    and running [__post_init__] again changes nothing. *)
Theorem post_init_live_url (self : MonitorConfig) :
  let cfg := __post_init__ self in
  (exists c cs, live_url cfg = Some (c :: cs)) /\
  (forall c cs, live_url self = Some (c :: cs) -> cfg = self) /\
  (live_url self = None \/ live_url self = Some [] ->
   live_url cfg = Some (live_url_of (username self))) /\
  (forall other : MonitorConfig,
     (live_url self = None \/ live_url self = Some []) ->
     (live_url other = None \/ live_url other = Some []) ->
     live_url (__post_init__ other) = live_url cfg ->
     username other = username self) /\
  (username cfg, window_size cfg, headless cfg, chrome_binary_path cfg,
   chromedriver_path cfg, in_docker cfg, monitor_duration cfg,
   collect_interval cfg, page_load_timeout cfg, implicit_wait cfg)
  = (username self, window_size self, headless self,
     chrome_binary_path self, chromedriver_path self, in_docker self,
     monitor_duration self, collect_interval self, page_load_timeout self,
     implicit_wait self) /\
  __post_init__ cfg = cfg.
Proof.
  assert (Hderived : forall s : MonitorConfig,
            live_url s = None \/ live_url s = Some [] ->
            live_url (__post_init__ s) = Some (live_url_of (username s))).
  { intros s [H | H]; unfold __post_init__; by rewrite H. }
  cbn zeta. split_and!.
  - unfold __post_init__. destruct (live_url self) as [[|c cs]|] eqn:E.
    + cbn. unfold live_url_of. cbn. eauto.
    + rewrite E. eauto.
    + cbn. unfold live_url_of. cbn. eauto.
  - intros c cs H. unfold __post_init__. by rewrite H.
  - apply Hderived.
  - intros other Hs Ho. rewrite (Hderived _ Hs), (Hderived _ Ho).
    intros H. apply live_url_of_inj. congruence.
  - unfold __post_init__. by destruct (live_url self) as [[|c cs]|].
  - destruct (live_url self) as [[|c cs]|] eqn:E;
      unfold __post_init__; rewrite ?E; cbn; rewrite ?E; reflexivity.
Qed.

End ConfigFacts.

(* ===================================================================== *)
(** * captcha_handler.py: the click route and the handler's state *)
(* ===================================================================== *)

Module CaptchaRoutesFacts.

Import Models Parser CaptchaRoutes HandlerCalls.

Lemma handle_click_state data script self :
  snd (handle_click data script self) =
  if accepted data script
  then {| captcha_image_base64 := captcha_image_base64 self;
          captcha_solved := true |}
  else self.
Proof.
  unfold handle_click, accepted, has_coordinates.
  destruct data as [| b | q | s | xs | kvs]; cbn [truthy contains item negb].
  - done.
  - by destruct b.
  - by destruct (Qeq_bool q 0).
  - destruct s; [done|]. cbn [negb andb].
    destruct (includes _ _); [|done]. by destruct (includes _ _).
  - destruct xs; [done|]. cbn [negb andb].
    destruct (existsb _ _); [|done]. by destruct (existsb _ _).
  - destruct kvs as [|kv kvs]; [done|]. cbn [negb].
    destruct (LiveRoom.assoc (units "x") (kv :: kvs)),
             (LiveRoom.assoc (units "y") (kv :: kvs)); try done.
    by destruct script.
Qed.

(** Every request body is of one kind and one only. *)
Lemma body_kinds (data : Json) :
  (has_coordinates data = true /\ lacks_coordinates data = false
   /\ breaks_route data = false)
  \/ (has_coordinates data = false /\ lacks_coordinates data = true
      /\ breaks_route data = false)
  \/ (has_coordinates data = false /\ lacks_coordinates data = false
      /\ breaks_route data = true).
Proof.
  destruct data as [| b | q | s | xs | kvs];
    cbn [has_coordinates lacks_coordinates breaks_route].
  - auto.
  - destruct b; auto.
  - destruct (Qeq_bool q 0); auto.
  - destruct (includes s (units "x")), (includes s (units "y")); auto.
  - destruct (holds "x" xs), (holds "y" xs); auto.
  - destruct (LiveRoom.assoc (units "x") kvs); [|auto].
    destruct (LiveRoom.assoc (units "y") kvs); auto.
Qed.

Lemma handle_click_answer_exact data script self :
  match fst (handle_click data script self) with
  | Reply code _ =>
      (code = 200 /\ has_coordinates data = true /\
       exists r, script = Returns r) \/
      (code = 400 /\ lacks_coordinates data = true) \/
      (code = 500 /\ has_coordinates data = true /\
       exists e, script = Raises e)
  | Unhandled => breaks_route data = true
  end.
Proof.
  unfold handle_click, lacks_coordinates, breaks_route, has_coordinates,
    holds.
  destruct data as [| b | q | s | xs | kvs]; cbn [truthy contains item negb].
  - cbn. auto.
  - destruct b; cbn; auto.
  - destruct (Qeq_bool q 0); cbn; auto.
  - destruct s as [|c s]; [cbn; auto|]. cbn [negb andb].
    destruct (includes (c :: s) (units "x")); [|cbn; auto].
    destruct (includes (c :: s) (units "y")); cbn; auto.
  - destruct xs as [|x xs]; [cbn; auto|]. cbn [negb andb].
    destruct (existsb (is_str (units "x")) (x :: xs)); [|cbn; auto].
    destruct (existsb (is_str (units "y")) (x :: xs)); cbn; auto.
  - destruct kvs as [|kv kvs]; [cbn; auto|]. cbn [negb].
    destruct (LiveRoom.assoc (units "x") (kv :: kvs)),
             (LiveRoom.assoc (units "y") (kv :: kvs)); cbn; auto.
    destruct script; cbn; eauto 10.
Qed.

Local Ltac route_case :=
  split_and!;
  repeat match goal with
  | |- _ <-> _ => split
  | |- forall _, _ => intro
  | H : exists _, _ |- _ => destruct H
  | H : _ /\ _ |- _ => destruct H
  | H : _ \/ _ |- _ => destruct H
  | H : Reply _ _ = Reply _ _ |- _ => injection H as <- <-
  end;
  subst; try congruence; try (split; [congruence | eauto]); eauto.

(** X14.  What the click route answers, by the request body and the
    driver.  It answers 200 exactly when the body is an object holding [x]
    and [y] and the driver ran the click script, whatever the script
    returned (also [false], no element at the point); then, and only then,
    the handler is marked solved.  It answers 400 exactly when the body
    lacks the coordinates: a falsy body ([null], [false], [0], an empty
    string, list or object) or a string, list or object in which ["x"] or
    ["y"] is not found.  It answers 500 exactly when the object holds both
    and the driver fails.  It is left by an exception exactly when the body
    is [true], a number other than 0, or a string or list in which both
    ["x"] and ["y"] are found.  Whenever the answer is not 200 the handler
    is unchanged, and the stored image is never touched. *)
Theorem handle_click_outcomes (data : Json) (script : py Json)
    (self : Handler) :
  let answer := fst (handle_click data script self) in
  let self' := snd (handle_click data script self) in
  captcha_image_base64 self' = captcha_image_base64 self /\
  ((exists body, answer = Reply 200 body) <->
     has_coordinates data = true /\ exists r, script = Returns r) /\
  ((exists body, answer = Reply 400 body) <->
     lacks_coordinates data = true) /\
  ((exists body, answer = Reply 500 body) <->
     has_coordinates data = true /\ exists e, script = Raises e) /\
  (answer = Unhandled <-> breaks_route data = true) /\
  (forall code body, answer = Reply code body ->
     code = 200 \/ code = 400 \/ code = 500) /\
  ((exists body, answer = Reply 200 body) -> captcha_solved self' = true) /\
  ((exists body, answer = Reply 200 body) \/ self' = self).
Proof.
  cbn zeta.
  pose proof (handle_click_state data script self) as Hst.
  pose proof (handle_click_answer_exact data script self) as Hans.
  pose proof (body_kinds data) as Hkind.
  rewrite Hst. clear Hst. unfold accepted in *.
  destruct (fst (handle_click data script self)) as [code body|];
    destruct script as [r|e], (has_coordinates data),
      (lacks_coordinates data), (breaks_route data);
    cbn [andb] in *; route_case.
Qed.

(** Bodies of each kind. *)
Example handle_click_bodies (script : py Json) (self : Handler) :
  Forall (fun data =>
            fst (handle_click data script self)
              = Reply 400 [("error", JStr msg_missing_coordinates)]%string)
         [JNull; JArr []; JStr (units "abc"); JObj [(units "x", JNum 1)]]
  /\ Forall (fun data => fst (handle_click data script self) = Unhandled)
       [JBool true; JNum 5; JStr (units "xy");
        JArr [JStr (units "x"); JStr (units "y")]].
Proof. split; repeat constructor. Qed.

Lemma serve_all_snoc calls c self :
  serve_all (calls ++ [c]) self = serve c (serve_all calls self).
Proof. unfold serve_all. by rewrite fold_left_app. Qed.

Lemma snoc_split {A} (l pre post : list A) (c x : A) :
  l ++ [c] = pre ++ x :: post ->
  (post = [] /\ x = c /\ l = pre) \/
  (exists post', post = post' ++ [c] /\ l = pre ++ x :: post').
Proof.
  intros H. destruct post as [|y post' _] using rev_ind.
  - left. apply app_inj_tail in H as [-> ->]. done.
  - right. exists post'.
    change (pre ++ x :: post' ++ [y]) with (pre ++ (x :: post') ++ [y]) in H.
    rewrite app_assoc in H. apply app_inj_tail in H as [-> ->]. done.
Qed.

Lemma solved_after_calls (calls : list HandlerCall) :
  captcha_solved (serve_all calls __init__) = true <->
  exists pre data script post,
    calls = pre ++ CallClick data script :: post /\
    accepted data script = true /\ CallReset ∉ post.
Proof.
  induction calls as [|c calls IH] using rev_ind.
  - cbn. split; [done|]. intros (pre & d & s & post & H & _).
    by destruct pre.
  - rewrite serve_all_snoc.
    assert (Hkeep :
      captcha_solved (serve c (serve_all calls __init__))
        = captcha_solved (serve_all calls __init__) ->
      c <> CallReset ->
      (forall d s, c = CallClick d s -> accepted d s = false) ->
      captcha_solved (serve c (serve_all calls __init__)) = true <->
      exists pre data script post,
        calls ++ [c] = pre ++ CallClick data script :: post /\
        accepted data script = true /\ CallReset ∉ post).
    { intros -> Hc Hclick. rewrite IH. split.
      - intros (pre & d & s & post & -> & Ha & Hno).
        exists pre, d, s, (post ++ [c]). split_and!; [|done|].
        + by rewrite <- app_assoc.
        + intros [?| H%list_elem_of_singleton]%elem_of_app; [done|].
          by apply Hc.
      - intros (pre & d & s & post & H & Ha & Hno).
        apply snoc_split in H as [(-> & <- & _) | (post' & -> & ->)].
        + rewrite (Hclick d s) in Ha; done.
        + exists pre, d, s, post'. split_and!; [done|done|].
          intros Hin. apply Hno, elem_of_app. by left. }
    destruct c as [|shot|data script].
    + cbn. split; [done|].
      intros (pre & d & s & post & H & _ & Hno).
      apply snoc_split in H as [(-> & Heq & _) | (post' & -> & _)];
        [discriminate|].
      exfalso. apply Hno, elem_of_app. right. by apply list_elem_of_singleton.
    + apply Hkeep; [by destruct shot | done | discriminate].
    + destruct (accepted data script) eqn:Ha.
      * cbn [serve]. rewrite handle_click_state, Ha.
        cbn. split; [|done]. intros _.
        exists calls, data, script, []. split_and!; [done|done|].
        by intros ?%elem_of_nil.
      * apply Hkeep; [|done|].
        -- cbn [serve]. by rewrite handle_click_state, Ha.
        -- intros d s' H. by injection H as <- <-.
Qed.

Lemma image_after_calls (calls : list HandlerCall) (img : pystr) :
  captcha_image_base64 (serve_all calls __init__) = Some img <->
  exists pre b64 post,
    calls = pre ++ CallCapture (Returns b64) :: post /\
    img = image_prefix ++ b64 /\
    (CallReset ∉ post) /\ (forall b, CallCapture (Returns b) ∉ post).
Proof.
  induction calls as [|c calls IH] using rev_ind.
  - cbn. split; [done|]. intros (pre & b & post & H & _).
    by destruct pre.
  - rewrite serve_all_snoc.
    assert (Hkeep :
      captcha_image_base64 (serve c (serve_all calls __init__))
        = captcha_image_base64 (serve_all calls __init__) ->
      c <> CallReset -> (forall b, c <> CallCapture (Returns b)) ->
      captcha_image_base64 (serve c (serve_all calls __init__)) = Some img <->
      exists pre b64 post,
        calls ++ [c] = pre ++ CallCapture (Returns b64) :: post /\
        img = image_prefix ++ b64 /\
        (CallReset ∉ post) /\ (forall b, CallCapture (Returns b) ∉ post)).
    { intros -> Hc Hcap. rewrite IH. split.
      - intros (pre & b64 & post & -> & Hi & Hno & Hnc).
        exists pre, b64, (post ++ [c]). split_and!; [|done| |].
        + by rewrite <- app_assoc.
        + intros [?| H%list_elem_of_singleton]%elem_of_app; [done|].
          by apply Hc.
        + intros b [?| H%list_elem_of_singleton]%elem_of_app.
          * by apply (Hnc b).
          * by apply (Hcap b).
      - intros (pre & b64 & post & H & Hi & Hno & Hnc).
        apply snoc_split in H as [(-> & <- & _) | (post' & -> & ->)].
        + by destruct (Hcap b64).
        + exists pre, b64, post'. split_and!; [done|done| |].
          * intros Hin. apply Hno, elem_of_app. by left.
          * intros b Hin. apply (Hnc b), elem_of_app. by left. }
    destruct c as [|[b|e]|data script].
    + cbn. split; [done|].
      intros (pre & b64 & post & H & _ & Hno & _).
      apply snoc_split in H as [(-> & Heq & _) | (post' & -> & _)];
        [discriminate|].
      exfalso. apply Hno, elem_of_app. right. by apply list_elem_of_singleton.
    + cbn [serve capture_captcha_image snd captcha_image_base64]. split.
      * intros H. injection H as <-.
        exists calls, b, []. split_and!; [done|done| |].
        -- by intros ?%elem_of_nil.
        -- by intros b' ?%elem_of_nil.
      * intros (pre & b64 & post & H & -> & _ & Hnc).
        apply snoc_split in H as [(-> & Heq & _) | (post' & -> & _)].
        -- by injection Heq as ->.
        -- exfalso. apply (Hnc b), elem_of_app. right.
           by apply list_elem_of_singleton.
    + apply Hkeep; [done | done | discriminate].
    + apply Hkeep; [|done|discriminate].
      cbn [serve]. rewrite handle_click_state.
      by destruct (accepted data script).
Qed.

(** X15.  The state of a handler after any calls, from its construction
    on.  It is marked solved exactly when an accepted click was served
    after the last [reset]: a click that came before the reset is
    forgotten.  It holds an image exactly when a capture succeeded after
    the last [reset], and the image is the data URL of the last such
    capture: a failed capture leaves the earlier image in place, and
    clicks never change it.  The image is never the empty string, so the
    image route answers 404 exactly when the status route reports
    [has_image] false. *)
Theorem handler_state_after_calls (calls : list HandlerCall) :
  let self := serve_all calls __init__ in
  (captcha_solved self = true <->
   exists pre data script post,
     calls = pre ++ CallClick data script :: post /\
     accepted data script = true /\ CallReset ∉ post) /\
  (forall img,
     captcha_image_base64 self = Some img <->
     exists pre b64 post,
       calls = pre ++ CallCapture (Returns b64) :: post /\
       img = image_prefix ++ b64 /\
       (CallReset ∉ post) /\ (forall b, CallCapture (Returns b) ∉ post)) /\
  (forall now,
     (exists body, get_captcha now self = Reply 404 body) <->
     get_status self =
       Reply 200 [("solved", JBool (captcha_solved self));
                  ("has_image", JBool false)]%string) /\
  (forall now img,
     captcha_image_base64 self = Some img ->
     get_captcha now self =
       Reply 200 [("success", JBool true); ("image", JStr img);
                  ("timestamp", JNum now)]%string).
Proof.
  cbn zeta. split_and!.
  - apply solved_after_calls.
  - apply image_after_calls.
  - intros now. unfold get_captcha, get_status.
    destruct (captcha_image_base64 (serve_all calls __init__))
      as [img|] eqn:E.
    + apply image_after_calls in E as (pre & b64 & post & _ & -> & _).
      cbn. split; [intros [body H]; discriminate | discriminate].
    + split; [done | eauto].
  - intros now img E. unfold get_captcha. rewrite E.
    apply image_after_calls in E as (pre & b64 & post & _ & -> & _).
    done.
Qed.


End CaptchaRoutesFacts.

(* ===================================================================== *)
(** * parser.py: the embedded data and the snapshot *)
(* ===================================================================== *)

Module PageParserFacts.

Import Models Parser Collector PageParser Samples.

Lemma initial_data_script_skips (pre rest : list ScriptTag) :
  (forall t, t ∈ pre -> script_id t <> rehydration_id) ->
  initial_data_script (pre ++ rest) = initial_data_script rest.
Proof.
  induction pre as [|t pre IH]; intros Hpre; [done|].
  cbn [app initial_data_script].
  destruct (decide (script_id t = rehydration_id)) as [Hid|_].
  - destruct (Hpre t); [apply elem_of_cons; by left | done].
  - apply IH. intros t' Hin. apply Hpre, elem_of_cons. by right.
Qed.

(** X16.  In [parse_initial_data] the first [script] element whose [id] is
    [__UNIVERSAL_DATA_FOR_REHYDRATION__] decides alone.  The elements
    before it are passed over and those after it are never looked at: when
    its text does not parse, or parses to [null], the answer is [None]
    even if a later element with the same [id] holds valid data;
    otherwise the answer is its parsed value. *)
Theorem parse_initial_data_first_tag (pre post : list ScriptTag)
    (tag : ScriptTag) :
  (forall t, t ∈ pre -> script_id t <> rehydration_id) ->
  script_id tag = rehydration_id ->
  parse_initial_data (Returns (pre ++ tag :: post)) =
    match parsed tag with
    | None | Some JNull => None
    | Some data => Some data
    end
  /\ parse_initial_data (Returns (pre ++ tag :: post)) =
       parse_initial_data (Returns [tag]).
Proof.
  intros Hpre Hid. unfold parse_initial_data.
  rewrite initial_data_script_skips by done.
  cbn [initial_data_script].
  destruct (decide (script_id tag = rehydration_id)) as [_|Hn]; [|done].
  by destruct (parsed tag) as [[]|].
Qed.

Lemma parse_initial_data_first_tag_witness :
  parse_initial_data
    (Returns ([mkScriptTag (units "SIGI_STATE") (Some (JBool true))] ++
              mkScriptTag rehydration_id None ::
              [mkScriptTag rehydration_id (Some (JObj []))])) = None
  /\ parse_initial_data
       (Returns ([mkScriptTag (units "SIGI_STATE") (Some (JBool true))] ++
                 mkScriptTag rehydration_id None ::
                 [mkScriptTag rehydration_id (Some (JObj []))])) =
     parse_initial_data (Returns [mkScriptTag rehydration_id None]).
Proof.
  apply (parse_initial_data_first_tag
           [mkScriptTag (units "SIGI_STATE") (Some (JBool true))]
           [mkScriptTag rehydration_id (Some (JObj []))]
           (mkScriptTag rehydration_id None)).
  - intros t Ht. apply list_elem_of_singleton in Ht. subst t.
    cbn. discriminate.
  - reflexivity.
Defined.

Section Snapshot.

Variable toLowerCase : jsstr -> jsstr.
Variable parseInt : jsstr -> Z.
Variable to_py : jsstr -> pystr.

Abbreviation create_snapshot :=
  (create_snapshot toLowerCase parseInt to_py).

Lemma parse_page_status_Raises (b : Browser) :
  (exists e, parse_page_status toLowerCase parseInt b = Raises e) <->
  b = Unreachable \/
  exists p, b = Reachable p /\
    ((exists e, location_href p = Throw e) \/
     (exists e, document_title p = Throw e)).
Proof.
  unfold parse_page_status, execute_script.
  destruct b as [p|].
  - destruct (script toLowerCase parseInt p) as [st|e] eqn:E.
    + split; [intros [e He]; discriminate|].
      intros [H | (p' & Hp & Hfault)]; [discriminate|].
      injection Hp as <-.
      apply (script_Throw toLowerCase parseInt) in Hfault as [e He].
      congruence.
    + split; [|eauto]. intros _. right. exists p. split; [done|].
      apply (script_Throw toLowerCase parseInt). eauto.
  - split; eauto.
Qed.

(** X17.  [create_snapshot] raises nothing but [ParserError], and raises
    exactly when the inspection script cannot run or cannot read the
    address or the title of the page, or when the page source cannot be
    read.  A failure of the embedded-data script is not among the causes:
    the snapshot is then the one of a page without embedded data.  A
    snapshot returned carries the time stamp handed in, the length of the
    page source and the answer of [parse_initial_data]. *)
Theorem create_snapshot_outcomes (b : Browser)
    (scripts : py (list ScriptTag)) (page_source : py pystr) (now : pystr) :
  let result := create_snapshot b scripts page_source now in
  (forall e, result = Raises e -> e = ParserError) /\
  ((exists e, result = Raises e) <->
   b = Unreachable \/
   (exists p, b = Reachable p /\
      ((exists e, location_href p = Throw e) \/
       (exists e, document_title p = Throw e))) \/
   (exists e, page_source = Raises e)) /\
  (forall e,
     create_snapshot b (Raises e) page_source now =
     create_snapshot b (Returns []) page_source now) /\
  (forall s, result = Returns s ->
     timestamp s = now /\
     initial_data s = parse_initial_data scripts /\
     exists html_content,
       page_source = Returns html_content /\
       html_size s = Z.of_nat (length html_content)).
Proof.
  cbn zeta. pose proof (parse_page_status_Raises b) as Hstatus.
  unfold PageParser.create_snapshot.
  destruct (parse_page_status toLowerCase parseInt b) as [st|e0].
  - assert (Hok : ~ (b = Unreachable \/
               exists p, b = Reachable p /\
                 ((exists e, location_href p = Throw e) \/
                  (exists e, document_title p = Throw e)))).
    { intros H. apply Hstatus in H as [e He]. discriminate. }
    destruct page_source as [html|e1]; split_and!.
    + discriminate.
    + split; [intros [e He]; discriminate|].
      intros [H | [H | [e He]]]; [| |discriminate];
        destruct Hok; auto.
    + done.
    + intros s [= <-]. cbn. eauto.
    + by intros e [= <-].
    + split; eauto.
    + done.
    + discriminate.
  - assert (Hbad : b = Unreachable \/
               exists p, b = Reachable p /\
                 ((exists e, location_href p = Throw e) \/
                  (exists e, document_title p = Throw e))).
    { apply Hstatus. eauto. }
    split_and!.
    + by intros e [= <-].
    + split; [|eauto]. intros _. destruct Hbad; auto.
    + done.
    + discriminate.
Qed.

(** X18.  A fault in an unguarded signal of the inspection script, on a
    page whose address and title can be read, does not stop the
    collection cycle.  [create_snapshot] returns a snapshot whose signals
    are all at their defaults, whatever the page shows: no page error, no
    captcha, not ended, not healthy.  [collect_once] therefore neither
    refreshes nor waits for a captcha: it records the snapshot, counts it
    as an error, prints its summary, leaves the retry counter at zero and
    answers [False]. *)
Theorem faulted_inspection_is_recorded (p : Page) (error u t : jsstr)
    (scripts : py (list ScriptTag)) (html_content now : pystr)
    (refresh_ok : bool) (env : CaptchaEnv)
    (self : LiveCollector) (sess : MonitorSession) :
  main_record toLowerCase parseInt p = Throw error ->
  location_href p = Normal u ->
  document_title p = Normal t ->
  session self = Some sess ->
  exists (snap : PageSnapshot) (self' : LiveCollector),
    create_snapshot (Reachable p) scripts (Returns html_content) now
      = Returns snap /\
    (url snap, title snap) = (to_py u, to_py t) /\
    (has_video snap, has_error_message snap, has_live_content snap,
     is_live_ended snap, has_captcha snap, has_page_error snap)
      = (false, false, false, false, false, false) /\
    (element_count snap, video_count snap, viewer_count snap)
      = (0, 0, None) /\
    body_text_preview snap = to_py [] /\
    is_healthy snap = false /\
    collect_once
      [{| snapshot_result :=
            create_snapshot (Reachable p) scripts (Returns html_content) now;
          refresh_ok := refresh_ok; captcha_env := env |}] self
      = Some (Returns false, self') /\
    session self' = Some (add_snapshot sess snap) /\
    error_snapshots (add_snapshot sess snap) = error_snapshots sess + 1 /\
    healthy_snapshots (add_snapshot sess snap) = healthy_snapshots sess /\
    live_has_ended self' = live_has_ended self /\
    page_error_retry_count self' = 0 /\
    actions self' = actions self ++ [PrintSummary snap].
Proof.
  intros Hmain Hurl Htitle Hsess.
  unfold PageParser.create_snapshot, parse_page_status, execute_script,
    script.
  rewrite Hmain. unfold fallback_record, or_empty. rewrite Hurl, Htitle.
  cbn [mbind completion_bind].
  set (snap := mkPageSnapshot _ _ _ _ _ _ _ _ _ _ _ _ _ _ _).
  destruct (body_records self
              {| snapshot_result := Returns snap; refresh_ok := refresh_ok;
                 captcha_env := env |} snap sess)
    as (self' & Hbody & Hs' & Hended & Hcount & Hacts); try done.
  exists snap, self'.
  destruct (add_snapshot_step sess snap) as (_ & _ & Hh & He).
  change (is_healthy snap) with false in *.
  change (is_live_ended snap) with false in *.
  split_and!; try done.
  cbn [collect_once]. by rewrite Hbody.
Qed.

End Snapshot.

Lemma faulted_inspection_is_recorded_witness :
  exists (snap : PageSnapshot) (self' : LiveCollector),
    PageParser.create_snapshot ascii_lower decimal id
      (Reachable page_video_fault) (Raises WebDriverException)
      (Returns (units "<html></html>")) (units "2024-01-01T00:00:00")
      = Returns snap /\
    (url snap, title snap) =
      (units "https://www.tiktok.com/@user/live", units "LIVE") /\
    (has_video snap, has_error_message snap, has_live_content snap,
     is_live_ended snap, has_captcha snap, has_page_error snap)
      = (false, false, false, false, false, false) /\
    (element_count snap, video_count snap, viewer_count snap)
      = (0, 0, None) /\
    body_text_preview snap = [] /\
    is_healthy snap = false /\
    collect_once
      [{| snapshot_result :=
            PageParser.create_snapshot ascii_lower decimal id
              (Reachable page_video_fault) (Raises WebDriverException)
              (Returns (units "<html></html>"))
              (units "2024-01-01T00:00:00");
          refresh_ok := true; captcha_env := captcha_env_of [] |}]
      collector0
      = Some (Returns false, self') /\
    session self' = Some (add_snapshot (new_session [] [] []) snap) /\
    error_snapshots (add_snapshot (new_session [] [] []) snap) = 0 + 1 /\
    healthy_snapshots (add_snapshot (new_session [] [] []) snap) = 0 /\
    live_has_ended self' = false /\
    page_error_retry_count self' = 0 /\
    actions self' = [] ++ [PrintSummary snap].
Proof.
  apply (faulted_inspection_is_recorded ascii_lower decimal id
           page_video_fault (units "Error: video")
           (units "https://www.tiktok.com/@user/live") (units "LIVE")
           (Raises WebDriverException) (units "<html></html>")
           (units "2024-01-01T00:00:00") true (captcha_env_of [])
           collector0 (new_session [] [] [])).
  - vm_compute. reflexivity.
  - reflexivity.
  - reflexivity.
  - reflexivity.
Defined.

End PageParserFacts.

(* ===================================================================== *)
(** * formatter.py and the summaries the collector prints *)
(* ===================================================================== *)

Module FormatterFacts.

Import Models Parser Captcha Collector Formatter Samples Printed.

Lemma summaries_app (a b : list Action) :
  summaries (a ++ b) = summaries a ++ summaries b.
Proof. apply omap_app. Qed.

Lemma handle_captcha_prints_nothing (timeout : Z) (env : CaptchaEnv)
    (self self' : LiveCollector) (b : bool) :
  _handle_captcha timeout env self = Some (b, self') ->
  summaries (actions self') = summaries (actions self).
Proof.
  unfold _handle_captcha.
  repeat match goal with
  | |- context [if ?c then _ else _] => destruct c
  | |- context [match wait_for_solution ?t ?p with _ => _ end] =>
      destruct (wait_for_solution t p) as [[|]|]
  end;
  intros H; try discriminate H; injection H as <- <-;
  cbn [actions does set_captcha_handler];
  rewrite ?summaries_app; cbn; by rewrite ?app_nil_r.
Qed.

Local Ltac nothing_new :=
  exists []; cbn [state_of actions does set_page_error_retry_count session];
  rewrite ?summaries_app; cbn [summaries omap]; rewrite ?app_nil_r;
  split_and!; [done | done | constructor | cbn; lia | done].

Lemma body_prints_what_it_records (c : Cycle) (self : LiveCollector)
    (out : Outcome) :
  collect_once_body c self = Some out ->
  exists new : list PageSnapshot,
    summaries (actions (state_of out)) = summaries (actions self) ++ new
    /\ MoreSamples.recorded (state_of out) = MoreSamples.recorded self ++ new
    /\ Forall clean new
    /\ (length new <= 1)%nat
    /\ (forall self0, out = Again self0 -> new = []).
Proof.
  unfold collect_once_body, MoreSamples.recorded.
  destruct (snapshot_result c) as [s|e].
  2:{ intros [= <-]. nothing_new. }
  destruct (has_page_error s) eqn:Hpe.
  - destruct (_ <? _).
    + destruct (negb (refresh_ok c)).
      * intros [= <-]. nothing_new.
      * cbn [hooks does set_page_error_retry_count].
        destruct (hooks self); intros [= <-]; nothing_new.
    + intros [= <-]. nothing_new.
  - cbn [negb]. destruct (has_captcha s) eqn:Hc.
    + destruct (_handle_captcha _ _ _) as [[b self']|] eqn:Hh;
        [|discriminate].
      pose proof (handle_captcha_prints_nothing _ _ _ _ _ Hh) as Hsum.
      apply handle_captcha_untouched in Hh as ((Hsess & _) & _).
      cbn in Hsum, Hsess.
      destruct b; intros [= <-]; exists []; cbn [state_of];
        rewrite Hsum, Hsess, !app_nil_r;
        (split_and!; [done | done | constructor | cbn; lia | done]).
    + cbn [session set_page_error_retry_count].
      destruct (session self) as [sess|] eqn:Hsess.
      * destruct (add_snapshot_step sess s) as (Hsnap & _).
        destruct (is_live_ended s); intros [= <-]; exists [s];
          cbn [state_of actions does set_session set_live_has_ended
               set_page_error_retry_count session];
          rewrite summaries_app, Hsnap;
          (split_and!;
           [done | done | by repeat constructor | cbn; lia | discriminate]).
      * intros [= <-]. exists []. cbn [state_of actions session
          set_page_error_retry_count]. rewrite Hsess, !app_nil_r.
        split_and!; [done | done | constructor | cbn; lia | done].
Qed.

Lemma collect_once_prints_what_it_records (cycles : list Cycle) :
  forall (self self' : LiveCollector) (r : py bool),
    collect_once cycles self = Some (r, self') ->
    exists new : list PageSnapshot,
      summaries (actions self') = summaries (actions self) ++ new
      /\ MoreSamples.recorded self' = MoreSamples.recorded self ++ new
      /\ Forall clean new /\ (length new <= 1)%nat.
Proof.
  induction cycles as [|c rest IH]; intros self self' r Hrun;
    [discriminate Hrun|].
  cbn [collect_once] in Hrun.
  destruct (collect_once_body c self) as [out|] eqn:Hbody;
    [|discriminate Hrun].
  destruct (body_prints_what_it_records _ _ _ Hbody)
    as (new & Hsum & Hrec & Hclean & Hlen & Hagain).
  destruct out as [r0 self0|self0]; cbn [state_of] in *.
  - injection Hrun as <- <-. by exists new.
  - rewrite (Hagain self0 eq_refl), !app_nil_r in Hsum, Hrec.
    rewrite <- Hsum, <- Hrec. exact (IH self0 self' r Hrun).
Qed.

Lemma collect_calls_print_what_they_record (calls : list (list Cycle)) :
  forall (self self' : LiveCollector) (rs : list (py bool)),
    collect_calls calls self = Some (rs, self') ->
    exists new : list PageSnapshot,
      summaries (actions self') = summaries (actions self) ++ new
      /\ MoreSamples.recorded self' = MoreSamples.recorded self ++ new
      /\ Forall clean new /\ (length new <= length calls)%nat
      /\ (is_Some (session self) -> is_Some (session self')).
Proof.
  induction calls as [|cycles more IH]; intros self self' rs Hrun.
  - injection Hrun as <- <-. exists []. rewrite !app_nil_r. cbn. auto.
  - cbn [collect_calls] in Hrun.
    destruct (collect_once cycles self) as [[r self1]|] eqn:Hone;
      [|discriminate Hrun].
    destruct (collect_calls more self1) as [[rs' self2]|] eqn:Hmore;
      [|discriminate Hrun].
    injection Hrun as <- <-.
    destruct (collect_once_prints_what_it_records _ _ _ _ Hone)
      as (n1 & Hs1 & Hr1 & Hc1 & Hl1).
    destruct (IH _ _ _ Hmore) as (n2 & Hs2 & Hr2 & Hc2 & Hl2 & Hsome).
    exists (n1 ++ n2). rewrite Hs2, Hs1, Hr2, Hr1, <- !app_assoc.
    split_and!; try done.
    + by apply Forall_app.
    + rewrite length_app. cbn. lia.
    + intros Hself. apply Hsome.
      destruct (collect_once_records _ _ _ _ Hone) as [-> | (?&?&_&->&_)];
        [done | eauto].
Qed.

Section Format.

Variable str_int : Z -> pystr.
Variable format_thousands : Z -> pystr.

Abbreviation snapshot_summary_lines :=
  (snapshot_summary_lines str_int format_thousands).

Lemma snapshot_summary_length (s : PageSnapshot) :
  length (snapshot_summary_lines s) =
    (6 + (if has_page_error s then 1 else 0)
       + (if has_captcha s then 1 else 0)
       + (if viewers_shown s then 1 else 0))%nat.
Proof.
  unfold Formatter.snapshot_summary_lines, viewers_shown.
  destruct (has_page_error s), (has_captcha s),
    (viewer_count s) as [n|]; try destruct (n =? 0); reflexivity.
Qed.

Lemma snapshot_summary_warnings (s : PageSnapshot) :
  (line_page_error ∈ snapshot_summary_lines s <-> has_page_error s = true)
  /\ (line_captcha ∈ snapshot_summary_lines s <-> has_captcha s = true).
Proof.
  unfold Formatter.snapshot_summary_lines.
  destruct (has_page_error s), (has_captcha s),
    (has_video s), (has_error_message s), (has_live_content s),
    (viewer_count s) as [n|]; try destruct (n =? 0);
    cbn; rewrite ?elem_of_cons, ?elem_of_nil;
    (split; (split; [|try done; intros _; tauto]));
    intros H; decompose [or] H; try done; try discriminate.
Qed.

Lemma snapshot_summary_ends (s : PageSnapshot) :
  snapshot_summary_lines s !! 0%nat = Some (l_time ++ timestamp s)
  /\ last (snapshot_summary_lines s) =
       Some (l_html ++ format_thousands (html_size s) ++ s_bytes)
  /\ (forall n, viewer_count s = Some n -> n <> 0 ->
        snapshot_summary_lines s
          !! (length (snapshot_summary_lines s) - 2)%nat
        = Some (l_viewers ++ str_int n)).
Proof.
  unfold Formatter.snapshot_summary_lines.
  destruct (has_page_error s), (has_captcha s),
    (viewer_count s) as [n|]; try destruct (Z.eqb_spec n 0);
    (split_and!; [reflexivity | reflexivity |]);
    intros m Hm Hne; try discriminate; injection Hm as <-;
    try contradiction; reflexivity.
Qed.

Lemma snapshot_summary_viewers (s : PageSnapshot) (n : Z) :
  viewers_shown s = false ->
  l_viewers ++ str_int n ∉ snapshot_summary_lines s.
Proof.
  unfold Formatter.snapshot_summary_lines, viewers_shown.
  destruct (has_page_error s), (has_captcha s),
    (has_video s), (has_error_message s), (has_live_content s),
    (viewer_count s) as [m|]; try destruct (m =? 0);
    cbn; intros Hshown; try discriminate Hshown;
    rewrite ?elem_of_cons, ?elem_of_nil;
    intros H; decompose [or] H; try done; try discriminate.
Qed.

(** X19.  The lines of a snapshot summary.  The first is the time stamp
    and the last the HTML size; there are six lines, one more for a page
    error, one more for a captcha, one more for the viewer count.  The
    page-error and the captcha warning are among the lines exactly when
    the snapshot has the flag.  The viewer line stands second to last, and
    only for a count that is known and not zero: a count of zero is left
    out like an unknown one. *)
Theorem snapshot_summary_shape (s : PageSnapshot) :
  let lines := snapshot_summary_lines s in
  length lines =
    (6 + (if has_page_error s then 1 else 0)
       + (if has_captcha s then 1 else 0)
       + (if viewers_shown s then 1 else 0))%nat /\
  lines !! 0%nat = Some (l_time ++ timestamp s) /\
  last lines = Some (l_html ++ format_thousands (html_size s) ++ s_bytes) /\
  (line_page_error ∈ lines <-> has_page_error s = true) /\
  (line_captcha ∈ lines <-> has_captcha s = true) /\
  (forall n, viewer_count s = Some n -> n <> 0 ->
     lines !! (length lines - 2)%nat = Some (l_viewers ++ str_int n)) /\
  (viewer_count s = None \/ viewer_count s = Some 0 ->
   forall n, l_viewers ++ str_int n ∉ lines).
Proof.
  cbn zeta.
  destruct (snapshot_summary_ends s) as (Hfirst & Hlast & Hview).
  destruct (snapshot_summary_warnings s) as (Hpe & Hc).
  split_and!; try done.
  - apply snapshot_summary_length.
  - intros Hv n. apply snapshot_summary_viewers.
    unfold viewers_shown. by destruct Hv as [-> | ->].
Qed.

(** X20.  What a collector prints while collecting, from its preparation
    on.  The snapshots whose summary it has printed are the snapshots its
    session holds, in the same order, at most one per call of
    [collect_once].  None of them shows a page error or a captcha, so the
    two warning lines of the summary are never printed: every printed
    summary has six lines, or seven with the viewer count. *)
Theorem collector_prints_no_warnings (u l t : pystr)
    (calls : list (list Cycle)) (rs : list (py bool))
    (self : LiveCollector) :
  collect_calls calls (ready_collector u l t) = Some (rs, self) ->
  summaries (actions self) = MoreSamples.recorded self /\
  (length (MoreSamples.recorded self) <= length calls)%nat /\
  (forall s, s ∈ summaries (actions self) ->
     clean s /\
     (line_page_error ∉ snapshot_summary_lines s) /\
     (line_captcha ∉ snapshot_summary_lines s) /\
     length (snapshot_summary_lines s) =
       (if viewers_shown s then 7 else 6)%nat).
Proof.
  intros Hrun.
  destruct (collect_calls_print_what_they_record _ _ _ _ Hrun)
    as (new & Hsum & Hrec & Hclean & Hlen & _).
  cbn in Hsum, Hrec. rewrite Hsum, Hrec. split_and!; try done.
  intros s Hin.
  pose proof (proj1 (Forall_forall _ _) Hclean s Hin) as [Hpe Hc].
  destruct (snapshot_summary_warnings s) as (Hwpe & Hwc).
  split_and!.
  - done.
  - rewrite Hwpe, Hpe. discriminate.
  - rewrite Hwc, Hc. discriminate.
  - rewrite snapshot_summary_length, Hpe, Hc.
    by destruct (viewers_shown s).
Qed.

Lemma session_summary_page_ok (sess : MonitorSession) :
  Forall clean (snapshots sess) ->
  l_last_page ++ s_page_bad ∉ session_summary_lines str_int sess.
Proof.
  intros Hclean. unfold session_summary_lines.
  assert (Hlast : forall x, last (snapshots sess) = Some x ->
                            has_page_error x = false).
  { intros x Hx. apply last_Some_elem_of in Hx.
    by destruct (proj1 (Forall_forall _ _) Hclean x Hx). }
  destruct (last (snapshots sess)) as [x|].
  - rewrite (Hlast x eq_refl).
    destruct (has_error_message x), (has_video x),
      (end_time_or_running (end_time sess));
      cbn; rewrite ?elem_of_cons, ?elem_of_nil;
      intros H; decompose [or] H; try done; try discriminate.
  - destruct (end_time_or_running (end_time sess));
      cbn; rewrite ?elem_of_cons, ?elem_of_nil;
      intros H; decompose [or] H; try done; try discriminate.
Qed.

(** X21.  [finalize] after any calls of [collect_once] on a prepared
    collector, at a time whose text is [now].  It stamps the session and
    prints its summary, so the end-time line shows [now] and never the
    text for a running session.  Without recorded snapshots the summary
    has ten lines; otherwise fifteen, the last three describing the
    snapshot recorded last.  Because snapshots with a page error are never
    recorded, the page-state line always reads as normal: the error
    variant of that line is never printed. *)
Theorem finalize_summary (u l t now : pystr)
    (calls : list (list Cycle)) (rs : list (py bool))
    (self : LiveCollector) :
  now <> [] ->
  collect_calls calls (ready_collector u l t) = Some (rs, self) ->
  exists sess : MonitorSession,
    session self = Some sess /\
    Finalize.finalize str_int now self =
      (Returns (join [0x0a]
                  (session_summary_lines str_int
                     (SessionReport.finish now sess))),
       set_session (Some (SessionReport.finish now sess)) self) /\
    let lines :=
      session_summary_lines str_int (SessionReport.finish now sess) in
    lines !! 5%nat = Some (l_end ++ now) /\
    (l_last_page ++ s_page_bad ∉ lines) /\
    (MoreSamples.recorded self = [] -> length lines = 10%nat) /\
    (forall x, last (MoreSamples.recorded self) = Some x ->
       length lines = 15%nat /\
       drop 12 lines =
         [ l_last_detect ++
             (if has_error_message x then s_detected else s_undetected);
           l_last_page ++ s_page_ok;
           l_last_play ++ (if has_video x then s_play_yes else s_play_no) ]).
Proof.
  intros Hnow Hrun.
  destruct (collect_calls_print_what_they_record _ _ _ _ Hrun)
    as (new & _ & Hrec & Hclean & _ & Hsome).
  destruct Hsome as [sess Hsess]; [by eexists|].
  unfold MoreSamples.recorded in *. rewrite Hsess in *. cbn in Hrec.
  exists sess. split; [done|]. split.
  { unfold Finalize.finalize. by rewrite Hsess. }
  cbn zeta. split_and!.
  - unfold session_summary_lines. cbn [SessionReport.finish end_time].
    destruct now as [|c now']; [done|].
    by destruct (last _).
  - apply session_summary_page_ok. cbn. by rewrite Hrec.
  - intros Hnone. unfold session_summary_lines. cbn [SessionReport.finish
      snapshots]. by rewrite Hnone.
  - intros x Hx. unfold session_summary_lines.
    cbn [SessionReport.finish snapshots]. rewrite Hx.
    assert (Hpe : has_page_error x = false).
    { apply last_Some_elem_of in Hx. rewrite Hrec in Hx.
      by destruct (proj1 (Forall_forall _ _) Hclean x Hx). }
    rewrite Hpe. done.
Qed.

End Format.

Lemma collector_prints_no_warnings_witness :
  match collect_calls calls_error_then_healthy collector0 with
  | Some (rs, self) =>
      summaries (actions self) = MoreSamples.recorded self /\
      (length (MoreSamples.recorded self)
         <= length calls_error_then_healthy)%nat /\
      (forall s, s ∈ summaries (actions self) ->
         clean s /\
         (line_page_error ∉ snapshot_summary_lines str_digit str_digit s) /\
         (line_captcha ∉ snapshot_summary_lines str_digit str_digit s) /\
         length (snapshot_summary_lines str_digit str_digit s) =
           (if viewers_shown s then 7 else 6)%nat)
  | None => False
  end.
Proof.
  destruct (collect_calls calls_error_then_healthy collector0)
    as [[rs self]|] eqn:Hrun.
  - exact (collector_prints_no_warnings str_digit str_digit [] [] []
             calls_error_then_healthy rs self Hrun).
  - vm_compute in Hrun. discriminate Hrun.
Defined.

Lemma finalize_summary_witness :
  match collect_calls calls_error_then_healthy collector0 with
  | Some (rs, self) =>
      exists sess : MonitorSession,
        session self = Some sess /\
        Finalize.finalize str_digit (units "2024-01-01T10:05:00") self =
          (Returns (join [0x0a]
                      (session_summary_lines str_digit
                         (SessionReport.finish
                            (units "2024-01-01T10:05:00") sess))),
           set_session
             (Some (SessionReport.finish
                      (units "2024-01-01T10:05:00") sess)) self) /\
        let lines :=
          session_summary_lines str_digit
            (SessionReport.finish (units "2024-01-01T10:05:00") sess) in
        lines !! 5%nat = Some (l_end ++ units "2024-01-01T10:05:00") /\
        (l_last_page ++ s_page_bad ∉ lines) /\
        (MoreSamples.recorded self = [] -> length lines = 10%nat) /\
        (forall x, last (MoreSamples.recorded self) = Some x ->
           length lines = 15%nat /\
           drop 12 lines =
             [ l_last_detect ++
                 (if has_error_message x then s_detected else s_undetected);
               l_last_page ++ s_page_ok;
               l_last_play ++
                 (if has_video x then s_play_yes else s_play_no) ])
  | None => False
  end.
Proof.
  destruct (collect_calls calls_error_then_healthy collector0)
    as [[rs self]|] eqn:Hrun.
  - apply (finalize_summary str_digit [] [] []
             (units "2024-01-01T10:05:00")
             calls_error_then_healthy rs self); [discriminate | exact Hrun].
  - vm_compute in Hrun. discriminate Hrun.
Defined.

End FormatterFacts.
